(** * URL shortening service: validator, code generator and uniqueness
      resolution

    A shallow embedding of the Go packages [errors], [constants],
    [validator], [utils], [repository] and [services] of the service,
    together with the parts of the Go standard library they call
    ([unicode/utf8], [strings], [slices], [net/url], [crypto/rand]).

    Go strings are byte strings: [string] with one [ascii] per byte.
    Runes and Go [int] values are [Z].  A Go function returning
    [(T, error)] returns a [result T]; a function returning [error]
    alone returns an [option error], [None] being [nil]. *)

From Stdlib Require Import ZArith List String Ascii Bool Lia Arith.
From Stdlib Require Import DecimalString.
Import ListNotations.

Local Open Scope string_scope.
Local Open Scope Z_scope.

Set Implicit Arguments.

(* ================================================================== *)
(** ** Package [errors] (internal/errors/errors.go) *)
(* ================================================================== *)

Module Errors.

(** [ErrorCode] with its [iota + 1] numbering. *)
Inductive ErrorCode : Type :=
| ErrorCodeNotFound
| ErrorCodeDuplicate
| ErrorCodeValidation
| ErrorCodeInternal
| ErrorCodeBadRequest.

Definition ErrorCode_value (c : ErrorCode) : Z :=
  match c with
  | ErrorCodeNotFound => 1
  | ErrorCodeDuplicate => 2
  | ErrorCodeValidation => 3
  | ErrorCodeInternal => 4
  | ErrorCodeBadRequest => 5
  end.

Definition ErrorCode_eqb (a b : ErrorCode) : bool :=
  ErrorCode_value a =? ErrorCode_value b.

(** Go [error] values.  [ServiceError] is the package's own struct
    (always used through a pointer); [Foreign] stands for every error
    value made elsewhere ([errors.New], [fmt.Errorf], [url.Error], an
    I/O error), with the error it wraps, if any. *)
#[warnings="-register-all"]
Inductive error : Type :=
| ServiceError (Op : string) (Code : ErrorCode) (Message : string)
               (Err : option error)
| Foreign (text : string) (cause : option error).

Inductive result (A : Type) : Type :=
| Ok (a : A)
| Err (e : error).
Arguments Ok {A} a.
Arguments Err {A} e.

Definition NewNotFoundError (op message : string) : error :=
  ServiceError op ErrorCodeNotFound message None.

Definition NewValidationError (op message : string) (err : option error)
  : error :=
  ServiceError op ErrorCodeValidation message err.

Definition NewDuplicateError (op message : string) : error :=
  ServiceError op ErrorCodeDuplicate message None.

Definition NewInternalError (op message : string) (err : option error)
  : error :=
  ServiceError op ErrorCodeInternal message err.

(** The [Unwrap] method of [ServiceError], extended to foreign errors. *)
Definition Unwrap (e : error) : option error :=
  match e with
  | ServiceError _ _ _ inner => inner
  | Foreign _ inner => inner
  end.

(** [errors.As(err, &serviceErr)] for a [ServiceError] target: the
    first error of the [Unwrap] chain that is a [ServiceError].  The
    answer is that error's code. *)
Fixpoint As_ServiceError (e : error) : option ErrorCode :=
  match e with
  | ServiceError _ code _ _ => Some code
  | Foreign _ (Some inner) => As_ServiceError inner
  | Foreign _ None => None
  end.

(** The kind of an error as the caller sees it. *)
Definition code_of (e : error) : option ErrorCode :=
  match e with
  | ServiceError _ code _ _ => Some code
  | Foreign _ _ => None
  end.

Definition message_of (e : error) : string :=
  match e with
  | ServiceError _ _ m _ => m
  | Foreign m _ => m
  end.

End Errors.
Export Errors.

(* ================================================================== *)
(** ** Bytes, runes and the [range] loop over a string *)
(* ================================================================== *)

Module Utf8.

Definition byteZ (c : ascii) : Z := Z.of_nat (nat_of_ascii c).

Definition RuneError : Z := 65533.  (* U+FFFD *)
Definition RuneSelf : Z := 128.
Definition locb : Z := 128.         (* 0x80 *)
Definition hicb : Z := 191.         (* 0xBF *)

(** The [first] table of unicode/utf8: what a leading byte announces. *)
Inductive lead : Type :=
| lead_ascii                              (* as *)
| lead_invalid                            (* xx *)
| lead_multi (size : nat) (lo hi : Z).     (* s1..s7 with acceptRanges *)

Definition first (b : Z) : lead :=
  if b <? 128 then lead_ascii
  else if b <? 194 then lead_invalid               (* 0x80..0xC1 *)
  else if b <? 224 then lead_multi 2 locb hicb      (* 0xC2..0xDF *)
  else if b =? 224 then lead_multi 3 160 hicb       (* 0xE0 *)
  else if b <? 237 then lead_multi 3 locb hicb      (* 0xE1..0xEC *)
  else if b =? 237 then lead_multi 3 locb 159       (* 0xED *)
  else if b <? 240 then lead_multi 3 locb hicb      (* 0xEE..0xEF *)
  else if b =? 240 then lead_multi 4 144 hicb       (* 0xF0 *)
  else if b <? 244 then lead_multi 4 locb hicb      (* 0xF1..0xF3 *)
  else if b =? 244 then lead_multi 4 locb 143       (* 0xF4 *)
  else lead_invalid.                                (* 0xF5..0xFF *)

Definition continuation (lo hi b : Z) : bool := (lo <=? b) && (b <=? hi).

(** [utf8.DecodeRuneInString] on the byte values of the string: the
    rune and the number of bytes it takes. *)
Definition DecodeRune (s : list Z) : Z * nat :=
  match s with
  | [] => (RuneError, 0%nat)
  | s0 :: t =>
    match first s0 with
    | lead_ascii => (s0, 1%nat)
    | lead_invalid => (RuneError, 1%nat)
    | lead_multi sz lo hi =>
      if (List.length s <? sz)%nat then (RuneError, 1%nat) else
      match t with
      | [] => (RuneError, 1%nat)
      | s1 :: t1 =>
        if negb (continuation lo hi s1) then (RuneError, 1%nat)
        else if (sz <=? 2)%nat then
          (Z.lor (Z.shiftl (Z.land s0 31) 6) (Z.land s1 63), 2%nat)
        else
          match t1 with
          | [] => (RuneError, 1%nat)
          | s2 :: t2 =>
            if negb (continuation locb hicb s2) then (RuneError, 1%nat)
            else if (sz <=? 3)%nat then
              (Z.lor (Z.lor (Z.shiftl (Z.land s0 15) 12)
                            (Z.shiftl (Z.land s1 63) 6))
                     (Z.land s2 63), 3%nat)
            else
              match t2 with
              | [] => (RuneError, 1%nat)
              | s3 :: _ =>
                if negb (continuation locb hicb s3) then (RuneError, 1%nat)
                else
                  (Z.lor (Z.lor (Z.lor (Z.shiftl (Z.land s0 7) 18)
                                       (Z.shiftl (Z.land s1 63) 12))
                                (Z.shiftl (Z.land s2 63) 6))
                         (Z.land s3 63), 4%nat)
              end
          end
      end
    end
  end.

(** [for _, r := range s]: the runes the loop body sees, in order.
    [skip] counts the bytes still belonging to the rune decoded last,
    so that the loop index advances by the size of each rune. *)
Fixpoint range_from (skip : nat) (s : list Z) : list Z :=
  match s with
  | [] => []
  | _ :: t =>
    match skip with
    | S k => range_from k t
    | O => let (r, size) := DecodeRune s in r :: range_from (size - 1) t
    end
  end.

Definition bytes (s : string) : list Z :=
  map byteZ (list_ascii_of_string s).

Definition runes (s : string) : list Z := range_from 0 (bytes s).

End Utf8.
Export Utf8.

(* ================================================================== *)
(** ** Package [strings] and [slices] (standard library) *)
(* ================================================================== *)

Module Strings.

(** [len(s)]: the number of bytes. *)
Definition len (s : string) : Z := Z.of_nat (String.length s).

Definition between (lo hi c : ascii) : bool :=
  (nat_of_ascii lo <=? nat_of_ascii c)%nat
  && (nat_of_ascii c <=? nat_of_ascii hi)%nat.

Definition isUpper (c : ascii) : bool := between "A" "Z" c.

Definition lowerByte (c : ascii) : ascii :=
  if isUpper c then ascii_of_nat (nat_of_ascii c + 32) else c.

Fixpoint mapBytes (f : ascii -> ascii) (s : string) : string :=
  match s with
  | EmptyString => EmptyString
  | String c t => String (f c) (mapBytes f t)
  end.

Fixpoint isASCII (s : string) : bool :=
  match s with
  | EmptyString => true
  | String c t => (nat_of_ascii c <? 128)%nat && isASCII t
  end.

(** [strings.ToLower].  On a string of ASCII bytes Go maps ['A'..'Z']
    to ['a'..'z'] byte by byte.  A string holding a byte above 0x7F
    goes through the Unicode case tables, which are data of the
    standard library: [unicodeLower] stands for that branch. *)
Definition ToLowerWith (unicodeLower : string -> string) (s : string)
  : string :=
  if isASCII s then mapBytes lowerByte s else unicodeLower s.

(** The instance used to run examples: the Unicode branch lowers the
    ASCII letters only and leaves the other bytes as they are. *)
Definition ToLower : string -> string := ToLowerWith (mapBytes lowerByte).

(** [slices.Contains(list, x)] on strings. *)
Fixpoint Contains (l : list string) (x : string) : bool :=
  match l with
  | [] => false
  | y :: t => if String.eqb y x then true else Contains t x
  end.

(** [strings.HasPrefix]. *)
Definition HasPrefix (s p : string) : bool := String.prefix p s.

(** [strings.IndexByte]. *)
Fixpoint IndexByte (s : string) (c : ascii) : option nat :=
  match s with
  | EmptyString => None
  | String d t =>
    if Ascii.eqb d c then Some O
    else match IndexByte t c with
         | Some i => Some (S i)
         | None => None
         end
  end.

(** [strings.LastIndexByte]. *)
Fixpoint LastIndexByte (s : string) (c : ascii) : option nat :=
  match s with
  | EmptyString => None
  | String d t =>
    match LastIndexByte t c with
    | Some i => Some (S i)
    | None => if Ascii.eqb d c then Some O else None
    end
  end.

(** [strings.Count(s, string(c))]. *)
Fixpoint CountByte (s : string) (c : ascii) : nat :=
  match s with
  | EmptyString => O
  | String d t => ((if Ascii.eqb d c then 1 else 0) + CountByte t c)%nat
  end.

(** Slices [s[:i]] and [s[i:]]. *)
Definition upto (i : nat) (s : string) : string := substring 0 i s.
Definition from (i : nat) (s : string) : string :=
  substring i (String.length s - i) s.

(** [strings.Cut(s, string(c))]. *)
Definition CutByte (s : string) (c : ascii) : string * string * bool :=
  match IndexByte s c with
  | Some i => (upto i s, from (S i) s, true)
  | None => (s, EmptyString, false)
  end.

(** [strings.HasSuffix(s, string(c))]. *)
Fixpoint HasSuffixByte (s : string) (c : ascii) : bool :=
  match s with
  | EmptyString => false
  | String d EmptyString => Ascii.eqb d c
  | String _ t => HasSuffixByte t c
  end.

End Strings.

(* ================================================================== *)
(** ** Package [net/url] (standard library): [url.Parse] *)
(* ================================================================== *)

(** The validator calls [url.Parse] and reads [Scheme] and [Host] of the
    result.  This module follows the parser of the standard library
    function by function ([Parse], [parse], [getScheme],
    [parseAuthority], [parseHost], [unescape], [shouldEscape],
    [validUserinfo], [validOptionalPort]).  The fields [RawPath] and
    [RawFragment], encoding hints that no check depends on, are left
    out of the record. *)
Module NetURL.
Import Strings.

Local Open Scope nat_scope.

Record Userinfo : Type := mkUserinfo {
  username : string;
  password : string;
  passwordSet : bool
}.

Record URL : Type := mkURL {
  Scheme : string;
  Opaque : string;
  User : option Userinfo;
  Host : string;
  Path : string;
  OmitHost : bool;
  ForceQuery : bool;
  RawQuery : string;
  Fragment : string
}.

Inductive encoding : Type :=
| encodePath
| encodePathSegment
| encodeHost
| encodeZone
| encodeUserPassword
| encodeQueryComponent
| encodeFragment.

Definition encoding_eqb (a b : encoding) : bool :=
  match a, b with
  | encodePath, encodePath
  | encodePathSegment, encodePathSegment
  | encodeHost, encodeHost
  | encodeZone, encodeZone
  | encodeUserPassword, encodeUserPassword
  | encodeQueryComponent, encodeQueryComponent
  | encodeFragment, encodeFragment => true
  | _, _ => false
  end.

Definition errorsNew (text : string) : error := Foreign text None.

(** The double quote character. *)
Definition dquote : ascii := ascii_of_nat 34.

Definition isOneOf (c : ascii) (set : string) : bool :=
  existsb (Ascii.eqb c) (list_ascii_of_string set).

Definition isAlnumByte (c : ascii) : bool :=
  between "a" "z" c || between "A" "Z" c || between "0" "9" c.

Definition ishex (c : ascii) : bool :=
  between "0" "9" c || between "a" "f" c || between "A" "F" c.

Definition unhex (c : ascii) : nat :=
  if between "0" "9" c then nat_of_ascii c - nat_of_ascii "0"
  else if between "a" "f" c then nat_of_ascii c - nat_of_ascii "a" + 10
  else if between "A" "F" c then nat_of_ascii c - nat_of_ascii "A" + 10
  else 0.

Definition shouldEscape (c : ascii) (mode : encoding) : bool :=
  if isAlnumByte c then false
  else if (encoding_eqb mode encodeHost || encoding_eqb mode encodeZone)
          && (isOneOf c "!$&'()*+,;=:[]<>" || Ascii.eqb c dquote)
  then false
  else if isOneOf c "-_.~" then false
  else if isOneOf c "$&+,/:;=?@" then
    match mode with
    | encodePath => Ascii.eqb c "?"
    | encodePathSegment => isOneOf c "/;,?"
    | encodeUserPassword => isOneOf c "@/?:"
    | encodeQueryComponent => true
    | encodeFragment => false
    | encodeHost | encodeZone => true
    end
  else if encoding_eqb mode encodeFragment && isOneOf c "!()*" then false
  else true.

Definition EscapeError (s : string) : error :=
  errorsNew ("invalid URL escape " ++ s).

Definition InvalidHostError (s : string) : error :=
  errorsNew ("invalid character in host name " ++ s).

(** First loop of [unescape]: count the escapes and check them.  The
    answer is the pair [(n, hasPlus)]. *)
Fixpoint unescape_scan (mode : encoding) (s : string)
  : result (nat * bool) :=
  match s with
  | EmptyString => Ok (0, false)
  | String c t =>
    if Ascii.eqb c "%" then
      match t with
      | String a (String b t') =>
        let esc := String c (String a (String b EmptyString)) in
        if negb (ishex a) || negb (ishex b) then Err (EscapeError esc)
        else if encoding_eqb mode encodeHost && (unhex a <? 8)
                && negb (String.eqb esc "%25")
        then Err (EscapeError esc)
        else if encoding_eqb mode encodeZone
                && negb (String.eqb esc "%25")
                && negb (unhex a * 16 + unhex b =? 32)
                && shouldEscape (ascii_of_nat (unhex a * 16 + unhex b))
                                encodeHost
        then Err (EscapeError esc)
        else
          match unescape_scan mode t' with
          | Ok (n, hasPlus) => Ok (S n, hasPlus)
          | Err e => Err e
          end
      | _ => Err (EscapeError (upto 3 s))
      end
    else if Ascii.eqb c "+" then
      match unescape_scan mode t with
      | Ok (n, _) => Ok (n, encoding_eqb mode encodeQueryComponent)
      | Err e => Err e
      end
    else if (encoding_eqb mode encodeHost || encoding_eqb mode encodeZone)
            && (nat_of_ascii c <? 128) && shouldEscape c encodeHost
    then Err (InvalidHostError (String c EmptyString))
    else unescape_scan mode t
  end.

(** Second loop of [unescape], run on a string the first loop accepted
    (so every ['%'] is followed by two bytes). *)
Fixpoint unescape_build (mode : encoding) (s : string) : string :=
  match s with
  | EmptyString => EmptyString
  | String c t =>
    if Ascii.eqb c "%" then
      match t with
      | String a (String b t') =>
        String (ascii_of_nat (unhex a * 16 + unhex b))
               (unescape_build mode t')
      | _ => EmptyString
      end
    else if Ascii.eqb c "+" then
      String (if encoding_eqb mode encodeQueryComponent then " "%char
              else "+"%char)
             (unescape_build mode t)
    else String c (unescape_build mode t)
  end.

Definition unescape (s : string) (mode : encoding) : result string :=
  match unescape_scan mode s with
  | Err e => Err e
  | Ok (n, hasPlus) =>
    if (n =? 0) && negb hasPlus then Ok s
    else Ok (unescape_build mode s)
  end.

Definition stringContainsCTLByte (s : string) : bool :=
  existsb (fun b => (nat_of_ascii b <? 32) || (nat_of_ascii b =? 127))
          (list_ascii_of_string s).

(** The loop of [getScheme]; [i] is the index of the first byte of
    [s] within [rawURL]. *)
Fixpoint getScheme_loop (rawURL : string) (i : nat) (s : string)
  : result (string * string) :=
  match s with
  | EmptyString => Ok (EmptyString, rawURL)
  | String c t =>
    if between "a" "z" c || between "A" "Z" c then
      getScheme_loop rawURL (S i) t
    else if between "0" "9" c || isOneOf c "+-." then
      if i =? 0 then Ok (EmptyString, rawURL)
      else getScheme_loop rawURL (S i) t
    else if Ascii.eqb c ":" then
      if i =? 0 then Err (errorsNew "missing protocol scheme")
      else Ok (upto i rawURL, from (S i) rawURL)
    else Ok (EmptyString, rawURL)
  end.

Definition getScheme (rawURL : string) : result (string * string) :=
  getScheme_loop rawURL 0 rawURL.

Definition validOptionalPort (port : string) : bool :=
  match port with
  | EmptyString => true
  | String c t =>
    if negb (Ascii.eqb c ":") then false
    else forallb (fun r => negb ((r <? 48)%Z || (57 <? r)%Z)) (runes t)
  end.

Definition validUserinfo (s : string) : bool :=
  forallb
    (fun r =>
       ((65 <=? r) && (r <=? 90))%Z
       || ((97 <=? r) && (r <=? 122))%Z
       || ((48 <=? r) && (r <=? 57))%Z
       || existsb (Z.eqb r) (bytes "-._:~!$&'()*+,;=%@"))
    (runes s).

Definition parseHost (host : string) : result string :=
  if HasPrefix host "[" then
    match LastIndexByte host "]" with
    | None => Err (errorsNew "missing ']' in host")
    | Some i =>
      let colonPort := from (S i) host in
      if negb (validOptionalPort colonPort) then
        Err (errorsNew ("invalid port " ++ colonPort ++ " after host"))
      else
        match String.index 0 "%25" (upto i host) with
        | Some zone =>
          match unescape (upto zone host) encodeHost with
          | Err e => Err e
          | Ok host1 =>
            match unescape (substring zone (i - zone) host) encodeZone with
            | Err e => Err e
            | Ok host2 =>
              match unescape (from i host) encodeHost with
              | Err e => Err e
              | Ok host3 => Ok (host1 ++ host2 ++ host3)
              end
            end
          end
        | None => unescape host encodeHost
        end
    end
  else
    match LastIndexByte host ":" with
    | Some i =>
      let colonPort := from i host in
      if negb (validOptionalPort colonPort) then
        Err (errorsNew ("invalid port " ++ colonPort ++ " after host"))
      else unescape host encodeHost
    | None => unescape host encodeHost
    end.

Definition parseAuthority (authority : string)
  : result (option Userinfo * string) :=
  let i := LastIndexByte authority "@" in
  let parsed :=
    match i with
    | None => parseHost authority
    | Some i => parseHost (from (S i) authority)
    end in
  match parsed with
  | Err e => Err e
  | Ok host =>
    match i with
    | None => Ok (None, host)
    | Some i =>
      let userinfo := upto i authority in
      if negb (validUserinfo userinfo) then
        Err (errorsNew "net/url: invalid userinfo")
      else
        match IndexByte userinfo ":" with
        | None =>
          match unescape userinfo encodeUserPassword with
          | Err e => Err e
          | Ok u => Ok (Some (mkUserinfo u EmptyString false), host)
          end
        | Some _ =>
          let '(uname, pass, _) := CutByte userinfo ":" in
          match unescape uname encodeUserPassword with
          | Err e => Err e
          | Ok u =>
            match unescape pass encodeUserPassword with
            | Err e => Err e
            | Ok p => Ok (Some (mkUserinfo u p true), host)
            end
          end
        end
    end
  end.

(** [parse(rawURL, viaRequest)]. *)
Definition parse (rawURL : string) (viaRequest : bool) : result URL :=
  if stringContainsCTLByte rawURL then
    Err (errorsNew "net/url: invalid control character in URL")
  else if String.eqb rawURL "" && viaRequest then
    Err (errorsNew "empty url")
  else if String.eqb rawURL "*" then
    Ok (mkURL "" "" None "" "*" false false "" "")
  else
    match getScheme rawURL with
    | Err e => Err e
    | Ok (scheme0, rest0) =>
      let scheme := ToLower scheme0 in
      let '(rest1, rawQuery, forceQuery) :=
        if HasSuffixByte rest0 "?" && (CountByte rest0 "?" =? 1) then
          (upto (String.length rest0 - 1) rest0, EmptyString, true)
        else
          let '(before, after, _) := CutByte rest0 "?" in
          (before, after, false) in
      let rootless := negb (HasPrefix rest1 "/") in
      if rootless && negb (String.eqb scheme "") then
        Ok (mkURL scheme rest1 None "" "" false forceQuery rawQuery "")
      else if rootless && viaRequest then
        Err (errorsNew "invalid URI for request")
      else if rootless
              && (let '(segment, _, _) := CutByte rest1 "/" in
                  match IndexByte segment ":" with
                  | Some _ => true
                  | None => false
                  end)
      then Err (errorsNew "first path segment in URL cannot contain colon")
      else if (negb (String.eqb scheme "")
               || (negb viaRequest && negb (HasPrefix rest1 "///")))
              && HasPrefix rest1 "//"
      then
        let authority0 := from 2 rest1 in
        let '(authority, rest2) :=
          match IndexByte authority0 "/" with
          | Some i => (upto i authority0, from i authority0)
          | None => (authority0, EmptyString)
          end in
        match parseAuthority authority with
        | Err e => Err e
        | Ok (user, host) =>
          match unescape rest2 encodePath with
          | Err e => Err e
          | Ok path =>
            Ok (mkURL scheme "" user host path false forceQuery rawQuery "")
          end
        end
      else
        let omitHost := negb (String.eqb scheme "") && HasPrefix rest1 "/" in
        match unescape rest1 encodePath with
        | Err e => Err e
        | Ok path =>
          Ok (mkURL scheme "" None "" path omitHost forceQuery rawQuery "")
        end
    end.

(** [url.Parse]: cut off the fragment, parse the rest, then decode the
    fragment.  An error is wrapped in a [url.Error] for the ["parse"]
    operation. *)
Definition Parse (rawURL : string) : result URL :=
  let '(u, frag, _) := CutByte rawURL "#" in
  match parse u false with
  | Err e => Err (Foreign "parse" (Some e))
  | Ok url =>
    if String.eqb frag "" then Ok url
    else
      match unescape frag encodeFragment with
      | Err e => Err (Foreign "parse" (Some e))
      | Ok f =>
        Ok (mkURL (Scheme url) (Opaque url) (User url) (Host url) (Path url)
                  (OmitHost url) (ForceQuery url) (RawQuery url) f)
      end
  end.

End NetURL.


(* ================================================================== *)
(** ** Package [constants] *)
(* ================================================================== *)

Module Constants.

Definition ShortURLsCollection : string := "short_urls".
Definition DefaultPageSize : Z := 30.
Definition DefaultShortCodeLength : Z := 6.
Definition MaxURLLength : Z := 2048.

Definition BlockedDomains : list string :=
  [ "malware.com"; "phishing.com" ].

End Constants.

(* ================================================================== *)
(** ** Package [validator] *)
(* ================================================================== *)

(** The two standard-library functions [ValidateURL] depends on.  The
    validator is written against this interface, so that what is proved
    of it holds for every parser and every case mapping; [go_std] is
    the instance built from the models above. *)
Class GoStd : Type := {
  url_Parse : string -> result NetURL.URL;
  strings_ToLower : string -> string
}.

Definition go_std : GoStd := {|
  url_Parse := NetURL.Parse;
  strings_ToLower := Strings.ToLower
|}.

Module Validator.

Record URLValidator : Type := {
  maxURLLength : Z;
  blockedDomains : list string
}.

Definition NewURLValidator : URLValidator := {|
  maxURLLength := Constants.MaxURLLength;
  blockedDomains := Constants.BlockedDomains
|}.

Definition isAlphaNumeric (char : Z) : bool :=
  ((97 <=? char) && (char <=? 122))      (* 'a' .. 'z' *)
  || ((65 <=? char) && (char <=? 90))    (* 'A' .. 'Z' *)
  || ((48 <=? char) && (char <=? 57)).   (* '0' .. '9' *)

Definition errTooLong : error :=
  NewValidationError "validator.ValidateURL" "URL too long" None.
Definition errFormat (err : error) : error :=
  NewValidationError "validator.ValidateURL" "invalid URL format" (Some err).
Definition errScheme : error :=
  NewValidationError "validator.ValidateURL"
                     "only HTTP and HTTPS URLs are allowed" None.
Definition errBlocked : error :=
  NewValidationError "validator.ValidateURL" "domain is blocked" None.
Definition errCodeLength : error :=
  NewValidationError "validator.ValidateShortCode"
                     "short code must be between 4 and 20 characters" None.
Definition errCodeChars : error :=
  NewValidationError "validator.ValidateShortCode"
                     "short code can only contain alphanumeric characters"
                     None.

(** The [for _, char := range code] loop of [ValidateShortCode]. *)
Fixpoint checkRunes (rs : list Z) : option error :=
  match rs with
  | [] => None
  | char :: rest =>
    if negb (isAlphaNumeric char) then Some errCodeChars
    else checkRunes rest
  end.

Definition ValidateShortCode (v : URLValidator) (code : string)
  : option error :=
  if (Strings.len code <? 4) || (20 <? Strings.len code) then
    Some errCodeLength
  else checkRunes (runes code).

Section WithStd.
Context {std : GoStd}.

Definition isDomainBlocked (v : URLValidator) (domain : string) : bool :=
  let domain := strings_ToLower domain in
  Strings.Contains (blockedDomains v) domain.

Definition ValidateURL (v : URLValidator) (rawURL : string)
  : option error :=
  if maxURLLength v <? Strings.len rawURL then Some errTooLong
  else
    match url_Parse rawURL with
    | Err err => Some (errFormat err)
    | Ok parsed =>
      if negb (String.eqb (NetURL.Scheme parsed) "http")
         && negb (String.eqb (NetURL.Scheme parsed) "https")
      then Some errScheme
      else if isDomainBlocked v (NetURL.Host parsed) then Some errBlocked
      else None
    end.

End WithStd.

End Validator.

(* ================================================================== *)
(** ** Computations with state and panics *)
(* ================================================================== *)

(** A Go call either returns or panics.  [M W A] is a computation over
    a world [W] returning an [A]; the world is kept when the
    computation panics, so that what happened before remains visible. *)
Inductive Res (A : Type) : Type :=
| Done (a : A)
| Panicked (reason : string).
Arguments Done {A} a.
Arguments Panicked {A} reason.

Definition M (W A : Type) : Type := W -> Res A * W.

Definition ret {W A : Type} (a : A) : M W A := fun w => (Done a, w).

Definition panic {W A : Type} (reason : string) : M W A :=
  fun w => (Panicked reason, w).

Definition bind {W A B : Type} (m : M W A) (k : A -> M W B) : M W B :=
  fun w =>
    match m w with
    | (Done a, w') => k a w'
    | (Panicked reason, w') => (Panicked reason, w')
    end.

Declare Scope go_scope.
Delimit Scope go_scope with go.
Notation "x <- m ;; k" := (bind m (fun x => k))
  (at level 61, m at next level, right associativity) : go_scope.

(* ================================================================== *)
(** ** Package [crypto/rand] (standard library) *)
(* ================================================================== *)

Module Rand.

(** [rand.Reader], seen through the calls of [rand.Int] on it: call
    number [i] has outcome [draw i], an integer or an error of the
    random source.  [pos] counts the calls made so far. *)
Record Reader : Type := {
  draw : nat -> result Z;
  pos : nat
}.

(** What [rand.Int] promises for the next [n] calls with bound [max]:
    no error, and values in [[0, max)]. *)
Definition healthy (max : Z) (n : nat) (r : Reader) : Prop :=
  forall i, (pos r <= i < pos r + n)%nat ->
            exists x, draw r i = Ok x /\ 0 <= x < max.

(** [rand.Int(rand.Reader, max)]; it panics when [max <= 0]. *)
Definition Int (max : Z) : M Reader (result Z) :=
  fun r =>
    if max <=? 0 then (Panicked "crypto/rand: argument to Int is <= 0", r)
    else (Done (draw r (pos r)), {| draw := draw r; pos := S (pos r) |}).

End Rand.

(* ================================================================== *)
(** ** Package [utils] (internal/utils/shortcode.go) *)
(* ================================================================== *)

Module Utils.

Definition base62Chars : string :=
  "0123456789abcdefghijklmnopqrstuvwxyzABCDEFGHIJKLMNOPQRSTUVWXYZ".

(** [s[i]] for an [int64] index: [None] is the run-time panic. *)
Definition byteAt (s : string) (i : Z) : option ascii :=
  if i <? 0 then None else String.get (Z.to_nat i) s.

(** [result[i] = c] on the byte slice. *)
Fixpoint setAt (i : nat) (c : ascii) (l : list ascii) : list ascii :=
  match l, i with
  | [], _ => []
  | _ :: t, O => c :: t
  | h :: t, S j => h :: setAt j c t
  end.

Local Open Scope go_scope.

(** The loop [for i := range result] with [todo] iterations left. *)
Fixpoint GenerateShortCode_loop (todo i : nat) (result : list ascii)
  : M Rand.Reader (Errors.result string) :=
  match todo with
  | O => ret (Ok (string_of_list_ascii result))
  | S todo' =>
    num <- Rand.Int (Strings.len base62Chars) ;;
    match num with
    | Err err => ret (Err err)
    | Ok n =>
      match byteAt base62Chars n with
      | None => panic "index out of range"
      | Some c => GenerateShortCode_loop todo' (S i) (setAt i c result)
      end
    end
  end.

Definition GenerateShortCode (length : Z)
  : M Rand.Reader (Errors.result string) :=
  if length <? 0 then panic "makeslice: len out of range"
  else
    let result := repeat zero (Z.to_nat length) in
    GenerateShortCode_loop (Z.to_nat length) 0 result.

(** The inner loop of [IsValidShortCode]: is [char] a rune of
    [base62Chars]? *)
Definition isBase62 (char : Z) : bool :=
  existsb (Z.eqb char) (runes base62Chars).

Definition IsValidShortCode (shortCode : string) : bool :=
  if Strings.len shortCode =? 0 then false
  else forallb isBase62 (runes shortCode).

End Utils.


(* ================================================================== *)
(** ** Packages [models] and [dto] *)
(* ================================================================== *)

(** [time.Time] values; [0] is the zero time. *)
Definition Time : Type := Z.

Module Models.

Record ShortURL : Type := {
  ID : string;
  URL : string;
  ShortCode : string;
  AccessCount : Z;
  Created : Time;
  Updated : Time
}.

End Models.

Module Dto.

Record CreateURLRequest : Type := {
  URL : string;
  CustomCode : option string      (* a nil pointer is [None] *)
}.

Record UpdateURLRequest : Type := {
  NewURL : string                 (* the field [URL] of the request *)
}.

(** [CreateURLResponse], [GetURLResponse], [UpdateURLResponse] and
    [GetStatsResponse] have the same fields, up to [AccessCount], which
    the first lacks and which the service leaves at zero in the
    second. *)
Record Response : Type := {
  ID : string;
  RespURL : string;
  ShortCode : string;
  AccessCount : Z;
  CreatedAt : Time;
  UpdatedAt : Time
}.

End Dto.

(* ================================================================== *)
(** ** Package [repository] *)
(* ================================================================== *)

Module Repository.

(** The interface [URLRepository], over the state [S] of whatever
    stands behind it.  A method returning a pointer returns an
    [option]: [None] is the nil pointer.  [Create] fills [ID],
    [Created] and [Updated] of the record it is handed through the
    pointer; the record after the call comes back with a nil error. *)
Class URLRepository (S : Type) : Type := {
  Create : Models.ShortURL -> S -> result Models.ShortURL * S;
  GetByShortCode : string -> S -> result (option Models.ShortURL) * S;
  Update : string -> string -> S -> result (option Models.ShortURL) * S;
  Delete : string -> S -> option error * S;
  IncrementAccessCount : string -> S -> option error * S;
  ExistsByShortCode : string -> S -> result bool * S
}.

(** *** The PocketBase implementation: lookup and existence check *)

Record pocketBaseRecord : Type := {
  pb_ID : string;
  pb_Created : string;
  pb_Updated : string;
  pb_URL : string;
  pb_ShortCode : string;
  pb_AccessCount : Z
}.

(** What the HTTP round trip of [GetByShortCode] can come to: the
    request could not be built, the client returned an error, or a
    response arrived with a status code and a body that decodes to a
    list of items or fails to decode. *)
Inductive Reply : Type :=
| NoRequest (err : error)
| NoResponse (err : error)
| Response (StatusCode : Z) (decoded : result (list pocketBaseRecord)).

Definition StatusOK : Z := 200.

Section PocketBase.

(** The state of the record store, the round trip that lists the
    records whose [short_code] equals the code asked for, and the
    parser of its timestamps. *)
Variable PB : Type.
Variable listByShortCode : string -> PB -> Reply * PB.
Variable parsePBTime : string -> Time.

Definition impl_GetByShortCode (shortCode : string) (pb : PB)
  : result (option Models.ShortURL) * PB :=
  match listByShortCode shortCode pb with
  | (NoRequest err, pb') =>
    (Err (NewInternalError "repository.GetByShortCode"
                           "failed to create request" (Some err)), pb')
  | (NoResponse err, pb') =>
    (Err (NewInternalError "repository.GetByShortCode"
                           "failed to lookup record" (Some err)), pb')
  | (Response status decoded, pb') =>
    if negb (status =? StatusOK) then
      (Err (NewNotFoundError "repository.GetByShortCode"
                             "short URL not found"), pb')
    else
      match decoded with
      | Err err =>
        (Err (NewInternalError "repository.GetByShortCode"
                               "failed to decode response" (Some err)), pb')
      | Ok [] =>
        (Err (NewNotFoundError "repository.GetByShortCode"
                               "short URL not found"), pb')
      | Ok (record :: _) =>
        (Ok (Some {| Models.ID := pb_ID record;
                     Models.URL := pb_URL record;
                     Models.ShortCode := pb_ShortCode record;
                     Models.AccessCount := pb_AccessCount record;
                     Models.Created := parsePBTime (pb_Created record);
                     Models.Updated := parsePBTime (pb_Updated record) |}),
         pb')
      end
  end.

End PocketBase.

(** [ExistsByShortCode], over the lookup [get] it calls as
    [r.GetByShortCode]. *)
Definition ExistsByShortCode_via {S : Type}
    (get : string -> S -> result (option Models.ShortURL) * S)
    (shortCode : string) (s : S) : result bool * S :=
  match get shortCode s with
  | (Err err, s') =>
    match As_ServiceError err with
    | Some ErrorCodeNotFound => (Ok false, s')
    | _ => (Err err, s')
    end
  | (Ok shortURL, s') =>
    (Ok (match shortURL with Some _ => true | None => false end), s')
  end.

Definition impl_ExistsByShortCode {PB : Type}
    (listByShortCode : string -> PB -> Reply * PB)
    (parsePBTime : string -> Time)
  : string -> PB -> result bool * PB :=
  ExistsByShortCode_via (impl_GetByShortCode listByShortCode parsePBTime).

End Repository.
Export Repository.

(* ================================================================== *)
(** ** Package [services] (internal/services/url_service.go) *)
(* ================================================================== *)

Module Services.
Import Validator.

(** What the service does to the outside, with what came back: a call
    of the code generator or of a repository method. *)
Inductive Event : Type :=
| EvGenerate (length : Z) (r : result string)
| EvCreate (shortURL : Models.ShortURL) (r : result Models.ShortURL)
| EvGetByShortCode (shortCode : string)
                   (r : result (option Models.ShortURL))
| EvUpdate (shortCode url : string) (r : result (option Models.ShortURL))
| EvDelete (shortCode : string) (r : option error)
| EvIncrementAccessCount (shortCode : string) (r : option error)
| EvExistsByShortCode (shortCode : string) (r : result bool).

(** The world of a request: the store behind the repository, the
    random source, and the log of the events so far. *)
Record World (S : Type) : Type := {
  store : S;
  rand : Rand.Reader;
  log : list Event
}.
Arguments store {S} w.
Arguments rand {S} w.
Arguments log {S} w.

Section Service.

Context {std : GoStd}.
Variable S : Type.
Context {repo : URLRepository S}.

(** The [validator] field of [urlServiceImpl], set by [NewURLService]. *)
Definition validator : URLValidator := NewURLValidator.

(** A repository method called through [s.repo], logged. *)
Definition callRepo {A : Type} (method : S -> A * S) (ev : A -> Event)
  : M (World S) A :=
  fun w =>
    let (a, s') := method (store w) in
    (Done a, {| store := s'; rand := rand w; log := log w ++ [ev a] |}).

(** [utils.GenerateShortCode(length)] run on the random source of the
    world, logged when it returns. *)
Definition callGenerate (length : Z) : M (World S) (result string) :=
  fun w =>
    match Utils.GenerateShortCode length (rand w) with
    | (Done r, rd') =>
      (Done r, {| store := store w; rand := rd';
                  log := log w ++ [EvGenerate length r] |})
    | (Panicked reason, rd') =>
      (Panicked reason, {| store := store w; rand := rd'; log := log w |})
    end.

Local Open Scope go_scope.

(** The loop [for i := 0; i < 10; i++] of [generateUniqueShortCode],
    with [attempts] iterations left, and what follows it. *)
Fixpoint generateUniqueShortCode_loop (attempts : nat)
  : M (World S) (result string) :=
  match attempts with
  | O =>
    ret (Err (NewInternalError "service.generateUniqueShortCode"
                "failed to generate unique code after 10 attempts" None))
  | Datatypes.S attempts' =>
    generated <- callGenerate 6 ;;
    match generated with
    | Err err =>
      ret (Err (NewInternalError "service.generateUniqueShortCode"
                  "failed to generate short code" (Some err)))
    | Ok code =>
      found <- callRepo (ExistsByShortCode code) (EvExistsByShortCode code) ;;
      match found with
      | Err err => ret (Err err)
      | Ok false => ret (Ok code)
      | Ok true => generateUniqueShortCode_loop attempts'
      end
    end
  end.

Definition generateUniqueShortCode : M (World S) (result string) :=
  generateUniqueShortCode_loop 10.

(** A dereference of a pointer a repository method returned. *)
Definition deref {A : Type} (p : option A) : M (World S) A :=
  match p with
  | Some a => ret a
  | None => panic "invalid memory address or nil pointer dereference"
  end.

Definition CreateShortURL (req : Dto.CreateURLRequest)
  : M (World S) (result Dto.Response) :=
  match ValidateURL validator (Dto.URL req) with
  | Some err => ret (Err err)
  | None =>
    resolved <-
      match Dto.CustomCode req with
      | Some customCode =>
        match ValidateShortCode validator customCode with
        | Some err => ret (Err err)
        | None =>
          found <- callRepo (ExistsByShortCode customCode)
                            (EvExistsByShortCode customCode) ;;
          match found with
          | Err err =>
            ret (Err (NewInternalError "service.CreateShortURL"
                        "failed to check code existence" (Some err)))
          | Ok true =>
            ret (Err (NewDuplicateError "service.CreateShortURL"
                        "short code already exists"))
          | Ok false => ret (Ok customCode)
          end
        end
      | None =>
        generated <- generateUniqueShortCode ;;
        match generated with
        | Err err =>
          ret (Err (NewInternalError "service.CreateShortURL"
                      "failed to generate short code" (Some err)))
        | Ok code => ret (Ok code)
        end
      end ;;
    match resolved with
    | Err err => ret (Err err)
    | Ok shortCode =>
      let shortURL := {| Models.ID := "";
                         Models.URL := Dto.URL req;
                         Models.ShortCode := shortCode;
                         Models.AccessCount := 0;
                         Models.Created := 0;
                         Models.Updated := 0 |} in
      created <- callRepo (Create shortURL) (EvCreate shortURL) ;;
      match created with
      | Err err => ret (Err err)
      | Ok shortURL =>
        ret (Ok {| Dto.ID := Models.ID shortURL;
                   Dto.RespURL := Models.URL shortURL;
                   Dto.ShortCode := Models.ShortCode shortURL;
                   Dto.AccessCount := 0;
                   Dto.CreatedAt := Models.Created shortURL;
                   Dto.UpdatedAt := Models.Updated shortURL |})
      end
    end
  end.

Definition GetOriginalURL (shortCode : string) : M (World S) (result Dto.Response) :=
  looked <- callRepo (GetByShortCode shortCode)
                     (EvGetByShortCode shortCode) ;;
  match looked with
  | Err err => ret (Err err)
  | Ok shortURL =>
    bumped <- callRepo (IncrementAccessCount shortCode)
                       (EvIncrementAccessCount shortCode) ;;
    match bumped with
    | Some err =>
      ret (Err (NewInternalError "service.GetOriginalURL"
                  "failed to increment access count" (Some err)))
    | None =>
      shortURL <- deref shortURL ;;
      ret (Ok {| Dto.ID := Models.ID shortURL;
                 Dto.RespURL := Models.URL shortURL;
                 Dto.ShortCode := Models.ShortCode shortURL;
                 Dto.AccessCount := 0;
                 Dto.CreatedAt := Models.Created shortURL;
                 Dto.UpdatedAt := Models.Updated shortURL |})
    end
  end.

Definition UpdateShortURL (shortCode : string) (req : Dto.UpdateURLRequest)
  : M (World S) (result Dto.Response) :=
  match ValidateURL validator (Dto.NewURL req) with
  | Some err => ret (Err err)
  | None =>
    updated <- callRepo (Update shortCode (Dto.NewURL req))
                        (EvUpdate shortCode (Dto.NewURL req)) ;;
    match updated with
    | Err err => ret (Err err)
    | Ok updatedURL =>
      updatedURL <- deref updatedURL ;;
      ret (Ok {| Dto.ID := Models.ID updatedURL;
                 Dto.RespURL := Models.URL updatedURL;
                 Dto.ShortCode := Models.ShortCode updatedURL;
                 Dto.AccessCount := Models.AccessCount updatedURL;
                 Dto.CreatedAt := Models.Created updatedURL;
                 Dto.UpdatedAt := Models.Updated updatedURL |})
    end
  end.

Definition DeleteShortURL (shortCode : string) : M (World S) (option error) :=
  callRepo (Delete shortCode) (EvDelete shortCode).

Definition GetStatistics (shortCode : string) : M (World S) (result Dto.Response) :=
  looked <- callRepo (GetByShortCode shortCode)
                     (EvGetByShortCode shortCode) ;;
  match looked with
  | Err err => ret (Err err)
  | Ok shortURL =>
    shortURL <- deref shortURL ;;
    ret (Ok {| Dto.ID := Models.ID shortURL;
               Dto.RespURL := Models.URL shortURL;
               Dto.ShortCode := Models.ShortCode shortURL;
               Dto.AccessCount := Models.AccessCount shortURL;
               Dto.CreatedAt := Models.Created shortURL;
               Dto.UpdatedAt := Models.Updated shortURL |})
  end.

End Service.

End Services.

(* ================================================================== *)
(** ** An in-memory record store *)
(* ================================================================== *)

(** A record store kept in memory, standing behind the repository
    when the service is run on concrete requests.  Its lookup is the
    lookup of the PocketBase implementation over a list endpoint served
    from memory; its existence check is [ExistsByShortCode_via] that
    lookup. *)
Module InMemory.

Definition Store : Type := list Models.ShortURL.

Definition hasCode (code : string) (r : Models.ShortURL) : bool :=
  String.eqb (Models.ShortCode r) code.

Definition toRecord (r : Models.ShortURL) : pocketBaseRecord := {|
  pb_ID := Models.ID r;
  pb_Created := "";
  pb_Updated := "";
  pb_URL := Models.URL r;
  pb_ShortCode := Models.ShortCode r;
  pb_AccessCount := Models.AccessCount r
|}.

Definition listByShortCode (code : string) (st : Store) : Reply * Store :=
  (Response StatusOK (Ok (map toRecord (filter (hasCode code) st))), st).

Definition lookup : string -> Store -> result (option Models.ShortURL) * Store :=
  impl_GetByShortCode listByShortCode (fun _ => 0).

Definition withURL (url : string) (r : Models.ShortURL) : Models.ShortURL := {|
  Models.ID := Models.ID r;
  Models.URL := url;
  Models.ShortCode := Models.ShortCode r;
  Models.AccessCount := Models.AccessCount r;
  Models.Created := Models.Created r;
  Models.Updated := Models.Updated r
|}.

Definition bump (r : Models.ShortURL) : Models.ShortURL := {|
  Models.ID := Models.ID r;
  Models.URL := Models.URL r;
  Models.ShortCode := Models.ShortCode r;
  Models.AccessCount := Models.AccessCount r + 1;
  Models.Created := Models.Created r;
  Models.Updated := Models.Updated r
|}.

Definition onCode (code : string) (f : Models.ShortURL -> Models.ShortURL)
    (st : Store) : Store :=
  map (fun r => if hasCode code r then f r else r) st.

Definition memRepo : URLRepository Store := {|
  Create shortURL st :=
    if existsb (hasCode (Models.ShortCode shortURL)) st then
      (Err (NewDuplicateError "repository.Create"
                              "short code already exists"), st)
    else
      let stored := {| Models.ID := "rec-" ++ Models.ShortCode shortURL;
                       Models.URL := Models.URL shortURL;
                       Models.ShortCode := Models.ShortCode shortURL;
                       Models.AccessCount := 0;
                       Models.Created := 1;
                       Models.Updated := 1 |} in
      (Ok stored, (st ++ [stored])%list);
  GetByShortCode := lookup;
  Update code url st :=
    match lookup code st with
    | (Err err, st') => (Err err, st')
    | (Ok None, st') =>
      (Err (NewNotFoundError "repository.Update" "record not found"), st')
    | (Ok (Some r), st') => (Ok (Some (withURL url r)),
                             onCode code (withURL url) st')
    end;
  Delete code st :=
    match lookup code st with
    | (Err err, st') => (Some err, st')
    | (Ok None, st') =>
      (Some (NewNotFoundError "repository.Delete" "record not found"), st')
    | (Ok (Some _), st') =>
      (None, filter (fun r => negb (hasCode code r)) st')
    end;
  IncrementAccessCount code st :=
    match lookup code st with
    | (Err err, st') => (Some err, st')
    | (Ok None, st') =>
      (Some (NewNotFoundError "repository.IncrementAccessCount"
                              "record not found"), st')
    | (Ok (Some _), st') => (None, onCode code bump st')
    end;
  ExistsByShortCode := ExistsByShortCode_via lookup
|}.

(** A store whose lookups fail in transport. *)
Definition downRepo : URLRepository unit := {|
  Create _ st := (Err (Foreign "connection refused" None), st);
  GetByShortCode :=
    impl_GetByShortCode
      (fun _ st => (NoResponse (Foreign "connection refused" None), st))
      (fun _ => 0);
  Update _ _ st := (Err (Foreign "connection refused" None), st);
  Delete _ st := (Some (Foreign "connection refused" None), st);
  IncrementAccessCount _ st := (Some (Foreign "connection refused" None), st);
  ExistsByShortCode :=
    ExistsByShortCode_via
      (impl_GetByShortCode
         (fun _ st => (NoResponse (Foreign "connection refused" None), st))
         (fun _ => 0))
|}.


Definition counting : Rand.Reader :=
  {| Rand.draw := fun i => Ok (Z.of_nat i mod 62); Rand.pos := 0 |}.

Definition broken : Rand.Reader :=
  {| Rand.draw := fun _ => Err (Foreign "entropy source unavailable" None);
     Rand.pos := 0 |}.

Definition world {S : Type} (st : S) (rd : Rand.Reader) : Services.World S :=
  {| Services.store := st; Services.rand := rd; Services.log := [] |}.

Definition record (code url : string) : Models.ShortURL := {|
  Models.ID := "rec-" ++ code;
  Models.URL := url;
  Models.ShortCode := code;
  Models.AccessCount := 0;
  Models.Created := 1;
  Models.Updated := 1
|}.

End InMemory.

(* ================================================================== *)
(** ** Vocabulary of the statements *)
(* ================================================================== *)

(** Names for what the statements below speak of: the alphabet, the
    errors the service builds, the shape of its log. *)
Module Observe.
Import Validator Utils Services.

Definition nonAlphanumeric (r : Z) : Prop := isAlphaNumeric r = false.
Definition alphanumeric (r : Z) : Prop := isAlphaNumeric r = true.

(** [ValidateURL] returning nil. *)
Definition accepted : option error := None.

(** The symbols of [base62Chars]. *)
Definition alphabet : list ascii := list_ascii_of_string base62Chars.

(** The random source after [n] more calls of [rand.Int]. *)
Definition advance (n : nat) (rd : Rand.Reader) : Rand.Reader :=
  {| Rand.draw := Rand.draw rd; Rand.pos := Rand.pos rd + n |}.

(** A cycle whose code the store reported as existing. *)
Definition collision (code : string) : list Event :=
  [ EvGenerate 6 (Ok code); EvExistsByShortCode code (Ok true) ].

Definition collisions (codes : list string) : list Event :=
  flat_map collision codes.

Definition errExhausted : error :=
  NewInternalError "service.generateUniqueShortCode"
                   "failed to generate unique code after 10 attempts" None.

Definition errGenerate (err : error) : error :=
  NewInternalError "service.generateUniqueShortCode"
                   "failed to generate short code" (Some err).

(** How a run of the loop with [limit] iterations ends after the
    collisions [codes]: the events of its last cycle and its result. *)
Inductive Resolved (limit : nat) (codes : list string)
  : list Event -> Res (result string) -> Prop :=
| found (code : string) :
    (List.length codes < limit)%nat ->
    Resolved limit codes
             [ EvGenerate 6 (Ok code); EvExistsByShortCode code (Ok false) ]
             (Done (Ok code))
| exhausted :
    List.length codes = limit ->
    Resolved limit codes [] (Done (Err errExhausted))
| source_failed (err : error) :
    (List.length codes < limit)%nat ->
    Resolved limit codes [ EvGenerate 6 (Err err) ]
             (Done (Err (errGenerate err)))
| check_failed (code : string) (err : error) :
    (List.length codes < limit)%nat ->
    Resolved limit codes
             [ EvGenerate 6 (Ok code); EvExistsByShortCode code (Err err) ]
             (Done (Err err))
| generator_panicked (reason : string) :
    (List.length codes < limit)%nat ->
    Resolved limit codes [] (Panicked reason).


Definition isGeneration (ev : Event) : bool :=
  match ev with
  | EvGenerate _ _ => true
  | _ => false
  end.

(** The records handed to [Create]. *)
Fixpoint creates (evs : list Event) : list Models.ShortURL :=
  match evs with
  | [] => []
  | EvCreate shortURL _ :: rest => shortURL :: creates rest
  | _ :: rest => creates rest
  end.


Definition returned {A : Type} (r : Res A) : Prop := exists a, r = Done a.

(** The record [CreateShortURL] builds for a URL and a resolved code,
    and the response it makes of what [Create] returned. *)
Definition newShortURL (url code : string) : Models.ShortURL := {|
  Models.ID := "";
  Models.URL := url;
  Models.ShortCode := code;
  Models.AccessCount := 0;
  Models.Created := 0;
  Models.Updated := 0
|}.

Definition respond (created : result Models.ShortURL) : result Dto.Response :=
  match created with
  | Err err => Err err
  | Ok shortURL =>
    Ok {| Dto.ID := Models.ID shortURL;
          Dto.RespURL := Models.URL shortURL;
          Dto.ShortCode := Models.ShortCode shortURL;
          Dto.AccessCount := 0;
          Dto.CreatedAt := Models.Created shortURL;
          Dto.UpdatedAt := Models.Updated shortURL |}
  end.

Definition errCheck (err : error) : error :=
  NewInternalError "service.CreateShortURL" "failed to check code existence"
                   (Some err).

Definition errDuplicate : error :=
  NewDuplicateError "service.CreateShortURL" "short code already exists".

Definition errResolve (err : error) : error :=
  NewInternalError "service.CreateShortURL" "failed to generate short code"
                   (Some err).

(** The code the request resolves to in the world [w]: its custom
    code, of valid shape and reported as not existing, or the code
    [generateUniqueShortCode] returns. *)
Definition resolved {std : GoStd} {S : Type} {repo : URLRepository S}
    (req : Dto.CreateURLRequest) (w : World S) (code : string) : Prop :=
  match Dto.CustomCode req with
  | Some customCode =>
    customCode = code
    /\ ValidateShortCode validator code = None
    /\ fst (ExistsByShortCode code (store w)) = Ok false
  | None => fst (generateUniqueShortCode w) = Done (Ok code)
  end.

(** The world [w] after the repository calls [new] left the store [s']. *)
Definition world_after {S : Type} (w : World S) (s' : S) (new : list Event)
  : World S :=
  {| store := s'; rand := rand w; log := log w ++ new |}.

Definition isValidationError (r : Res (result Dto.Response)) : bool :=
  match r with
  | Done (Err (ServiceError _ ErrorCodeValidation _ _)) => true
  | _ => false
  end.

End Observe.

(** Worlds and requests the statements are run on. *)
Module Scenarios.
Import Services.


Definition request (url : string) (custom : option string)
  : Dto.CreateURLRequest :=
  {| Dto.URL := url; Dto.CustomCode := custom |}.

Definition emptyStore : World InMemory.Store :=
  InMemory.world [] InMemory.counting.

(** A URL of 2068 bytes. *)
Definition longURL : string :=
  "https://example.com/" ++ string_of_list_ascii (repeat "a"%char 2048).

End Scenarios.

(* ================================================================== *)
(** ** Package [errors]: the text of an error *)
(* ================================================================== *)

Module ErrorsText.

(** [errors.As(err, &serviceErr)] again, this time with the
    [ServiceError] it stores in [serviceErr]. *)
Fixpoint As_target (e : error) : option error :=
  match e with
  | ServiceError _ _ _ _ => Some e
  | Foreign _ (Some inner) => As_target inner
  | Foreign _ None => None
  end.

Section Text.

(** The [Error] method of the errors made outside the package. *)
Variable foreignText : error -> string.

(** The [Error] method of [ServiceError]; the verb [%v] prints the
    wrapped error with its own [Error] method. *)
Fixpoint ErrorString (e : error) : string :=
  match e with
  | ServiceError op _ message inner =>
    match inner with
    | Some err => op ++ ": " ++ message ++ ": " ++ ErrorString err
    | None => op ++ ": " ++ message
    end
  | Foreign _ _ => foreignText e
  end.

End Text.

End ErrorsText.

(* ================================================================== *)
(** ** Package [repository]: the writes of the PocketBase implementation *)
(* ================================================================== *)

Module PocketBase.

Record pocketBaseCreateRequest : Type := {
  create_URL : string;
  create_ShortCode : string;
  create_AccessCount : Z
}.

(** Both fields are pointers with [omitempty]: [None] is left out of
    the body. *)
Record pocketBaseUpdateRequest : Type := {
  update_AccessCount : option Z;
  update_URL : option string
}.

(** What sending a record can come to: the body could not be
    marshalled, the request could not be built, the client returned
    an error, or a response arrived with a status code and a body that
    decodes to a record or fails to decode. *)
Inductive Exchange : Type :=
| NotMarshalled (err : error)
| NotBuilt (err : error)
| NotSent (err : error)
| Answered (StatusCode : Z) (decoded : result pocketBaseRecord).

(** The same for a DELETE, which has no body to marshal and whose
    response body is not read. *)
Inductive Removal : Type :=
| RemovalNotBuilt (err : error)
| RemovalNotSent (err : error)
| RemovalAnswered (StatusCode : Z).

Definition StatusCreated : Z := 201.
Definition StatusNoContent : Z := 204.
Definition StatusConflict : Z := 409.

(** [fmt.Errorf("status %d", resp.StatusCode)]. *)
Definition statusError (status : Z) : error :=
  Foreign ("status " ++ NilZero.string_of_int (Z.to_int status)) None.

(** [int64] addition wraps around. *)
Definition wrap64 (z : Z) : Z := (z + 2 ^ 63) mod 2 ^ 64 - 2 ^ 63.

Section Impl.

(** The state of the record store and its four endpoints: the list
    filtered by short code, POST of a new record, PATCH and DELETE of
    the record with a given id; and the parser of timestamps. *)
Variable PB : Type.
Variable listByShortCode : string -> PB -> Reply * PB.
Variable postRecord : pocketBaseCreateRequest -> PB -> Exchange * PB.
Variable patchRecord : string -> pocketBaseUpdateRequest -> PB -> Exchange * PB.
Variable deleteRecord : string -> PB -> Removal * PB.
Variable parsePBTime : string -> Time.

Definition lookup : string -> PB -> result (option Models.ShortURL) * PB :=
  impl_GetByShortCode listByShortCode parsePBTime.

Definition impl_Create (shortURL : Models.ShortURL) (pb : PB)
  : result Models.ShortURL * PB :=
  let reqBody := {| create_URL := Models.URL shortURL;
                    create_ShortCode := Models.ShortCode shortURL;
                    create_AccessCount := 0 |} in
  match postRecord reqBody pb with
  | (NotMarshalled err, pb') =>
    (Err (NewInternalError "repository.Create"
                           "failed to marshal request" (Some err)), pb')
  | (NotBuilt err, pb') =>
    (Err (NewInternalError "repository.Create"
                           "failed to create request" (Some err)), pb')
  | (NotSent err, pb') =>
    (Err (NewInternalError "repository.Create"
                           "failed to create record" (Some err)), pb')
  | (Answered status decoded, pb') =>
    if negb (status =? StatusOK) && negb (status =? StatusCreated) then
      if status =? StatusConflict then
        (Err (NewDuplicateError "repository.Create"
                                "short code already exists"), pb')
      else
        (Err (NewInternalError "repository.Create" "PocketBase error"
                               (Some (statusError status))), pb')
    else
      match decoded with
      | Err err =>
        (Err (NewInternalError "repository.Create"
                               "failed to decode response" (Some err)), pb')
      | Ok pbResp =>
        (Ok {| Models.ID := pb_ID pbResp;
               Models.URL := Models.URL shortURL;
               Models.ShortCode := Models.ShortCode shortURL;
               Models.AccessCount := Models.AccessCount shortURL;
               Models.Created := parsePBTime (pb_Created pbResp);
               Models.Updated := parsePBTime (pb_Updated pbResp) |}, pb')
      end
  end.

Definition impl_Update (shortCode newURL : string) (pb : PB)
  : result (option Models.ShortURL) * PB :=
  match lookup shortCode pb with
  | (Err err, pb1) => (Err err, pb1)
  | (Ok None, pb1) =>
    (Err (NewNotFoundError "repository.Update" "record not found"), pb1)
  | (Ok (Some shortURL), pb1) =>
    let reqBody := {| update_AccessCount := None;
                      update_URL := Some newURL |} in
    match patchRecord (Models.ID shortURL) reqBody pb1 with
    | (NotMarshalled err, pb2) =>
      (Err (NewInternalError "repository.Update"
                             "failed to marshal request" (Some err)), pb2)
    | (NotBuilt err, pb2) =>
      (Err (NewInternalError "repository.Update"
                             "failed to create request" (Some err)), pb2)
    | (NotSent err, pb2) =>
      (Err (NewInternalError "repository.Update"
                             "failed to update record" (Some err)), pb2)
    | (Answered status decoded, pb2) =>
      if negb (status =? StatusOK) then
        (Err (NewInternalError "repository.Update" "PocketBase error"
                               (Some (statusError status))), pb2)
      else
        match decoded with
        | Err err =>
          (Err (NewInternalError "repository.Update"
                                 "failed to decode response" (Some err)), pb2)
        | Ok pbResp =>
          (Ok (Some {| Models.ID := pb_ID pbResp;
                       Models.URL := pb_URL pbResp;
                       Models.ShortCode := pb_ShortCode pbResp;
                       Models.AccessCount := pb_AccessCount pbResp;
                       Models.Created := parsePBTime (pb_Created pbResp);
                       Models.Updated := parsePBTime (pb_Updated pbResp) |}),
           pb2)
        end
    end
  end.

Definition impl_Delete (shortCode : string) (pb : PB) : option error * PB :=
  match lookup shortCode pb with
  | (Err err, pb1) => (Some err, pb1)
  | (Ok None, pb1) =>
    (Some (NewNotFoundError "repository.Delete" "record not found"), pb1)
  | (Ok (Some shortURL), pb1) =>
    match deleteRecord (Models.ID shortURL) pb1 with
    | (RemovalNotBuilt err, pb2) =>
      (Some (NewInternalError "repository.Delete"
                              "failed to create request" (Some err)), pb2)
    | (RemovalNotSent err, pb2) =>
      (Some (NewInternalError "repository.Delete"
                              "failed to delete record" (Some err)), pb2)
    | (RemovalAnswered status, pb2) =>
      if negb (status =? StatusOK) && negb (status =? StatusNoContent) then
        (Some (NewInternalError "repository.Delete" "PocketBase error"
                                (Some (statusError status))), pb2)
      else (None, pb2)
    end
  end.

Definition impl_IncrementAccessCount (shortCode : string) (pb : PB)
  : option error * PB :=
  match lookup shortCode pb with
  | (Err err, pb1) => (Some err, pb1)
  | (Ok None, pb1) =>
    (Some (NewNotFoundError "repository.IncrementAccessCount"
                            "record not found"), pb1)
  | (Ok (Some shortURL), pb1) =>
    let newCount := wrap64 (Models.AccessCount shortURL + 1) in
    let reqBody := {| update_AccessCount := Some newCount;
                      update_URL := None |} in
    match patchRecord (Models.ID shortURL) reqBody pb1 with
    | (NotMarshalled err, pb2) =>
      (Some (NewInternalError "repository.IncrementAccessCount"
                              "failed to marshal request" (Some err)), pb2)
    | (NotBuilt err, pb2) =>
      (Some (NewInternalError "repository.IncrementAccessCount"
                              "failed to create request" (Some err)), pb2)
    | (NotSent err, pb2) =>
      (Some (NewInternalError "repository.IncrementAccessCount"
                              "failed to update record" (Some err)), pb2)
    | (Answered status _, pb2) =>
      if negb (status =? StatusOK) then
        (Some (NewInternalError "repository.IncrementAccessCount"
                                "PocketBase error"
                                (Some (statusError status))), pb2)
      else (None, pb2)
    end
  end.

(** [NewURLRepository]: the implementation behind the interface. *)
Definition urlRepositoryImpl : URLRepository PB := {|
  Create := impl_Create;
  GetByShortCode := lookup;
  Update := impl_Update;
  Delete := impl_Delete;
  IncrementAccessCount := impl_IncrementAccessCount;
  ExistsByShortCode := impl_ExistsByShortCode listByShortCode parsePBTime
|}.

End Impl.

End PocketBase.

(* ================================================================== *)
(** ** Package [handlers] (internal/handlers/url_handler.go) *)
(* ================================================================== *)

Module Handlers.
Import Services.

(** [dto.ErrorResponse]. *)
Record ErrorResponse : Type := {
  Error : string;
  Message : string;
  Code : Z
}.

(** What [c.JSON] is given: an error response, a response of the
    service, or the map with the one key ["message"]. *)
Inductive Body : Type :=
| ErrorBody (e : ErrorResponse)
| DataBody (resp : Dto.Response)
| MessageBody (message : string).

(** The call of [c.JSON(status, body)] a handler ends with. *)
Record Answer : Type := {
  Status : Z;
  Payload : Body
}.

Definition StatusBadRequest : Z := 400.
Definition StatusNotFound : Z := 404.
Definition StatusInternalServerError : Z := 500.

Definition missingShortCode : Answer := {|
  Status := StatusBadRequest;
  Payload := ErrorBody {| Error := "Missing short code";
                          Message := "Short code parameter is required";
                          Code := StatusBadRequest |}
|}.

Section Handler.

Context {std : GoStd}.
Variable S : Type.
Context {repo : URLRepository S}.

(** The [Error] method of the errors made outside the package
    [errors]. *)
Variable foreignText : error -> string.

Local Open Scope go_scope.

Definition invalidPayload (err : error) : Answer := {|
  Status := StatusBadRequest;
  Payload := ErrorBody {| Error := "Invalid request payload";
                          Message := ErrorsText.ErrorString foreignText err;
                          Code := StatusBadRequest |}
|}.

Definition handleServiceError (err : error) : Answer :=
  match ErrorsText.As_target err with
  | Some (ServiceError _ code message _ as serviceErr) =>
    let statusCode :=
      match code with
      | ErrorCodeNotFound => StatusNotFound
      | ErrorCodeDuplicate => PocketBase.StatusConflict
      | ErrorCodeValidation => StatusBadRequest
      | ErrorCodeBadRequest => StatusBadRequest
      | ErrorCodeInternal => StatusInternalServerError
      end in
    {| Status := statusCode;
       Payload := ErrorBody
                    {| Error := message;
                       Message := ErrorsText.ErrorString foreignText serviceErr;
                       Code := statusCode |} |}
  | _ =>
    {| Status := StatusInternalServerError;
       Payload := ErrorBody {| Error := "Internal server error";
                               Message := "An unexpected error occurred";
                               Code := StatusInternalServerError |} |}
  end.

(** The handlers.  [bound] is what [c.ShouldBindJSON(&req)] came to,
    [shortCode] what [c.Param("shortCode")] returned. *)
Definition CreateShortURL (bound : result Dto.CreateURLRequest)
  : M (World S) Answer :=
  match bound with
  | Err err => ret (invalidPayload err)
  | Ok req =>
    r <- Services.CreateShortURL req ;;
    match r with
    | Err err => ret (handleServiceError err)
    | Ok resp =>
      ret {| Status := PocketBase.StatusCreated; Payload := DataBody resp |}
    end
  end.

Definition GetOriginalURL (shortCode : string) : M (World S) Answer :=
  if String.eqb shortCode "" then ret missingShortCode
  else
    r <- Services.GetOriginalURL shortCode ;;
    match r with
    | Err err => ret (handleServiceError err)
    | Ok resp => ret {| Status := StatusOK; Payload := DataBody resp |}
    end.

Definition UpdateShortURL (shortCode : string)
    (bound : result Dto.UpdateURLRequest) : M (World S) Answer :=
  if String.eqb shortCode "" then ret missingShortCode
  else
    match bound with
    | Err err => ret (invalidPayload err)
    | Ok req =>
      r <- Services.UpdateShortURL shortCode req ;;
      match r with
      | Err err => ret (handleServiceError err)
      | Ok resp => ret {| Status := StatusOK; Payload := DataBody resp |}
      end
    end.

Definition DeleteShortURL (shortCode : string) : M (World S) Answer :=
  if String.eqb shortCode "" then ret missingShortCode
  else
    r <- Services.DeleteShortURL shortCode ;;
    match r with
    | Some err => ret (handleServiceError err)
    | None =>
      ret {| Status := StatusOK;
             Payload := MessageBody "Short URL deleted successfully" |}
    end.

Definition GetStatistics (shortCode : string) : M (World S) Answer :=
  if String.eqb shortCode "" then ret missingShortCode
  else
    r <- Services.GetStatistics shortCode ;;
    match r with
    | Err err => ret (handleServiceError err)
    | Ok resp => ret {| Status := StatusOK; Payload := DataBody resp |}
    end.

End Handler.

End Handlers.

(* ================================================================== *)
(** ** Record stores with canned answers *)
(* ================================================================== *)

(** Record stores that answer every request of a kind the same way;
    the statements about the PocketBase implementation are run on
    them. *)
Module Canned.
Import PocketBase.

Record Answers : Type := {
  onList : Reply;
  onPost : Exchange;
  onPatch : Exchange;
  onDelete : Removal
}.

(** The implementation over a store with the answers [a]; the state
    counts the requests received. *)
Definition repository (a : Answers) : URLRepository nat :=
  urlRepositoryImpl
    (fun _ n => (onList a, Datatypes.S n))
    (fun _ n => (onPost a, Datatypes.S n))
    (fun _ _ n => (onPatch a, Datatypes.S n))
    (fun _ n => (onDelete a, Datatypes.S n))
    (fun _ => 0).

Definition stored : pocketBaseRecord := {|
  pb_ID := "r1";
  pb_Created := "2024-01-01 00:00:00.000Z";
  pb_Updated := "2024-01-01 00:00:00.000Z";
  pb_URL := "https://example.com/a";
  pb_ShortCode := "golang";
  pb_AccessCount := 7
|}.

(** A store that holds [stored] under every code and accepts every
    write. *)
Definition holding : Answers := {|
  onList := Response StatusOK (Ok [ stored ]);
  onPost := Answered StatusCreated (Ok stored);
  onPatch := Answered StatusOK (Ok stored);
  onDelete := RemovalAnswered StatusNoContent
|}.

(** An empty store that accepts every write. *)
Definition empty : Answers := {|
  onList := Response StatusOK (Ok []);
  onPost := Answered StatusOK (Ok stored);
  onPatch := Answered StatusOK (Ok stored);
  onDelete := RemovalAnswered StatusOK
|}.

(** A store that answers every request with status 500. *)
Definition failing : Answers := {|
  onList := Response 500 (Err (Foreign "unexpected end of JSON input" None));
  onPost := Answered 500 (Err (Foreign "unexpected end of JSON input" None));
  onPatch := Answered 500 (Err (Foreign "unexpected end of JSON input" None));
  onDelete := RemovalAnswered 500
|}.

(** An empty store that refuses every POST as a conflict. *)
Definition conflicting : Answers := {|
  onList := Response StatusOK (Ok []);
  onPost := Answered StatusConflict
                     (Err (Foreign "unexpected end of JSON input" None));
  onPatch := Answered StatusOK (Ok stored);
  onDelete := RemovalAnswered StatusOK
|}.

(** A store that cannot be reached: every request fails in transport. *)
Definition refused : error := Foreign "dial tcp 127.0.0.1:8090: connect: connection refused" None.

Definition unreachable : Answers := {|
  onList := NoResponse refused;
  onPost := NotSent refused;
  onPatch := NotSent refused;
  onDelete := RemovalNotSent refused
|}.

Definition world (rd : Rand.Reader) : Services.World nat :=
  {| Services.store := 0%nat; Services.rand := rd; Services.log := [] |}.

(** A source that serves three draws and fails at the fourth. *)
Definition failsAtFourth : Rand.Reader :=
  {| Rand.draw := fun i => if (i <? 3)%nat then Ok 10
                           else Err (Foreign "entropy source unavailable" None);
     Rand.pos := 0 |}.

End Canned.

(** More names for the statements. *)
Module ObserveMore.
Import Validator Services.

(** A generation event of the service: length 6, no error, and a code
    the validator of custom codes accepts. *)
Definition wellGenerated (ev : Event) : Prop :=
  match ev with
  | EvGenerate length r =>
    length = 6
    /\ exists code, r = Ok code /\ ValidateShortCode validator code = None
  | _ => True
  end.

(** A record [Create] may be handed: valid URL, code of valid shape,
    access count 0. *)
Definition wellFormed {std : GoStd} (shortURL : Models.ShortURL) : Prop :=
  ValidateURL validator (Models.URL shortURL) = None
  /\ ValidateShortCode validator (Models.ShortCode shortURL) = None
  /\ Models.AccessCount shortURL = 0.

Definition isWrite (ev : Event) : bool :=
  match ev with
  | EvCreate _ _ | EvUpdate _ _ _ | EvDelete _ _
  | EvIncrementAccessCount _ _ => true
  | _ => false
  end.

Definition errIncrement (err : error) : error :=
  NewInternalError "service.GetOriginalURL" "failed to increment access count"
                   (Some err).

(** The response [GetOriginalURL] makes of a record: no access count. *)
Definition redirectOf (shortURL : Models.ShortURL) : Dto.Response := {|
  Dto.ID := Models.ID shortURL;
  Dto.RespURL := Models.URL shortURL;
  Dto.ShortCode := Models.ShortCode shortURL;
  Dto.AccessCount := 0;
  Dto.CreatedAt := Models.Created shortURL;
  Dto.UpdatedAt := Models.Updated shortURL
|}.

(** The response [GetStatistics] and [UpdateShortURL] make of one. *)
Definition statsOf (shortURL : Models.ShortURL) : Dto.Response := {|
  Dto.ID := Models.ID shortURL;
  Dto.RespURL := Models.URL shortURL;
  Dto.ShortCode := Models.ShortCode shortURL;
  Dto.AccessCount := Models.AccessCount shortURL;
  Dto.CreatedAt := Models.Created shortURL;
  Dto.UpdatedAt := Models.Updated shortURL
|}.

(** The panic of a nil pointer that is dereferenced. *)
Definition nilDereference : string :=
  "invalid memory address or nil pointer dereference".

(** The error of a lookup that found nothing. *)
Definition errLookupNotFound : error :=
  NewNotFoundError "repository.GetByShortCode" "short URL not found".

(** The body [Create] posts for a record, and the record it returns
    when the store answers with [pbResp]. *)
Definition bodyOf (shortURL : Models.ShortURL)
  : PocketBase.pocketBaseCreateRequest := {|
  PocketBase.create_URL := Models.URL shortURL;
  PocketBase.create_ShortCode := Models.ShortCode shortURL;
  PocketBase.create_AccessCount := 0
|}.

Definition filledIn (parsePBTime : string -> Time)
    (shortURL : Models.ShortURL) (pbResp : pocketBaseRecord)
  : Models.ShortURL := {|
  Models.ID := pb_ID pbResp;
  Models.URL := Models.URL shortURL;
  Models.ShortCode := Models.ShortCode shortURL;
  Models.AccessCount := Models.AccessCount shortURL;
  Models.Created := parsePBTime (pb_Created pbResp);
  Models.Updated := parsePBTime (pb_Updated pbResp)
|}.

Definition errStatus (op : string) (status : Z) : error :=
  NewInternalError op "PocketBase error" (Some (PocketBase.statusError status)).

(** The status the handlers give an error whose first service error
    has the code [code]. *)
Definition statusFor (code : option ErrorCode) : Z :=
  match code with
  | Some ErrorCodeNotFound => 404
  | Some ErrorCodeDuplicate => 409
  | Some ErrorCodeValidation => 400
  | Some ErrorCodeBadRequest => 400
  | _ => 500
  end.

(** The status a handler answered with, if it returned. *)
Definition statusOf (r : Res Handlers.Answer) : option Z :=
  match r with
  | Done a => Some (Handlers.Status a)
  | Panicked _ => None
  end.

(** The statuses the handlers use. *)
Definition statuses : list Z := [ 200; 201; 400; 404; 409; 500 ].

End ObserveMore.

(* ================================================================== *)
(** * Properties *)
(* ================================================================== *)

(** ** Runes against bytes *)

Module Utf8Facts.

Lemma lor_high (a b : Z) :
  0 <= a -> 0 <= b -> 128 <= a \/ 128 <= b -> 128 <= Z.lor a b.
Proof.
  intros Ha Hb Hhigh.
  assert (Hnn : 0 <= Z.lor a b) by (apply Z.lor_nonneg; split; assumption).
  assert (Hlog : 7 <= Z.log2 (Z.lor a b)).
  { rewrite Z.log2_lor by assumption.
    destruct Hhigh as [H | H];
      [ apply Z.le_trans with (Z.log2 a); [ | apply Z.le_max_l ]
      | apply Z.le_trans with (Z.log2 b); [ | apply Z.le_max_r ] ];
      apply Z.log2_le_pow2; try lia; exact H. }
  destruct (Z.eq_dec (Z.lor a b) 0) as [E | NE].
  - rewrite E in Hlog. cbn in Hlog. lia.
  - change 128 with (2 ^ 7). apply Z.log2_le_pow2; lia.
Qed.

Lemma low_bits_nonneg (a n : Z) : 0 <= n -> 0 <= Z.land a (Z.ones n).
Proof.
  intros Hn. rewrite Z.land_ones by exact Hn.
  apply Z.mod_pos_bound. apply Z.pow_pos_nonneg; lia.
Qed.

Lemma shifted_nonneg (a n k : Z) :
  0 <= n -> 0 <= Z.shiftl (Z.land a (Z.ones n)) k.
Proof.
  intros Hn. apply Z.shiftl_nonneg. apply low_bits_nonneg. exact Hn.
Qed.

(** A masked and shifted byte, as arithmetic. *)
Lemma shifted_value (a n k : Z) :
  0 <= n -> 0 <= k ->
  Z.shiftl (Z.land a (Z.ones n)) k = (a mod 2 ^ n) * 2 ^ k.
Proof.
  intros Hn Hk. rewrite Z.land_ones by exact Hn.
  apply Z.shiftl_mul_pow2. exact Hk.
Qed.

Ltac masks :=
  change 63 with (Z.ones 6); change 31 with (Z.ones 5);
  change 15 with (Z.ones 4); change 7 with (Z.ones 3).

Ltac booleans :=
  repeat match goal with
  | H : negb _ = false |- _ => apply negb_false_iff in H
  | H : negb _ = true |- _ => apply negb_true_iff in H
  | H : continuation _ _ _ = true |- _ =>
      unfold continuation, locb, hicb in H; apply andb_true_iff in H;
      destruct H as [? ?]
  | H : (_ <? _) = true |- _ => apply Z.ltb_lt in H
  | H : (_ <? _) = false |- _ => apply Z.ltb_ge in H
  | H : (_ <=? _) = true |- _ => apply Z.leb_le in H
  | H : (_ <=? _) = false |- _ => apply Z.leb_gt in H
  | H : (_ =? _) = true |- _ => apply Z.eqb_eq in H
  | H : (_ =? _) = false |- _ => apply Z.eqb_neq in H
  end.

(** The first two terms of a multi-byte rune already put it above the
    ASCII range. *)
Lemma lead_pair_high (s0 s1 lo hi : Z) (sz : nat) (m k0 k1 : Z) :
  first s0 = lead_multi sz lo hi ->
  continuation lo hi s1 = true ->
  (sz = 2%nat /\ m = 5 /\ k0 = 6 /\ k1 = 0)
  \/ (sz = 3%nat /\ m = 4 /\ k0 = 12 /\ k1 = 6)
  \/ (sz = 4%nat /\ m = 3 /\ k0 = 18 /\ k1 = 12) ->
  128 <= Z.lor (Z.shiftl (Z.land s0 (Z.ones m)) k0)
               (Z.shiftl (Z.land s1 (Z.ones 6)) k1).
Proof.
  intros Hfirst Hcont Hshape.
  assert (Hm : 0 <= m) by lia.
  apply lor_high; try (apply shifted_nonneg; lia).
  rewrite !shifted_value by lia.
  unfold first in Hfirst.
  repeat match type of Hfirst with
  | (if ?c then _ else _) = _ => destruct c eqn:?
  end; try discriminate Hfirst;
  injection Hfirst as <- <- <-; booleans;
  destruct Hshape as [(Hs & -> & -> & ->) | [(Hs & -> & -> & ->) | (Hs & -> & -> & ->)]];
  try discriminate Hs;
  change (2 ^ 0) with 1; change (2 ^ 3) with 8; change (2 ^ 4) with 16;
  change (2 ^ 5) with 32; change (2 ^ 6) with 64;
  change (2 ^ 12) with 4096; change (2 ^ 18) with 262144;
  unfold locb, hicb in *;
  pose proof (Z.mod_pos_bound s0 8 ltac:(lia));
  pose proof (Z.mod_pos_bound s0 16 ltac:(lia));
  pose proof (Z.mod_pos_bound s0 32 ltac:(lia));
  pose proof (Z.mod_pos_bound s1 64 ltac:(lia));
  pose proof (Z.div_mod s0 8 ltac:(lia));
  pose proof (Z.div_mod s0 16 ltac:(lia));
  pose proof (Z.div_mod s0 32 ltac:(lia));
  pose proof (Z.div_mod s1 64 ltac:(lia));
  lia.
Qed.

(** A byte below 0x80 is its own rune; any other leading byte gives a
    rune outside the ASCII range (possibly [RuneError]). *)
Lemma DecodeRune_ascii (s0 : Z) (t : list Z) :
  s0 < 128 -> DecodeRune (s0 :: t) = (s0, 1%nat).
Proof.
  intros H. unfold DecodeRune, first.
  apply Z.ltb_lt in H. rewrite H. reflexivity.
Qed.

Lemma DecodeRune_high (s0 : Z) (t : list Z) :
  128 <= s0 -> 128 <= fst (DecodeRune (s0 :: t)).
Proof.
  intros H. unfold DecodeRune.
  destruct (first s0) as [ | | sz lo hi] eqn:Hfirst.
  - unfold first in Hfirst. apply Z.ltb_ge in H. rewrite H in Hfirst.
    repeat match type of Hfirst with
    | (if ?c then _ else _) = _ => destruct c
    end; discriminate Hfirst.
  - cbn [fst]. unfold RuneError. lia.
  - assert (Hsz : sz = 2%nat \/ sz = 3%nat \/ sz = 4%nat).
    { unfold first in Hfirst.
      repeat match type of Hfirst with
      | (if ?c then _ else _) = _ => destruct c
      end; try discriminate Hfirst; injection Hfirst as <- _ _; auto. }
    assert (Herr : 128 <= RuneError) by (unfold RuneError; lia).
    destruct (List.length (s0 :: t) <? sz)%nat; [exact Herr | ].
    destruct t as [ | s1 t1]; [exact Herr | ].
    destruct (negb (continuation lo hi s1)) eqn:Hc1; [exact Herr | ].
    apply negb_false_iff in Hc1.
    destruct Hsz as [-> | [-> | ->]]; cbn [Nat.leb fst].
    + masks. rewrite <- (Z.shiftl_0_r (Z.land s1 (Z.ones 6))).
      eapply lead_pair_high; [exact Hfirst | exact Hc1 | auto].
    + destruct t1 as [ | s2 t2]; [exact Herr | ].
      destruct (negb (continuation locb hicb s2)); [exact Herr | ].
      cbn [fst]. masks. apply lor_high.
      * apply Z.lor_nonneg; split; apply shifted_nonneg; lia.
      * apply low_bits_nonneg; lia.
      * left. eapply lead_pair_high; [exact Hfirst | exact Hc1 | auto 6].
    + destruct t1 as [ | s2 t2]; [exact Herr | ].
      destruct (negb (continuation locb hicb s2)); [exact Herr | ].
      destruct t2 as [ | s3 t3]; [exact Herr | ].
      destruct (negb (continuation locb hicb s3)); [exact Herr | ].
      cbn [fst]. masks. apply lor_high.
      * apply Z.lor_nonneg; split;
          [ apply Z.lor_nonneg; split | ]; apply shifted_nonneg; lia.
      * apply low_bits_nonneg; lia.
      * left. apply lor_high.
        -- apply Z.lor_nonneg; split; apply shifted_nonneg; lia.
        -- apply shifted_nonneg; lia.
        -- left. eapply lead_pair_high; [exact Hfirst | exact Hc1 | auto 6].
Qed.

(** A string of ASCII bytes is its own sequence of runes. *)
Lemma range_from_ascii (bs : list Z) :
  Forall (fun b => b < 128) bs -> range_from 0 bs = bs.
Proof.
  induction 1 as [ | b t Hb Ht IH]; [reflexivity | ].
  cbn [range_from]. rewrite (DecodeRune_ascii t Hb).
  cbn [Nat.sub]. rewrite IH. reflexivity.
Qed.

End Utf8Facts.

(** ** The validator *)

Module ValidatorFacts.
Import Validator.

Lemma isAlphaNumeric_ascii (r : Z) : isAlphaNumeric r = true -> 0 <= r < 128.
Proof. unfold isAlphaNumeric. lia. Qed.

(** The [range] loop sees a non-alphanumeric rune exactly when the
    string holds a non-alphanumeric byte: decoding changes nothing for
    the check. *)
Lemma checkRunes_range_from (bs : list Z) :
  checkRunes (range_from 0 bs) = checkRunes bs.
Proof.
  induction bs as [ | b t IH]; [reflexivity | ].
  cbn [range_from].
  destruct (Z.lt_ge_cases b 128) as [Hlow | Hhigh].
  - rewrite (Utf8Facts.DecodeRune_ascii t Hlow). cbn [Nat.sub checkRunes].
    rewrite IH. reflexivity.
  - pose proof (Utf8Facts.DecodeRune_high t Hhigh) as Hr.
    destruct (DecodeRune (b :: t)) as [r size]. cbn [fst] in Hr.
    cbn [checkRunes].
    assert (Er : isAlphaNumeric r = false) by (unfold isAlphaNumeric; lia).
    assert (Eb : isAlphaNumeric b = false) by (unfold isAlphaNumeric; lia).
    rewrite Er, Eb. reflexivity.
Qed.

Lemma checkRunes_bytes (code : string) :
  checkRunes (runes code) = checkRunes (bytes code).
Proof. apply checkRunes_range_from. Qed.

Lemma checkRunes_None (rs : list Z) :
  checkRunes rs = None <-> Forall (fun r => isAlphaNumeric r = true) rs.
Proof.
  induction rs as [ | r t IH]; cbn [checkRunes].
  - split; [constructor | reflexivity].
  - destruct (isAlphaNumeric r) eqn:E; cbn [negb].
    + rewrite IH. split.
      * intros H. constructor; assumption.
      * intros H. inversion H. assumption.
    + split; [discriminate | ].
      intros H. inversion H. congruence.
Qed.

Lemma checkRunes_Some (rs : list Z) :
  Exists (fun r => isAlphaNumeric r = false) rs ->
  checkRunes rs = Some errCodeChars.
Proof.
  induction 1 as [r t H | r t H IH]; cbn [checkRunes].
  - rewrite H. reflexivity.
  - rewrite IH. destruct (isAlphaNumeric r); reflexivity.
Qed.

Lemma Contains_In (l : list string) (x : string) :
  Strings.Contains l x = true <-> In x l.
Proof.
  induction l as [ | y t IH]; cbn [Strings.Contains In].
  - split; [discriminate | tauto].
  - destruct (String.eqb_spec y x) as [E | NE].
    + split; auto.
    + rewrite IH. split; [auto | ]. intros [E | H]; [contradiction | exact H].
Qed.

(** There are at most as many runes as bytes. *)
Lemma range_from_length (bs : list Z) (skip : nat) :
  (List.length (range_from skip bs) <= List.length bs)%nat.
Proof.
  revert skip. induction bs as [ | b t IH]; intros skip; [apply Nat.le_refl | ].
  cbn [range_from]. destruct skip as [ | k].
  - destruct (DecodeRune (b :: t)) as [r size]. cbn [List.length].
    apply le_n_S, IH.
  - cbn [List.length]. apply Nat.le_trans with (List.length t);
      [apply IH | apply Nat.le_succ_diag_r].
Qed.

Lemma runes_le_len (s : string) :
  Z.of_nat (List.length (runes s)) <= Strings.len s.
Proof.
  unfold runes, Strings.len.
  pose proof (range_from_length (bytes s) 0) as H.
  unfold bytes in H at 2. rewrite length_map in H.
  assert (E : List.length (list_ascii_of_string s) = String.length s).
  { clear H. induction s as [ | c t IH]; cbn; congruence. }
  rewrite E in H. lia.
Qed.

End ValidatorFacts.

Module ShortCodeShape.
Import Validator ValidatorFacts Observe.

Lemma accepted_runes_are_bytes (code : string) :
  checkRunes (runes code) = None -> runes code = bytes code.
Proof.
  intros H. rewrite checkRunes_bytes in H. apply checkRunes_None in H.
  apply Utf8Facts.range_from_ascii. revert H. apply Forall_impl.
  intros b Hb. apply isAlphaNumeric_ascii in Hb. lia.
Qed.

Lemma bytes_length (code : string) :
  Z.of_nat (List.length (bytes code)) = Strings.len code.
Proof.
  unfold bytes, Strings.len. rewrite length_map. f_equal.
  induction code as [ | c t IH]; cbn; congruence.
Qed.

(** C8.  [ValidateShortCode] fails with the length reason when the
    code has fewer than 4 or more than 20 bytes, fails when a character
    of the code is outside [0-9a-zA-Z] (with the character reason when
    the length is in range), and succeeds otherwise.  Counting the
    length in characters instead of bytes changes nothing: a code with
    fewer than 4 or more than 20 characters fails as well.  It rejects
    "ab", every code of 21 characters and "abc-123", and accepts
    "abc123" and "A1b2C3". *)
Theorem ValidateShortCode_spec (v : URLValidator) (code : string) :
  let n := Strings.len code in
  let chars := Z.of_nat (List.length (runes code)) in
  (n < 4 \/ 20 < n -> ValidateShortCode v code = Some errCodeLength)
  /\ (Exists nonAlphanumeric (runes code) ->
      exists err, ValidateShortCode v code = Some err
                  /\ code_of err = Some ErrorCodeValidation)
  /\ (4 <= n <= 20 -> Exists nonAlphanumeric (runes code) ->
      ValidateShortCode v code = Some errCodeChars)
  /\ (4 <= n <= 20 -> Forall alphanumeric (runes code) ->
      ValidateShortCode v code = None)
  /\ (chars < 4 \/ 20 < chars -> ValidateShortCode v code <> None)
  /\ (chars = 21 -> ValidateShortCode v code = Some errCodeLength)
  /\ ValidateShortCode v "ab" = Some errCodeLength
  /\ ValidateShortCode v "abc-123" = Some errCodeChars
  /\ ValidateShortCode v "abc123" = None
  /\ ValidateShortCode v "A1b2C3" = None.
Proof.
  intros n chars.
  assert (Hshort : n < 4 \/ 20 < n ->
                   ValidateShortCode v code = Some errCodeLength).
  { intros H. unfold ValidateShortCode. fold n.
    destruct H as [H | H].
    - apply Z.ltb_lt in H. rewrite H. reflexivity.
    - apply Z.ltb_lt in H. rewrite H, orb_true_r. reflexivity. }
  assert (Hrange : 4 <= n <= 20 ->
                   ValidateShortCode v code = checkRunes (runes code)).
  { intros [Hlo Hhi]. unfold ValidateShortCode. fold n.
    apply Z.ltb_ge in Hlo. apply Z.ltb_ge in Hhi. rewrite Hlo, Hhi.
    reflexivity. }
  assert (Hle : chars <= n) by apply runes_le_len.
  refine (conj Hshort (conj _ (conj _ (conj _ (conj _ (conj _
            (conj _ (conj _ (conj _ _)))))))));
    try reflexivity.
  - intros Hbad.
    destruct (Z.lt_ge_cases n 4) as [H4 | H4];
      [ | destruct (Z.lt_ge_cases 20 n) as [H20 | H20] ].
    + exists errCodeLength. split; [apply Hshort; lia | reflexivity].
    + exists errCodeLength. split; [apply Hshort; lia | reflexivity].
    + exists errCodeChars. split; [ | reflexivity].
      rewrite Hrange by lia. apply checkRunes_Some. exact Hbad.
  - intros Hn Hbad. rewrite Hrange by exact Hn.
    apply checkRunes_Some. exact Hbad.
  - intros Hn Hgood. rewrite Hrange by exact Hn.
    apply checkRunes_None. exact Hgood.
  - intros Hchars Hnone.
    destruct (Z.lt_ge_cases n 4) as [H4 | H4];
      [ rewrite Hshort in Hnone by lia; discriminate Hnone | ].
    destruct (Z.lt_ge_cases 20 n) as [H20 | H20];
      [ rewrite Hshort in Hnone by lia; discriminate Hnone | ].
    rewrite Hrange in Hnone by lia.
    apply accepted_runes_are_bytes in Hnone.
    assert (E : chars = n).
    { unfold chars. rewrite Hnone. apply bytes_length. }
    lia.
  - intros Hchars. apply Hshort. lia.
Qed.

(** The statement at a code of each kind. *)
Lemma ValidateShortCode_spec_witness :
  ValidateShortCode NewURLValidator "abc" = Some errCodeLength
  /\ ValidateShortCode NewURLValidator "go_lang" = Some errCodeChars
  /\ ValidateShortCode NewURLValidator "golang" = None
  /\ ValidateShortCode NewURLValidator "0123456789abcdefghijk"
     = Some errCodeLength.
Proof.
  split; [ | split; [ | split ] ].
  - destruct (ValidateShortCode_spec NewURLValidator "abc") as (H & _).
    apply H. left. reflexivity.
  - destruct (ValidateShortCode_spec NewURLValidator "go_lang")
      as (_ & _ & H & _).
    apply H.
    + split; discriminate.
    + vm_compute. apply Exists_cons_tl, Exists_cons_tl, Exists_cons_hd.
      reflexivity.
  - destruct (ValidateShortCode_spec NewURLValidator "golang")
      as (_ & _ & _ & H & _).
    apply H.
    + split; discriminate.
    + vm_compute. repeat constructor.
  - destruct (ValidateShortCode_spec NewURLValidator "0123456789abcdefghijk")
      as (_ & _ & _ & _ & _ & H & _).
    apply H. reflexivity.
Defined.

End ShortCodeShape.

Module URLShape.
Import Validator ValidatorFacts Observe.

Section AnyStd.
Context {std : GoStd}.

Lemma ValidateURL_too_long (raw : string) :
  Constants.MaxURLLength < Strings.len raw ->
  ValidateURL NewURLValidator raw = Some errTooLong.
Proof.
  intros H. unfold ValidateURL. cbn [maxURLLength NewURLValidator].
  apply Z.ltb_lt in H. rewrite H. reflexivity.
Qed.

(** Past the length check the outcome is decided by the parser. *)
Lemma ValidateURL_parsed (raw : string) :
  Strings.len raw <= Constants.MaxURLLength ->
  ValidateURL NewURLValidator raw
  = match url_Parse raw with
    | Err err => Some (errFormat err)
    | Ok parsed =>
      if negb (String.eqb (NetURL.Scheme parsed) "http")
         && negb (String.eqb (NetURL.Scheme parsed) "https")
      then Some errScheme
      else if isDomainBlocked NewURLValidator (NetURL.Host parsed) then Some errBlocked
      else None
    end.
Proof.
  intros H. unfold ValidateURL. cbn [maxURLLength NewURLValidator].
  apply Z.ltb_ge in H. rewrite H. reflexivity.
Qed.

Lemma scheme_gate (scheme : string) :
  negb (String.eqb scheme "http") && negb (String.eqb scheme "https") = false
  <-> scheme = "http" \/ scheme = "https".
Proof.
  destruct (String.eqb_spec scheme "http") as [E1 | N1];
    destruct (String.eqb_spec scheme "https") as [E2 | N2];
    cbn [negb andb]; split; auto; try discriminate.
  intros [E | E]; contradiction.
Qed.

Lemma isDomainBlocked_In (domain : string) :
  isDomainBlocked NewURLValidator domain = true
  <-> In (strings_ToLower domain) Constants.BlockedDomains.
Proof. unfold isDomainBlocked. apply Contains_In. Qed.

Lemma ValidateURL_http (raw : string) (parsed : NetURL.URL) :
  Strings.len raw <= Constants.MaxURLLength ->
  url_Parse raw = Ok parsed ->
  NetURL.Scheme parsed = "http" \/ NetURL.Scheme parsed = "https" ->
  ValidateURL NewURLValidator raw
  = if isDomainBlocked NewURLValidator (NetURL.Host parsed) then Some errBlocked else None.
Proof.
  intros Hlen Hparse Hscheme.
  rewrite ValidateURL_parsed by exact Hlen. rewrite Hparse.
  apply scheme_gate in Hscheme. rewrite Hscheme. reflexivity.
Qed.

End AnyStd.

(** C5.  Whatever the parser and the case mapping: for a URL that
    passes the length, parse and scheme checks, [ValidateURL] fails
    with "domain is blocked" exactly when the parsed host, lower-cased,
    is equal to an entry of the blocked list, and accepts the URL
    otherwise.  So a host that lowers to "sub.malware.com" is accepted
    although "malware.com" is an entry; with Go's parser
    "http://sub.malware.com/x" is accepted and "http://malware.com/x"
    is refused. *)
Theorem blocked_iff_exact_host :
  (forall (std : GoStd) (raw : string) (parsed : NetURL.URL),
      Strings.len raw <= Constants.MaxURLLength ->
      url_Parse raw = Ok parsed ->
      NetURL.Scheme parsed = "http" \/ NetURL.Scheme parsed = "https" ->
      let host := strings_ToLower (NetURL.Host parsed) in
      (ValidateURL NewURLValidator raw = Some errBlocked
       <-> In host Constants.BlockedDomains)
      /\ (ValidateURL NewURLValidator raw = accepted
          <-> ~ In host Constants.BlockedDomains)
      /\ (host = "sub.malware.com" ->
          ValidateURL NewURLValidator raw = accepted))
  /\ In "malware.com" Constants.BlockedDomains
  /\ @ValidateURL go_std NewURLValidator "http://sub.malware.com/x" = accepted
  /\ @ValidateURL go_std NewURLValidator "http://malware.com/x"
     = Some errBlocked.
Proof.
  split; [ | split; [ left; reflexivity | split; reflexivity ] ].
  intros std raw parsed Hlen Hparse Hscheme host.
  pose proof (ValidateURL_http raw Hlen Hparse Hscheme) as E.
  pose proof (isDomainBlocked_In (NetURL.Host parsed)) as Hin. fold host in Hin.
  unfold accepted. rewrite E.
  destruct (isDomainBlocked NewURLValidator (NetURL.Host parsed)).
  - assert (In host Constants.BlockedDomains) by (apply Hin; reflexivity).
    split; [ tauto | split ].
    + split; [ discriminate | contradiction ].
    + intros Ehost. rewrite Ehost in H. cbn in H.
      destruct H as [H | [H | []]]; discriminate H.
  - assert (~ In host Constants.BlockedDomains).
    { intros H. apply Hin in H. discriminate H. }
    split; [ | split ]; try tauto.
    split; [ discriminate | contradiction ].
Qed.

(** The statement at two URLs parsed by Go's parser: an upper-case
    spelling of a blocked host, and a host with a port. *)
Lemma blocked_iff_exact_host_witness :
  @ValidateURL go_std NewURLValidator "https://PHISHING.com/login"
  = Some errBlocked
  /\ @ValidateURL go_std NewURLValidator "http://malware.com:8080/x"
     = accepted.
Proof.
  destruct blocked_iff_exact_host as (H & _). split.
  - refine (proj2 (proj1 (H go_std "https://PHISHING.com/login"
                            (NetURL.mkURL "https" "" None "PHISHING.com"
                                          "/login" false false "" "")
                            _ _ _)) _).
    + discriminate.
    + reflexivity.
    + right. reflexivity.
    + right. left. reflexivity.
  - refine (proj2 (proj1 (proj2 (H go_std "http://malware.com:8080/x"
                            (NetURL.mkURL "http" "" None "malware.com:8080"
                                          "/x" false false "" "")
                            _ _ _))) _).
    + discriminate.
    + reflexivity.
    + left. reflexivity.
    + cbn. intros [E | [E | []]]; discriminate E.
Defined.

(** C6, as the code has it.  Whatever the parser: an input within the
    length limit on which [url.Parse] returns an error fails with
    "invalid URL format", wrapping that error.  "not-a-url" is not such
    an input: Go's parser takes it for a relative reference with a
    path and no scheme, and [ValidateURL] refuses it at the scheme
    check. *)
Theorem unparseable_is_invalid_format :
  (forall (std : GoStd) (raw : string) (err : error),
      Strings.len raw <= Constants.MaxURLLength ->
      url_Parse raw = Err err ->
      ValidateURL NewURLValidator raw = Some (errFormat err))
  /\ NetURL.Parse "not-a-url"
     = Ok (NetURL.mkURL "" "" None "" "not-a-url" false false "" "")
  /\ @ValidateURL go_std NewURLValidator "not-a-url" = Some errScheme.
Proof.
  split; [ | split; reflexivity ].
  intros std raw err Hlen Hparse.
  rewrite ValidateURL_parsed by exact Hlen. rewrite Hparse. reflexivity.
Qed.

(** The statement at an input Go's parser refuses: a colon with no
    scheme before it. *)
Lemma unparseable_is_invalid_format_witness :
  @ValidateURL go_std NewURLValidator ":foo"
  = Some (errFormat
            (Foreign "parse" (Some (Foreign "missing protocol scheme" None)))).
Proof.
  destruct unparseable_is_invalid_format as (H & _).
  apply (H go_std ":foo").
  - discriminate.
  - reflexivity.
Defined.

(** C6 as stated fails at its own example: the reason given for
    "not-a-url" is not "invalid URL format". *)
Lemma not_a_url_reason :
  option_map message_of (@ValidateURL go_std NewURLValidator "not-a-url")
  = Some "only HTTP and HTTPS URLs are allowed"
  /\ option_map message_of (@ValidateURL go_std NewURLValidator "not-a-url")
     <> Some "invalid URL format".
Proof. split; [ reflexivity | discriminate ]. Qed.

(** C7.  Whatever the parser: an input of more than 2048 bytes, hence
    every input of more than 2048 characters, fails with "URL too
    long"; an input that parses with a scheme other than "http" and
    "https" is refused with a validation error, whose reason is "only
    HTTP and HTTPS URLs are allowed" once the length check is passed.
    With Go's parser "ftp://example.com" is refused for its scheme and
    "https://example.com/path" is accepted. *)
Theorem ValidateURL_length_and_scheme :
  (forall (std : GoStd) (raw : string),
      Constants.MaxURLLength < Strings.len raw
      \/ 2048 < Z.of_nat (List.length (runes raw)) ->
      ValidateURL NewURLValidator raw = Some errTooLong)
  /\ (forall (std : GoStd) (raw : string) (parsed : NetURL.URL),
         url_Parse raw = Ok parsed ->
         NetURL.Scheme parsed <> "http" ->
         NetURL.Scheme parsed <> "https" ->
         exists err,
           ValidateURL NewURLValidator raw = Some err
           /\ code_of err = Some ErrorCodeValidation
           /\ (Strings.len raw <= Constants.MaxURLLength -> err = errScheme))
  /\ @ValidateURL go_std NewURLValidator "ftp://example.com" = Some errScheme
  /\ @ValidateURL go_std NewURLValidator "https://example.com/path" = accepted.
Proof.
  split; [ | split; [ | split; reflexivity ] ].
  - intros std raw H. apply ValidateURL_too_long.
    pose proof (runes_le_len raw). unfold Constants.MaxURLLength in *. lia.
  - intros std raw parsed Hparse Hhttp Hhttps.
    destruct (Z.lt_ge_cases Constants.MaxURLLength (Strings.len raw))
      as [Hlong | Hfits].
    + exists errTooLong. split; [ | split ].
      * apply ValidateURL_too_long. exact Hlong.
      * reflexivity.
      * intros Hle. lia.
    + exists errScheme. split; [ | split; reflexivity ].
      rewrite ValidateURL_parsed by exact Hfits. rewrite Hparse.
      apply String.eqb_neq in Hhttp. apply String.eqb_neq in Hhttps.
      rewrite Hhttp, Hhttps. reflexivity.
Qed.

(** The statement at a URL of 2068 bytes, and at a mail address, which
    Go's parser reads as an opaque URL of scheme "mailto". *)
Lemma ValidateURL_length_and_scheme_witness :
  @ValidateURL go_std NewURLValidator Scenarios.longURL = Some errTooLong
  /\ exists err,
       @ValidateURL go_std NewURLValidator "mailto:root@example.com"
       = Some err
       /\ code_of err = Some ErrorCodeValidation
       /\ (Strings.len "mailto:root@example.com" <= Constants.MaxURLLength ->
           err = errScheme).
Proof.
  destruct ValidateURL_length_and_scheme as (Hlong & Hscheme & _). split.
  - apply (Hlong go_std Scenarios.longURL). left. vm_compute. reflexivity.
  - apply (Hscheme go_std "mailto:root@example.com"
             (NetURL.mkURL "mailto" "root@example.com" None "" "" false false
                           "" "")).
    + reflexivity.
    + discriminate.
    + discriminate.
Defined.

End URLShape.

(** ** The code generator *)

Module CodeGenerator.
Import Utils Observe.

(** The alphabet has 62 distinct symbols, the ASCII letters and digits. *)
Lemma alphabet_size : List.length alphabet = 62%nat.
Proof. reflexivity. Qed.

Lemma alphabet_alphanumeric (c : ascii) :
  In c alphabet <-> Validator.isAlphaNumeric (byteZ c) = true.
Proof.
  assert (E : existsb (Ascii.eqb c) alphabet
              = Validator.isAlphaNumeric (byteZ c)).
  { destruct c as [[] [] [] [] [] [] [] []]; vm_compute; reflexivity. }
  rewrite <- E. rewrite existsb_exists. split.
  - intros H. exists c. split; [exact H | apply Ascii.eqb_refl].
  - intros (d & Hd & Ecd). apply Ascii.eqb_eq in Ecd. subst d. exact Hd.
Qed.

Lemma setAt_length (i : nat) (c : ascii) (l : list ascii) :
  List.length (setAt i c l) = List.length l.
Proof.
  revert i. induction l as [ | h t IH]; intros [ | j]; cbn; congruence.
Qed.

Lemma setAt_firstn (i : nat) (c : ascii) (l : list ascii) :
  (i < List.length l)%nat ->
  firstn (S i) (setAt i c l) = (firstn i l ++ [c])%list.
Proof.
  revert i. induction l as [ | h t IH]; intros i Hi; cbn in Hi; [lia | ].
  destruct i as [ | j].
  - reflexivity.
  - cbn [setAt]. rewrite !firstn_cons. rewrite IH by lia. reflexivity.
Qed.

(** Every index [rand.Int] may return selects a symbol. *)
Lemma byteAt_base62 (n : Z) :
  0 <= n < 62 -> exists c, byteAt base62Chars n = Some c /\ In c alphabet.
Proof.
  intros Hn.
  assert (Hall : forallb
                   (fun k => match byteAt base62Chars (Z.of_nat k) with
                             | Some c => existsb (Ascii.eqb c) alphabet
                             | None => false
                             end) (seq 0 62) = true) by (vm_compute; reflexivity).
  rewrite forallb_forall in Hall.
  specialize (Hall (Z.to_nat n)). rewrite Z2Nat.id in Hall by lia.
  assert (Hin : In (Z.to_nat n) (seq 0 62)) by (apply in_seq; lia).
  apply Hall in Hin.
  destruct (byteAt base62Chars n) as [c | ]; [ | discriminate Hin].
  exists c. split; [reflexivity | ].
  apply existsb_exists in Hin. destruct Hin as (d & Hd & E).
  apply Ascii.eqb_eq in E. subst d. exact Hd.
Qed.

Lemma Int_healthy (todo : nat) (rd : Rand.Reader) :
  Rand.healthy 62 (S todo) rd ->
  exists n, 0 <= n < 62
            /\ Rand.Int (Strings.len base62Chars) rd = (Done (Ok n), advance 1 rd)
            /\ Rand.healthy 62 todo (advance 1 rd).
Proof.
  intros H. destruct (H (Rand.pos rd)) as (n & Hdraw & Hn); [lia | ].
  exists n. split; [exact Hn | split].
  - unfold Rand.Int, advance. cbn [Z.leb Strings.len]. change (_ <=? 0) with false.
    cbv iota. rewrite Hdraw. rewrite Nat.add_1_r. reflexivity.
  - intros i Hi. cbn [advance Rand.pos Rand.draw] in *. apply H. lia.
Qed.

(** Invariant of the loop: the first [i] bytes of [result] are written
    and stay; the [todo] bytes that follow get symbols of the
    alphabet. *)
Lemma GenerateShortCode_loop_fills (todo : nat) :
  forall (i : nat) (result : list ascii) (rd : Rand.Reader),
    List.length result = (i + todo)%nat ->
    Rand.healthy 62 todo rd ->
    exists cs,
      List.length cs = todo
      /\ Forall (fun c => In c alphabet) cs
      /\ GenerateShortCode_loop todo i result rd
         = (Done (Ok (string_of_list_ascii (firstn i result ++ cs))),
            advance todo rd).
Proof.
  induction todo as [ | todo IH]; intros i result rd Hlen Hrd.
  - exists []. split; [reflexivity | split; [constructor | ] ].
    cbn [GenerateShortCode_loop]. unfold ret, advance.
    rewrite app_nil_r, firstn_all2 by lia. rewrite Nat.add_0_r.
    destruct rd; reflexivity.
  - destruct (Int_healthy Hrd) as (n & Hn & Hint & Hrd').
    destruct (byteAt_base62 Hn) as (c & Hc & Hin).
    destruct (IH (S i) (setAt i c result) (advance 1 rd)) as (cs & Hcs & Hall & Hrun).
    { rewrite setAt_length. lia. }
    { exact Hrd'. }
    exists (c :: cs). split; [cbn; congruence | split; [constructor; assumption | ] ].
    cbn [GenerateShortCode_loop]. unfold bind at 1. rewrite Hint.
    rewrite Hc. rewrite Hrun. rewrite setAt_firstn by lia.
    rewrite <- app_assoc. cbn [app]. unfold advance. cbn [Rand.draw Rand.pos].
    rewrite <- Nat.add_assoc. reflexivity.
Qed.

Lemma string_length_of_list (l : list ascii) :
  String.length (string_of_list_ascii l) = List.length l.
Proof. induction l as [ | c t IH]; cbn; congruence. Qed.

(** The symbols of the alphabet are what [IsValidShortCode] looks
    for. *)
Lemma IsValidShortCode_alphabet (code : string) :
  code <> EmptyString ->
  Forall (fun c => In c alphabet) (list_ascii_of_string code) ->
  IsValidShortCode code = true.
Proof.
  intros Hne Hall. unfold IsValidShortCode, Strings.len.
  destruct code as [ | c0 t]; [contradiction Hne; reflexivity | ].
  change (Z.of_nat (String.length (String c0 t)) =? 0) with false. cbv iota.
  assert (Hascii : Forall (fun b => b < 128) (bytes (String c0 t))).
  { unfold bytes. apply Forall_map. revert Hall. apply Forall_impl.
    intros c Hc. apply alphabet_alphanumeric in Hc.
    apply ValidatorFacts.isAlphaNumeric_ascii in Hc. lia. }
  unfold runes. rewrite (Utf8Facts.range_from_ascii Hascii).
  apply forallb_forall. intros b Hb. unfold bytes in Hb.
  apply in_map_iff in Hb. destruct Hb as (c & <- & Hc).
  rewrite Forall_forall in Hall. apply Hall in Hc.
  unfold isBase62. apply existsb_exists. exists (byteZ c).
  split; [ | apply Z.eqb_refl].
  assert (E : runes base62Chars = map byteZ alphabet) by (vm_compute; reflexivity).
  rewrite E. apply in_map. exact Hc.
Qed.

(** C4.  For a length [L >= 0] and a random source that serves the
    next [L] calls of [rand.Int] (no error, values below 62),
    [GenerateShortCode L] returns, without error, a string of exactly
    [L] bytes, each a symbol of the 62-character alphabet, that is an
    ASCII letter or digit; a string of positive length passes
    [IsValidShortCode], as the test of the package asks; [L] draws
    have been made.  [GenerateShortCode 0] returns the empty string and
    no error on every source, without a draw. *)
Theorem GenerateShortCode_ok (L : Z) (rd : Rand.Reader) :
  0 <= L ->
  Rand.healthy 62 (Z.to_nat L) rd ->
  (exists code,
      GenerateShortCode L rd = (Done (Ok code), advance (Z.to_nat L) rd)
      /\ Strings.len code = L
      /\ Forall (fun c => In c alphabet
                          /\ Validator.isAlphaNumeric (byteZ c) = true)
                (list_ascii_of_string code)
      /\ (0 < L -> IsValidShortCode code = true))
  /\ List.length alphabet = 62%nat
  /\ (forall rd0, GenerateShortCode 0 rd0 = (Done (Ok ""), rd0)).
Proof.
  intros HL Hrd. split; [ | split; [reflexivity | intros rd0; reflexivity] ].
  unfold GenerateShortCode.
  assert (E : (L <? 0) = false) by (apply Z.ltb_ge; exact HL). rewrite E.
  destruct (@GenerateShortCode_loop_fills (Z.to_nat L) 0
              (repeat zero (Z.to_nat L)) rd) as (cs & Hcs & Hall & Hrun).
  { rewrite repeat_length. reflexivity. }
  { exact Hrd. }
  exists (string_of_list_ascii cs). cbn [firstn app] in Hrun.
  assert (Hlen : Strings.len (string_of_list_ascii cs) = L).
  { unfold Strings.len. rewrite string_length_of_list, Hcs. lia. }
  split; [exact Hrun | split; [exact Hlen | split] ].
  - rewrite list_ascii_of_string_of_list_ascii.
    revert Hall. apply Forall_impl. intros c Hc.
    split; [exact Hc | apply alphabet_alphanumeric; exact Hc].
  - intros Hpos. apply IsValidShortCode_alphabet.
    + intros Hempty. rewrite Hempty in Hlen. cbn in Hlen. lia.
    + rewrite list_ascii_of_string_of_list_ascii. exact Hall.
Qed.

(** The statement at length 6 on the source whose [i]-th draw is
    [i mod 62]. *)
Lemma GenerateShortCode_ok_witness :
  exists code,
    GenerateShortCode 6 InMemory.counting
    = (Done (Ok code), advance 6 InMemory.counting)
    /\ Strings.len code = 6
    /\ Forall (fun c => In c alphabet
                        /\ Validator.isAlphaNumeric (byteZ c) = true)
              (list_ascii_of_string code)
    /\ (0 < 6 -> IsValidShortCode code = true).
Proof.
  refine (proj1 (@GenerateShortCode_ok 6 InMemory.counting _ _)).
  - discriminate.
  - intros i Hi. exists (Z.of_nat i mod 62). split; [reflexivity | ].
    apply Z.mod_pos_bound. reflexivity.
Defined.

End CodeGenerator.

(** ** Uniqueness resolution *)

Module Resolver.
Import Validator Services Observe Scenarios.

Lemma creates_app (a b : list Event) :
  creates (a ++ b) = (creates a ++ creates b)%list.
Proof.
  induction a as [ | ev t IH]; [reflexivity | ].
  destruct ev; cbn [app creates]; rewrite IH; reflexivity.
Qed.

Lemma creates_collisions (codes : list string) : creates (collisions codes) = [].
Proof. induction codes as [ | c t IH]; [reflexivity | exact IH]. Qed.



Section AnyRepository.
Context {S : Type} {repo : URLRepository S}.

Lemma Resolved_shift (limit : nat) (code : string) (codes : list string)
    (tail : list Event) (r : Res (result string)) :
  Resolved limit codes tail r -> Resolved (Datatypes.S limit) (code :: codes) tail r.
Proof.
  intros H. destruct H; constructor; cbn [List.length]; lia.
Qed.

(** One iteration of the loop, run on a world. *)
Lemma loop_step (limit : nat) (w : World S) :
  generateUniqueShortCode_loop (Datatypes.S limit) w
  = match Utils.GenerateShortCode 6 (rand w) with
    | (Panicked reason, rd') =>
      (Panicked reason, {| store := store w; rand := rd'; log := log w |})
    | (Done (Err err), rd') =>
      (Done (Err (errGenerate err)),
       {| store := store w; rand := rd';
          log := log w ++ [EvGenerate 6 (Err err)] |})
    | (Done (Ok code), rd') =>
      let generated := (log w ++ [EvGenerate 6 (Ok code)])%list in
      match ExistsByShortCode code (store w) with
      | (Err err, s') =>
        (Done (Err err),
         {| store := s'; rand := rd';
            log := generated ++ [EvExistsByShortCode code (Err err)] |})
      | (Ok false, s') =>
        (Done (Ok code),
         {| store := s'; rand := rd';
            log := generated ++ [EvExistsByShortCode code (Ok false)] |})
      | (Ok true, s') =>
        generateUniqueShortCode_loop limit
          {| store := s'; rand := rd';
             log := generated ++ [EvExistsByShortCode code (Ok true)] |}
      end
    end.
Proof.
  cbn [generateUniqueShortCode_loop]. unfold bind, callGenerate, callRepo, ret.
  destruct (Utils.GenerateShortCode 6 (rand w)) as [[[code | err] | reason] rd'];
    try reflexivity.
  cbn [store rand log].
  destruct (ExistsByShortCode code (store w)) as [[[ | ] | err] s'];
    reflexivity.
Qed.

(** The loop with [limit] iterations left logs a run of collisions and
    one closing cycle, and touches nothing else. *)
Lemma loop_cycles (limit : nat) :
  forall w : World S,
  exists codes tail,
    log (snd (generateUniqueShortCode_loop limit w))
    = (log w ++ collisions codes ++ tail)%list
    /\ Resolved limit codes tail (fst (generateUniqueShortCode_loop limit w)).
Proof.
  induction limit as [ | limit IH]; intros w.
  - exists [], []. cbn. rewrite app_nil_r. split; [reflexivity | ].
    apply exhausted. reflexivity.
  - rewrite loop_step.
    destruct (Utils.GenerateShortCode 6 (rand w)) as [[[code | err] | reason] rd'].
    + cbn zeta.
      destruct (ExistsByShortCode code (store w)) as [[[ | ] | err] s'].
      * match goal with
        | |- context [generateUniqueShortCode_loop limit ?w1] =>
            destruct (IH w1) as (codes & tail & Hlog & Hres)
        end.
        exists (code :: codes), tail. split.
        -- rewrite Hlog. cbn [log collisions flat_map collision app].
           rewrite <- !app_assoc. reflexivity.
        -- apply Resolved_shift. exact Hres.
      * exists [], [EvGenerate 6 (Ok code); EvExistsByShortCode code (Ok false)].
        cbn. rewrite <- app_assoc. split; [reflexivity | ].
        apply found. cbn. lia.
      * exists [], [EvGenerate 6 (Ok code); EvExistsByShortCode code (Err err)].
        cbn. rewrite <- app_assoc. split; [reflexivity | ].
        apply check_failed. cbn. lia.
    + exists [], [EvGenerate 6 (Err err)]. cbn. split; [reflexivity | ].
      apply source_failed. cbn. lia.
    + exists [], []. cbn. rewrite app_nil_r. split; [reflexivity | ].
      apply generator_panicked. cbn. lia.
Qed.

End AnyRepository.




End Resolver.

(** ** The create flow *)

Module CreateFlow.
Import Validator Services Observe Resolver.

Section AnyRepository.
Context {std : GoStd} {S : Type} {repo : URLRepository S}.

Lemma CreateShortURL_invalid_url (req : Dto.CreateURLRequest) (w : World S)
    (err : error) :
  ValidateURL validator (Dto.URL req) = Some err ->
  CreateShortURL req w = (Done (Err err), w).
Proof. intros H. unfold CreateShortURL. rewrite H. reflexivity. Qed.

Lemma CreateShortURL_invalid_code (req : Dto.CreateURLRequest) (w : World S)
    (code : string) (err : error) :
  ValidateURL validator (Dto.URL req) = None ->
  Dto.CustomCode req = Some code ->
  ValidateShortCode validator code = Some err ->
  CreateShortURL req w = (Done (Err err), w).
Proof.
  intros Hurl Hcustom Hcode. unfold CreateShortURL.
  rewrite Hurl, Hcustom, Hcode. reflexivity.
Qed.

(** The path of a custom code of valid shape. *)
Lemma CreateShortURL_custom (req : Dto.CreateURLRequest) (w : World S)
    (code : string) :
  ValidateURL validator (Dto.URL req) = None ->
  Dto.CustomCode req = Some code ->
  ValidateShortCode validator code = None ->
  CreateShortURL req w
  = match ExistsByShortCode code (store w) with
    | (Err err, s') =>
      (Done (Err (errCheck err)),
       {| store := s'; rand := rand w;
          log := log w ++ [EvExistsByShortCode code (Err err)] |})
    | (Ok true, s') =>
      (Done (Err errDuplicate),
       {| store := s'; rand := rand w;
          log := log w ++ [EvExistsByShortCode code (Ok true)] |})
    | (Ok false, s') =>
      let shortURL := newShortURL (Dto.URL req) code in
      let (created, s'') := Create shortURL s' in
      (Done (respond created),
       {| store := s''; rand := rand w;
          log := (log w ++ [EvExistsByShortCode code (Ok false)])
                 ++ [EvCreate shortURL created] |})
    end.
Proof.
  intros Hurl Hcustom Hcode. unfold CreateShortURL.
  rewrite Hurl, Hcustom, Hcode. unfold bind, callRepo, ret.
  destruct (ExistsByShortCode code (store w)) as [[[ | ] | err] s'];
    try reflexivity.
  cbn [store rand log]. fold (newShortURL (Dto.URL req) code).
  destruct (Create (newShortURL (Dto.URL req) code) s') as [[created | err] s''];
    reflexivity.
Qed.

(** The path of a request without a custom code. *)
Lemma CreateShortURL_auto (req : Dto.CreateURLRequest) (w : World S) :
  ValidateURL validator (Dto.URL req) = None ->
  Dto.CustomCode req = None ->
  CreateShortURL req w
  = match generateUniqueShortCode w with
    | (Panicked reason, w1) => (Panicked reason, w1)
    | (Done (Err err), w1) => (Done (Err (errResolve err)), w1)
    | (Done (Ok code), w1) =>
      let shortURL := newShortURL (Dto.URL req) code in
      let (created, s2) := Create shortURL (store w1) in
      (Done (respond created),
       {| store := s2; rand := rand w1;
          log := log w1 ++ [EvCreate shortURL created] |})
    end.
Proof.
  intros Hurl Hcustom. unfold CreateShortURL.
  rewrite Hurl, Hcustom. unfold bind, callRepo, ret.
  destruct (generateUniqueShortCode w) as [[[code | err] | reason] w1];
    try reflexivity.
  fold (newShortURL (Dto.URL req) code).
  destruct (Create (newShortURL (Dto.URL req) code) (store w1))
    as [[created | err] s2]; reflexivity.
Qed.

End AnyRepository.

(** C2.  Whatever the parser and the repository: for a request whose
    URL is valid and whose custom code passes shape validation, when
    the existence check reports false the service hands [Create] a
    record carrying that very code, after exactly one existence check
    and nothing else.  The existence check itself, over the lookup it
    calls, answers false without error when the lookup fails with a
    NotFound service error, propagates every other lookup error
    unchanged, and answers true for a record found; over the
    PocketBase lookup an empty list of items is such a NotFound. *)
Theorem free_custom_code_is_kept :
  (forall (std : GoStd) (S : Type) (repo : URLRepository S)
          (req : Dto.CreateURLRequest) (code : string) (w : World S) (s' : S),
      ValidateURL validator (Dto.URL req) = None ->
      Dto.CustomCode req = Some code ->
      ValidateShortCode validator code = None ->
      ExistsByShortCode code (store w) = (Ok false, s') ->
      let shortURL := newShortURL (Dto.URL req) code in
      let w' := snd (CreateShortURL req w) in
      Models.ShortCode shortURL = code
      /\ log w'
         = (log w ++ [ EvExistsByShortCode code (Ok false);
                       EvCreate shortURL (fst (Create shortURL s')) ])%list
      /\ fst (CreateShortURL req w)
         = Done (respond (fst (Create shortURL s'))))
  /\ (forall (S : Type)
             (get : string -> S -> result (option Models.ShortURL) * S)
             (code : string) (s s' : S),
         (forall err,
             get code s = (Err err, s') ->
             As_ServiceError err = Some ErrorCodeNotFound ->
             ExistsByShortCode_via get code s = (Ok false, s'))
         /\ (forall err,
                get code s = (Err err, s') ->
                As_ServiceError err <> Some ErrorCodeNotFound ->
                ExistsByShortCode_via get code s = (Err err, s'))
         /\ (forall found,
                get code s = (Ok (Some found), s') ->
                ExistsByShortCode_via get code s = (Ok true, s')))
  /\ (forall (PB : Type) (listByShortCode : string -> PB -> Reply * PB)
             (parsePBTime : string -> Time) (code : string) (pb pb' : PB),
         listByShortCode code pb = (Response StatusOK (Ok []), pb') ->
         impl_ExistsByShortCode listByShortCode parsePBTime code pb
         = (Ok false, pb')).
Proof.
  split; [ | split ].
  - intros std S repo req code w s' Hurl Hcustom Hcode Hfree shortURL w'.
    unfold w'. rewrite (CreateShortURL_custom req w Hurl Hcustom Hcode).
    rewrite Hfree. cbn zeta. fold shortURL.
    destruct (Create shortURL s') as [created s'']. cbn [fst snd log].
    rewrite <- app_assoc. split; [reflexivity | split; reflexivity].
  - intros S get code s s'. unfold ExistsByShortCode_via.
    split; [ | split ].
    + intros err Hget Has. rewrite Hget, Has. reflexivity.
    + intros err Hget Has. rewrite Hget.
      destruct (As_ServiceError err) as [[] | ]; try reflexivity.
      contradiction Has. reflexivity.
    + intros found Hget. rewrite Hget. reflexivity.
  - intros PB listByShortCode parsePBTime code pb pb' Hlist.
    unfold impl_ExistsByShortCode, ExistsByShortCode_via, impl_GetByShortCode.
    rewrite Hlist. reflexivity.
Qed.

(** The statement at the request for "golang" on an empty in-memory
    store, at lookups that fail in the two ways, and at the list
    endpoint of the empty store. *)
Lemma free_custom_code_is_kept_witness :
  let req := {| Dto.URL := "https://example.com/a";
                Dto.CustomCode := Some "golang" |} in
  let w := InMemory.world (S := InMemory.Store) [] InMemory.counting in
  log (snd (CreateShortURL (std := go_std) (repo := InMemory.memRepo) req w))
  = [ EvExistsByShortCode "golang" (Ok false);
      EvCreate (newShortURL "https://example.com/a" "golang")
               (Ok (InMemory.record "golang" "https://example.com/a")) ]
  /\ ExistsByShortCode_via
       (fun _ (s : unit) =>
          (Err (NewNotFoundError "repository.GetByShortCode"
                                 "short URL not found"), s)) "golang" tt
     = (Ok false, tt)
  /\ ExistsByShortCode_via
       (fun _ (s : unit) => (Err (Foreign "connection refused" None), s))
       "golang" tt
     = (Err (Foreign "connection refused" None), tt)
  /\ impl_ExistsByShortCode InMemory.listByShortCode (fun _ => 0) "golang" []
     = (Ok false, []).
Proof.
  destruct free_custom_code_is_kept as (Hkeep & Hvia & Himpl).
  cbn zeta. split; [ | split; [ | split ] ].
  - refine (proj1 (proj2 (Hkeep go_std InMemory.Store InMemory.memRepo
                            {| Dto.URL := "https://example.com/a";
                               Dto.CustomCode := Some "golang" |}
                            "golang"
                            (InMemory.world (S := InMemory.Store) []
                                            InMemory.counting)
                            [] _ _ _ _))); reflexivity.
  - refine (proj1 (Hvia unit _ "golang" tt tt) _ _ _); reflexivity.
  - refine (proj1 (proj2 (Hvia unit _ "golang" tt tt)) _ _ _);
      [ reflexivity | discriminate ].
  - apply (Himpl InMemory.Store InMemory.listByShortCode (fun _ => 0)
                 "golang" [] []). reflexivity.
Defined.

(** C3.  Whatever the parser and the repository: for a request whose
    URL is valid and whose custom code passes shape validation, when
    the existence check reports true the service fails with the
    DuplicateError, and when the existence check fails it fails with an
    InternalError whose cause is the error of the check.  In both
    cases the existence check is the only event: [Create] is not
    called, and the store is as the check left it. *)
Theorem taken_custom_code_is_refused :
  forall (std : GoStd) (S : Type) (repo : URLRepository S)
         (req : Dto.CreateURLRequest) (code : string) (w : World S),
    ValidateURL validator (Dto.URL req) = None ->
    Dto.CustomCode req = Some code ->
    ValidateShortCode validator code = None ->
    let r := fst (CreateShortURL req w) in
    let w' := snd (CreateShortURL req w) in
    (forall s',
        ExistsByShortCode code (store w) = (Ok true, s') ->
        r = Done (Err errDuplicate)
        /\ code_of errDuplicate = Some ErrorCodeDuplicate
        /\ log w' = (log w ++ [EvExistsByShortCode code (Ok true)])%list
        /\ creates (log w') = creates (log w)
        /\ store w' = s')
    /\ (forall err s',
           ExistsByShortCode code (store w) = (Err err, s') ->
           r = Done (Err (errCheck err))
           /\ code_of (errCheck err) = Some ErrorCodeInternal
           /\ Unwrap (errCheck err) = Some err
           /\ log w' = (log w ++ [EvExistsByShortCode code (Err err)])%list
           /\ creates (log w') = creates (log w)
           /\ store w' = s').
Proof.
  intros std S repo req code w Hurl Hcustom Hcode r w'.
  unfold r, w'. rewrite (CreateShortURL_custom req w Hurl Hcustom Hcode).
  split.
  - intros s' Hcheck. rewrite Hcheck. cbn [fst snd log store].
    rewrite creates_app. cbn [creates]. rewrite app_nil_r.
    repeat (split; [reflexivity | ]). reflexivity.
  - intros err s' Hcheck. rewrite Hcheck. cbn [fst snd log store].
    rewrite creates_app. cbn [creates]. rewrite app_nil_r.
    repeat (split; [reflexivity | ]). reflexivity.
Qed.

(** The statement at the request for "golang" on a store that holds
    it, and on a store that is down. *)
Lemma taken_custom_code_is_refused_witness :
  let req := {| Dto.URL := "https://example.com/a";
                Dto.CustomCode := Some "golang" |} in
  fst (CreateShortURL (std := go_std) (repo := InMemory.memRepo) req
         (InMemory.world [ InMemory.record "golang" "https://go.dev/" ]
                         InMemory.counting))
  = Done (Err errDuplicate)
  /\ exists err,
       fst (CreateShortURL (std := go_std) (repo := InMemory.downRepo) req
              (InMemory.world tt InMemory.counting))
       = Done (Err (errCheck err)).
Proof.
  cbn zeta. split.
  - refine (proj1 (proj1 (taken_custom_code_is_refused
                            go_std InMemory.memRepo
                            {| Dto.URL := "https://example.com/a";
                               Dto.CustomCode := Some "golang" |}
                            (InMemory.world
                               [ InMemory.record "golang" "https://go.dev/" ]
                               InMemory.counting)
                            _ _ _) _ _)); reflexivity.
  - eexists.
    refine (proj1 (proj2 (taken_custom_code_is_refused
                            go_std InMemory.downRepo
                            {| Dto.URL := "https://example.com/a";
                               Dto.CustomCode := Some "golang" |}
                            (InMemory.world tt InMemory.counting)
                            _ _ _) _ _ _)); reflexivity.
Defined.

End CreateFlow.

Module CreateOrchestration.
Import Validator Services Observe Scenarios Resolver CreateFlow.

Section AnyRepository.
Context {std : GoStd} {S : Type} {repo : URLRepository S}.

Lemma Resolved_creates (limit : nat) (codes : list string)
    (tail : list Event) (r : Res (result string)) :
  Resolved limit codes tail r -> creates tail = [].
Proof. intros H. destruct H; reflexivity. Qed.

(** The resolver never calls [Create]. *)
Lemma generateUniqueShortCode_creates (w : World S) :
  creates (log (snd (generateUniqueShortCode w))) = creates (log w).
Proof.
  destruct (loop_cycles 10 w) as (codes & tail & Hlog & Hres).
  unfold generateUniqueShortCode. rewrite Hlog, !creates_app.
  rewrite creates_collisions, (Resolved_creates Hres), !app_nil_r.
  reflexivity.
Qed.

(** What [Create] has been handed when [CreateShortURL] is over:
    nothing, or one record made of the URL of the request and the code
    it resolved to, the URL being valid. *)
Lemma CreateShortURL_creates (req : Dto.CreateURLRequest) (w : World S) :
  let w' := snd (CreateShortURL req w) in
  (creates (log w') = creates (log w)
   /\ forall code, ValidateURL validator (Dto.URL req) = None ->
                   ~ resolved req w code)
  \/ (exists code,
         ValidateURL validator (Dto.URL req) = None
         /\ resolved req w code
         /\ creates (log w')
            = (creates (log w) ++ [newShortURL (Dto.URL req) code])%list).
Proof.
  cbn zeta. unfold resolved.
  destruct (ValidateURL validator (Dto.URL req)) as [err | ] eqn:Hurl.
  { left. rewrite (CreateShortURL_invalid_url req w Hurl).
    split; [reflexivity | discriminate]. }
  destruct (Dto.CustomCode req) as [custom | ] eqn:Hcustom.
  - destruct (ValidateShortCode validator custom) as [err | ] eqn:Hcode.
    { left. rewrite (CreateShortURL_invalid_code req w Hurl Hcustom Hcode).
      split; [reflexivity | ].
      intros code _ (<- & Hok & _). congruence. }
    rewrite (CreateShortURL_custom req w Hurl Hcustom Hcode).
    destruct (ExistsByShortCode custom (store w)) as [[[ | ] | err] s'] eqn:Hcheck.
    + left. cbn [snd log]. rewrite creates_app, app_nil_r.
      split; [reflexivity | ].
      intros code _ (<- & _ & Hfree). rewrite Hcheck in Hfree.
      discriminate Hfree.
    + right. exists custom. cbn zeta.
      destruct (Create (newShortURL (Dto.URL req) custom) s') as [created s''].
      cbn [snd log fst]. rewrite !creates_app. cbn [creates].
      rewrite app_nil_r, Hcheck. repeat split; reflexivity || assumption.
    + left. cbn [snd log]. rewrite creates_app, app_nil_r.
      split; [reflexivity | ].
      intros code _ (<- & _ & Hfree). rewrite Hcheck in Hfree.
      discriminate Hfree.
  - rewrite (CreateShortURL_auto req w Hurl Hcustom).
    pose proof (generateUniqueShortCode_creates w) as Hnone.
    destruct (generateUniqueShortCode w) as [[[code | err] | reason] w1];
      cbn [snd fst] in *.
    + right. exists code. cbn zeta.
      destruct (Create (newShortURL (Dto.URL req) code) (store w1))
        as [created s2].
      cbn [snd log]. rewrite creates_app, Hnone. cbn [creates].
      repeat split; reflexivity.
    + left. split; [exact Hnone | ]. intros code _ H. discriminate H.
    + left. split; [exact Hnone | ]. intros code _ H. discriminate H.
Qed.

End AnyRepository.

(** C9.  Whatever the parser, the repository and the world:
    - when URL validation fails, or the custom code fails shape
      validation, [CreateShortURL] returns that error and leaves the
      world untouched;
    - when the existence check of the custom code fails, or reports
      the code as existing, or when [generateUniqueShortCode] fails,
      it returns the InternalError wrapping the cause, or the
      DuplicateError, and [Create] has not been called;
    - [Create] is called at most once, and only when the URL is valid
      and the code resolved; the record it is handed then carries the
      URL of the request, the resolved code and access count 0. *)
Theorem create_short_circuits :
  forall (std : GoStd) (S : Type) (repo : URLRepository S)
         (req : Dto.CreateURLRequest) (w : World S),
    let r := fst (CreateShortURL req w) in
    let w' := snd (CreateShortURL req w) in
    let url := Dto.URL req in
    (forall err,
        ValidateURL validator url = Some err ->
        r = Done (Err err) /\ w' = w)
    /\ (forall code err,
           ValidateURL validator url = None ->
           Dto.CustomCode req = Some code ->
           ValidateShortCode validator code = Some err ->
           r = Done (Err err) /\ w' = w)
    /\ (forall code err,
           ValidateURL validator url = None ->
           Dto.CustomCode req = Some code ->
           ValidateShortCode validator code = None ->
           fst (ExistsByShortCode code (store w)) = Err err ->
           r = Done (Err (errCheck err))
           /\ creates (log w') = creates (log w))
    /\ (forall code,
           ValidateURL validator url = None ->
           Dto.CustomCode req = Some code ->
           ValidateShortCode validator code = None ->
           fst (ExistsByShortCode code (store w)) = Ok true ->
           r = Done (Err errDuplicate)
           /\ creates (log w') = creates (log w))
    /\ (forall err,
           ValidateURL validator url = None ->
           Dto.CustomCode req = None ->
           fst (generateUniqueShortCode w) = Done (Err err) ->
           r = Done (Err (errResolve err))
           /\ creates (log w') = creates (log w))
    /\ (forall code,
           ValidateURL validator url = None ->
           resolved req w code ->
           creates (log w')
           = (creates (log w) ++ [newShortURL url code])%list
           /\ Models.URL (newShortURL url code) = url
           /\ Models.ShortCode (newShortURL url code) = code
           /\ Models.AccessCount (newShortURL url code) = 0)
    /\ (creates (log w') = creates (log w)
        \/ exists code,
             ValidateURL validator url = None
             /\ resolved req w code
             /\ creates (log w')
                = (creates (log w) ++ [newShortURL url code])%list).
Proof.
  intros std S repo req w r w' url. unfold r, w', url.
  repeat match goal with |- _ /\ _ => split end.
  - intros err Hurl. rewrite (CreateShortURL_invalid_url req w Hurl).
    split; reflexivity.
  - intros code err Hurl Hcustom Hcode.
    rewrite (CreateShortURL_invalid_code req w Hurl Hcustom Hcode).
    split; reflexivity.
  - intros code err Hurl Hcustom Hcode Hcheck.
    rewrite (CreateShortURL_custom req w Hurl Hcustom Hcode).
    destruct (ExistsByShortCode code (store w)) as [found s'].
    cbn [fst] in Hcheck. subst found. cbn [fst snd log].
    rewrite creates_app, app_nil_r. split; reflexivity.
  - intros code Hurl Hcustom Hcode Hcheck.
    rewrite (CreateShortURL_custom req w Hurl Hcustom Hcode).
    destruct (ExistsByShortCode code (store w)) as [found s'].
    cbn [fst] in Hcheck. subst found. cbn [fst snd log].
    rewrite creates_app, app_nil_r. split; reflexivity.
  - intros err Hurl Hcustom Hgen.
    rewrite (CreateShortURL_auto req w Hurl Hcustom).
    pose proof (generateUniqueShortCode_creates w) as Hnone.
    destruct (generateUniqueShortCode w) as [generated w1].
    cbn [fst snd] in *. subst generated. cbn [fst snd].
    split; [reflexivity | exact Hnone].
  - intros code Hurl Hres.
    destruct (CreateShortURL_creates req w) as [(_ & Hnot) | (code' & _ & Hres' & Hlog)].
    + contradiction (Hnot code Hurl Hres).
    + assert (code' = code).
      { unfold resolved in Hres, Hres'.
        destruct (Dto.CustomCode req) as [custom | ].
        - destruct Hres as (<- & _). destruct Hres' as (<- & _). reflexivity.
        - congruence. }
      subst code'. split; [exact Hlog | split; [ | split ] ]; reflexivity.
  - destruct (CreateShortURL_creates req w) as [(Hsame & _) | Hone].
    + left. exact Hsame.
    + right. exact Hone.
Qed.

(** The statement at six requests: a URL without scheme, a custom code
    of two bytes, a store that is down, a custom code already stored,
    a random source that fails, and a request on which everything
    succeeds. *)
Lemma create_short_circuits_witness :
  let create S (repo : URLRepository S) :=
      CreateShortURL (std := go_std) (repo := repo) in
  let url := "https://example.com/a" in
  create _ InMemory.memRepo (request "not-a-url" None) emptyStore
  = (Done (Err errScheme), emptyStore)
  /\ create _ InMemory.memRepo (request url (Some "ab")) emptyStore
     = (Done (Err errCodeLength), emptyStore)
  /\ creates (log (snd (create _ InMemory.downRepo
                               (request url (Some "golang"))
                               (InMemory.world tt InMemory.counting))))
     = []
  /\ fst (create _ InMemory.memRepo (request url (Some "golang"))
                 (InMemory.world [ InMemory.record "golang" url ]
                                 InMemory.counting))
     = Done (Err errDuplicate)
  /\ creates (log (snd (create _ InMemory.memRepo (request url None)
                               (InMemory.world [] InMemory.broken))))
     = []
  /\ creates (log (snd (create _ InMemory.memRepo (request url None)
                               emptyStore)))
     = [ newShortURL url "012345" ].
Proof.
  cbn zeta.
  pose proof (fun S repo => @create_short_circuits go_std S repo) as H.
  repeat match goal with |- _ /\ _ => split end.
  - destruct (H _ InMemory.memRepo (request "not-a-url" None) emptyStore)
      as (H1 & _).
    destruct (H1 errScheme) as (Hr & Hw); [reflexivity | ].
    rewrite (surjective_pairing (CreateShortURL _ _)), Hr, Hw. reflexivity.
  - destruct (H _ InMemory.memRepo
                (request "https://example.com/a" (Some "ab")) emptyStore)
      as (_ & H2 & _).
    destruct (H2 "ab" errCodeLength) as (Hr & Hw);
      [ reflexivity | reflexivity | reflexivity | ].
    rewrite (surjective_pairing (CreateShortURL _ _)), Hr, Hw. reflexivity.
  - destruct (H _ InMemory.downRepo
                (request "https://example.com/a" (Some "golang"))
                (InMemory.world tt InMemory.counting))
      as (_ & _ & H3 & _).
    eapply H3; reflexivity.
  - destruct (H _ InMemory.memRepo
                (request "https://example.com/a" (Some "golang"))
                (InMemory.world
                   [ InMemory.record "golang" "https://example.com/a" ]
                   InMemory.counting))
      as (_ & _ & _ & H4 & _).
    eapply H4; reflexivity.
  - destruct (H _ InMemory.memRepo
                (request "https://example.com/a" None)
                (InMemory.world [] InMemory.broken))
      as (_ & _ & _ & _ & H5 & _).
    eapply H5; reflexivity.
  - destruct (H _ InMemory.memRepo
                (request "https://example.com/a" None) emptyStore)
      as (_ & _ & _ & _ & _ & H6 & _).
    apply (H6 "012345"); reflexivity.
Defined.

End CreateOrchestration.

(** ** Read, update, delete and statistics *)

Module Lookups.
Import Validator Services Observe ObserveMore.

(** C10.  Whatever the repository, the world and the string
    [shortCode], of valid shape or not, what the four operations
    return and leave behind is decided by the answers of the
    repository alone (and, for the update, by the validation of the new
    URL); the validation of codes has no part in it.
    - [GetStatistics] is the lookup of that very string: its error as
      it is, the record found as a response with its access count, and
      a nil dereference on a nil record;
    - [GetOriginalURL] is that lookup, its error as it is, then the
      increment under that very string: an increment that fails gives
      the InternalError wrapping its error, one that succeeds the
      record found as a response without access count;
    - [DeleteShortURL] is the call of [Delete] with that string, and
      returns what it returns;
    - [UpdateShortURL] with a new URL that is not valid returns the
      error of the URL and touches nothing, whatever the string; with a
      valid one it is the call of [Update] with that string and the
      URL: its error as it is, the record it returns as a response.
    So every error the four return is one the repository returned, the
    wrapped error of the increment, or the error of the new URL.
    In an in-memory store that holds a record under "a-b", which
    [ValidateShortCode] refuses, all four operations succeed.  On an
    empty store the codes "abc-123" and one of 25 letters, both
    refused by [ValidateShortCode], get the NotFound error of the
    store, and a validation error only as the custom code of a create
    request. *)
Theorem codes_are_forwarded_unvalidated :
  (forall (std : GoStd) (S : Type) (repo : URLRepository S)
          (shortCode : string) (w : World S),
      let looked := GetByShortCode shortCode (store w) in
      let bumped := IncrementAccessCount shortCode (snd looked) in
      let deleted := Delete shortCode (store w) in
      let updated req := Update shortCode (Dto.NewURL req) (store w) in
      GetStatistics shortCode w
      = (match fst looked with
         | Err err => Done (Err err)
         | Ok (Some shortURL) => Done (Ok (statsOf shortURL))
         | Ok None => Panicked nilDereference
         end,
         world_after w (snd looked)
                     [ EvGetByShortCode shortCode (fst looked) ])
      /\ GetOriginalURL shortCode w
         = match fst looked with
           | Err err =>
             (Done (Err err),
              world_after w (snd looked)
                          [ EvGetByShortCode shortCode (Err err) ])
           | Ok p =>
             (match fst bumped, p with
              | Some err, _ => Done (Err (errIncrement err))
              | None, Some shortURL => Done (Ok (redirectOf shortURL))
              | None, None => Panicked nilDereference
              end,
              world_after w (snd bumped)
                          [ EvGetByShortCode shortCode (Ok p);
                            EvIncrementAccessCount shortCode (fst bumped) ])
           end
      /\ DeleteShortURL shortCode w
         = (Done (fst deleted),
            world_after w (snd deleted) [ EvDelete shortCode (fst deleted) ])
      /\ (forall req,
             UpdateShortURL shortCode req w
             = match ValidateURL validator (Dto.NewURL req) with
               | Some err => (Done (Err err), w)
               | None =>
                 (match fst (updated req) with
                  | Err err => Done (Err err)
                  | Ok (Some updatedURL) => Done (Ok (statsOf updatedURL))
                  | Ok None => Panicked nilDereference
                  end,
                  world_after w (snd (updated req))
                              [ EvUpdate shortCode (Dto.NewURL req)
                                         (fst (updated req)) ])
               end)
      /\ (forall err,
             fst (GetStatistics shortCode w) = Done (Err err) ->
             fst looked = Err err)
      /\ (forall err,
             fst (GetOriginalURL shortCode w) = Done (Err err) ->
             fst looked = Err err
             \/ exists p cause,
                  fst looked = Ok p
                  /\ fst bumped = Some cause
                  /\ err = errIncrement cause)
      /\ (forall err,
             fst (DeleteShortURL shortCode w) = Done (Some err) ->
             fst deleted = Some err)
      /\ (forall req err,
             fst (UpdateShortURL shortCode req w) = Done (Err err) ->
             ValidateURL validator (Dto.NewURL req) = Some err
             \/ (ValidateURL validator (Dto.NewURL req) = None
                 /\ fst (updated req) = Err err)))
  /\ (let w := InMemory.world (S := InMemory.Store) [] InMemory.counting in
      let notFound :=
          NewNotFoundError "repository.GetByShortCode" "short URL not found" in
      let req := {| Dto.NewURL := "https://example.com/b" |} in
      ValidateShortCode validator "abc-123" = Some errCodeChars
      /\ fst (GetOriginalURL (repo := InMemory.memRepo) "abc-123" w)
         = Done (Err notFound)
      /\ fst (GetStatistics (repo := InMemory.memRepo) "abc-123" w)
         = Done (Err notFound)
      /\ fst (DeleteShortURL (repo := InMemory.memRepo) "abc-123" w)
         = Done (Some notFound)
      /\ fst (UpdateShortURL (std := go_std) (repo := InMemory.memRepo)
                             "abc-123" req w)
         = Done (Err notFound)
      /\ isValidationError
           (fst (GetOriginalURL (repo := InMemory.memRepo) "abc-123" w)) = false
      /\ isValidationError
           (fst (CreateShortURL (std := go_std) (repo := InMemory.memRepo)
                   {| Dto.URL := "https://example.com/b";
                      Dto.CustomCode := Some "abc-123" |} w)) = true
      /\ ValidateShortCode validator "aaaaaaaaaaaaaaaaaaaaaaaaa"
         = Some errCodeLength
      /\ fst (GetStatistics (repo := InMemory.memRepo)
                            "aaaaaaaaaaaaaaaaaaaaaaaaa" w)
         = Done (Err notFound))
  /\ (let held := InMemory.world
                    [ InMemory.record "a-b" "https://example.com/a" ]
                    InMemory.counting in
      let answer url count := {| Dto.ID := "rec-a-b";
                                 Dto.RespURL := url;
                                 Dto.ShortCode := "a-b";
                                 Dto.AccessCount := count;
                                 Dto.CreatedAt := 0;
                                 Dto.UpdatedAt := 0 |} in
      let req := {| Dto.NewURL := "https://example.com/b" |} in
      ValidateShortCode validator "a-b" = Some errCodeLength
      /\ fst (GetOriginalURL (repo := InMemory.memRepo) "a-b" held)
         = Done (Ok (answer "https://example.com/a" 0))
      /\ fst (GetStatistics
                (repo := InMemory.memRepo) "a-b"
                (snd (GetOriginalURL (repo := InMemory.memRepo) "a-b" held)))
         = Done (Ok (answer "https://example.com/a" 1))
      /\ fst (UpdateShortURL (std := go_std) (repo := InMemory.memRepo)
                             "a-b" req held)
         = Done (Ok (answer "https://example.com/b" 0))
      /\ fst (DeleteShortURL (repo := InMemory.memRepo) "a-b" held)
         = Done None).
Proof.
  split; [ | split ].
  - intros std S repo shortCode w looked bumped deleted updated.
    assert (Hstats :
              GetStatistics shortCode w
              = (match fst looked with
                 | Err err => Done (Err err)
                 | Ok (Some shortURL) => Done (Ok (statsOf shortURL))
                 | Ok None => Panicked nilDereference
                 end,
                 world_after w (snd looked)
                             [ EvGetByShortCode shortCode (fst looked) ])).
    { unfold looked, GetStatistics, bind, callRepo, ret, deref, panic,
             world_after.
      destruct (GetByShortCode shortCode (store w))
        as [[[record | ] | err] s1]; reflexivity. }
    assert (Hredirect :
              GetOriginalURL shortCode w
              = match fst looked with
                | Err err =>
                  (Done (Err err),
                   world_after w (snd looked)
                               [ EvGetByShortCode shortCode (Err err) ])
                | Ok p =>
                  (match fst bumped, p with
                   | Some err, _ => Done (Err (errIncrement err))
                   | None, Some shortURL => Done (Ok (redirectOf shortURL))
                   | None, None => Panicked nilDereference
                   end,
                   world_after w (snd bumped)
                               [ EvGetByShortCode shortCode (Ok p);
                                 EvIncrementAccessCount shortCode
                                                        (fst bumped) ])
                end).
    { unfold bumped, looked, GetOriginalURL, bind, callRepo, ret, deref,
             panic, world_after.
      destruct (GetByShortCode shortCode (store w)) as [[p | err] s1];
        cbn [fst snd store rand log]; [ | reflexivity ].
      destruct (IncrementAccessCount shortCode s1) as [[err | ] s2];
        cbn [fst snd store rand log]; rewrite <- app_assoc.
      - reflexivity.
      - destruct p as [shortURL | ]; reflexivity. }
    assert (Hdelete :
              DeleteShortURL shortCode w
              = (Done (fst deleted),
                 world_after w (snd deleted)
                             [ EvDelete shortCode (fst deleted) ])).
    { unfold deleted, DeleteShortURL, callRepo, world_after.
      destruct (Delete shortCode (store w)) as [r s']. reflexivity. }
    assert (Hupdate :
              forall req,
                UpdateShortURL shortCode req w
                = match ValidateURL validator (Dto.NewURL req) with
                  | Some err => (Done (Err err), w)
                  | None =>
                    (match fst (updated req) with
                     | Err err => Done (Err err)
                     | Ok (Some updatedURL) => Done (Ok (statsOf updatedURL))
                     | Ok None => Panicked nilDereference
                     end,
                     world_after w (snd (updated req))
                                 [ EvUpdate shortCode (Dto.NewURL req)
                                            (fst (updated req)) ])
                  end).
    { intros req. unfold updated, UpdateShortURL.
      destruct (ValidateURL validator (Dto.NewURL req)) as [err | ];
        [reflexivity | ].
      unfold bind, callRepo, ret, deref, panic, world_after.
      destruct (Update shortCode (Dto.NewURL req) (store w))
        as [[[updatedURL | ] | err] s1]; reflexivity. }
    repeat match goal with |- _ /\ _ => split end;
      try assumption.
    + intros err. rewrite Hstats. cbn [fst].
      destruct (fst looked) as [[shortURL | ] | err']; intros E;
        try discriminate E.
      injection E as ->. reflexivity.
    + intros err. rewrite Hredirect.
      destruct (fst looked) as [p | err']; cbn [fst]; intros E.
      * right. exists p.
        destruct (fst bumped) as [cause | ].
        -- exists cause. injection E as <-. repeat split; reflexivity.
        -- destruct p; discriminate E.
      * left. injection E as ->. reflexivity.
    + intros err. rewrite Hdelete. cbn [fst]. intros E.
      injection E as ->. reflexivity.
    + intros req err. rewrite Hupdate.
      destruct (ValidateURL validator (Dto.NewURL req)) as [err' | ];
        cbn [fst]; intros E.
      * left. injection E as ->. reflexivity.
      * right. split; [reflexivity | ].
        destruct (fst (updated req)) as [[updatedURL | ] | err'];
          try discriminate E.
        injection E as ->. reflexivity.
  - cbn zeta. repeat split; reflexivity.
  - cbn zeta. repeat split; reflexivity.
Qed.

(** The statement at the code "x" looked up, and at a record read and
    updated under the code "a-b", in a store that holds that code. *)
Lemma codes_are_forwarded_unvalidated_witness :
  let notFound :=
      NewNotFoundError "repository.GetByShortCode" "short URL not found" in
  let held := InMemory.world [ InMemory.record "a-b" "https://example.com/a" ]
                             InMemory.counting in
  let updatedRecord := {| Models.ID := "rec-a-b";
                          Models.URL := "https://example.com/b";
                          Models.ShortCode := "a-b";
                          Models.AccessCount := 0;
                          Models.Created := 0;
                          Models.Updated := 0 |} in
  fst (GetByShortCode (URLRepository := InMemory.memRepo) "x" [])
  = Err notFound
  /\ UpdateShortURL (std := go_std) (repo := InMemory.memRepo)
                    "a-b" {| Dto.NewURL := "https://example.com/b" |} held
     = (Done (Ok (statsOf updatedRecord)),
        {| store := [ InMemory.record "a-b" "https://example.com/b" ];
           rand := InMemory.counting;
           log := [ EvUpdate "a-b" "https://example.com/b"
                             (Ok (Some updatedRecord)) ] |}).
Proof.
  destruct codes_are_forwarded_unvalidated as (H & _). cbn zeta. split.
  - destruct (H go_std _ InMemory.memRepo "x"
                (InMemory.world (S := InMemory.Store) [] InMemory.counting))
      as (_ & _ & _ & _ & Hstats & _).
    apply Hstats. reflexivity.
  - destruct (H go_std _ InMemory.memRepo "a-b"
                (InMemory.world
                   [ InMemory.record "a-b" "https://example.com/a" ]
                   InMemory.counting))
      as (_ & _ & _ & Hupdate & _).
    rewrite (Hupdate {| Dto.NewURL := "https://example.com/b" |}).
    reflexivity.
Defined.

End Lookups.

(** ** More on codes: the two validators and the generator *)

Module CodeShapes.
Import Validator ValidatorFacts Utils Observe.

(** The inner loop of [IsValidShortCode] and [isAlphaNumeric] accept
    the same runes. *)
Lemma isBase62_isAlphaNumeric (r : Z) : isBase62 r = isAlphaNumeric r.
Proof.
  destruct (Z.lt_ge_cases r 0) as [Hneg | Hnn];
    [ | destruct (Z.lt_ge_cases r 128) as [Hlow | Hhigh] ].
  - assert (E : isAlphaNumeric r = false) by (unfold isAlphaNumeric; lia).
    rewrite E. unfold isBase62.
    assert (Hall : forallb (fun x => 0 <=? x) (runes base62Chars) = true)
      by (vm_compute; reflexivity).
    rewrite forallb_forall in Hall.
    destruct (existsb (Z.eqb r) (runes base62Chars)) eqn:Hex; [ | reflexivity].
    apply existsb_exists in Hex. destruct Hex as (x & Hx & Erx).
    apply Z.eqb_eq in Erx. subst x. apply Hall in Hx. lia.
  - assert (Hall : forallb (fun k => Bool.eqb (isBase62 (Z.of_nat k))
                                              (isAlphaNumeric (Z.of_nat k)))
                           (seq 0 128) = true) by (vm_compute; reflexivity).
    rewrite forallb_forall in Hall.
    specialize (Hall (Z.to_nat r)). rewrite Z2Nat.id in Hall by exact Hnn.
    apply Bool.eqb_prop. apply Hall. apply in_seq. lia.
  - assert (E : isAlphaNumeric r = false) by (unfold isAlphaNumeric; lia).
    rewrite E. unfold isBase62.
    assert (Hall : forallb (fun x => x <? 128) (runes base62Chars) = true)
      by (vm_compute; reflexivity).
    rewrite forallb_forall in Hall.
    destruct (existsb (Z.eqb r) (runes base62Chars)) eqn:Hex; [ | reflexivity].
    apply existsb_exists in Hex. destruct Hex as (x & Hx & Erx).
    apply Z.eqb_eq in Erx. subst x. apply Hall in Hx. lia.
Qed.

Lemma checkRunes_forallb (rs : list Z) :
  checkRunes rs = None <-> forallb isBase62 rs = true.
Proof.
  rewrite checkRunes_None, forallb_forall, Forall_forall.
  split; intros H r Hr; specialize (H r Hr);
    rewrite isBase62_isAlphaNumeric in *; exact H.
Qed.

Lemma len_zero (code : string) : Strings.len code = 0 <-> code = EmptyString.
Proof.
  unfold Strings.len. destruct code as [ | c t]; cbn [String.length].
  - split; reflexivity.
  - split; [lia | discriminate].
Qed.

(** X1.  [IsValidShortCode] answers true exactly for the non-empty
    strings all of whose bytes are ASCII letters or digits, whatever
    their length; a byte above 0x7F, alone or inside a well-formed
    UTF-8 sequence, makes it answer false. *)
Theorem IsValidShortCode_spec (shortCode : string) :
  (IsValidShortCode shortCode = true
   <-> shortCode <> EmptyString
       /\ Forall (fun b => isAlphaNumeric b = true) (bytes shortCode))
  /\ (Exists (fun b => 128 <= b) (bytes shortCode) ->
      IsValidShortCode shortCode = false).
Proof.
  assert (Hiff : IsValidShortCode shortCode = true
                 <-> shortCode <> EmptyString
                     /\ Forall (fun b => isAlphaNumeric b = true)
                               (bytes shortCode)).
  { unfold IsValidShortCode.
    rewrite <- checkRunes_None, <- checkRunes_bytes, checkRunes_forallb.
    destruct (Z.eqb_spec (Strings.len shortCode) 0) as [E | NE].
    - apply len_zero in E. split; [discriminate | ].
      intros (Hne & _). contradiction.
    - split.
      + intros H. split; [ | exact H]. intros E. apply NE, len_zero, E.
      + intros (_ & H). exact H. }
  split; [exact Hiff | ].
  intros Hhigh. apply not_true_is_false. intros E.
  apply Hiff in E. destruct E as (_ & Hall).
  rewrite Forall_forall in Hall. apply Exists_exists in Hhigh.
  destruct Hhigh as (b & Hb & Hge). apply Hall in Hb.
  apply isAlphaNumeric_ascii in Hb. lia.
Qed.

(** The statement at a one-letter code and at "caf" followed by the
    two bytes of U+00E9. *)
Lemma IsValidShortCode_spec_witness :
  IsValidShortCode "a" = true
  /\ IsValidShortCode
       (String "c" (String "a" (String "f"
          (String (ascii_of_nat 195) (String (ascii_of_nat 169) "")))))
     = false.
Proof.
  split.
  - apply (proj1 (IsValidShortCode_spec "a")). split; [discriminate | ].
    repeat constructor.
  - apply (proj2 (IsValidShortCode_spec _)).
    apply Exists_cons_tl, Exists_cons_tl, Exists_cons_tl, Exists_cons_hd.
    vm_compute. discriminate.
Defined.

(** X2.  The two validators of codes agree within the length bounds:
    [ValidateShortCode] accepts a code exactly when it has 4 to 20
    bytes and [IsValidShortCode] answers true.  The configuration of
    the validator plays no part. *)
Theorem validators_agree (v : URLValidator) (code : string) :
  ValidateShortCode v code = None
  <-> 4 <= Strings.len code <= 20 /\ IsValidShortCode code = true.
Proof.
  unfold ValidateShortCode, IsValidShortCode.
  destruct (Z.ltb_spec (Strings.len code) 4) as [H4 | H4]; cbn [orb].
  - split; [discriminate | ]. intros (Hn & _). lia.
  - destruct (Z.ltb_spec 20 (Strings.len code)) as [H20 | H20].
    + split; [discriminate | ]. intros (Hn & _). lia.
    + destruct (Z.eqb_spec (Strings.len code) 0) as [E | NE]; [lia | ].
      rewrite checkRunes_forallb. split.
      * intros H. split; [lia | exact H].
      * intros (_ & H). exact H.
Qed.

(** The statement at "golang". *)
Lemma validators_agree_witness :
  ValidateShortCode NewURLValidator "golang" = None.
Proof.
  apply (proj2 (validators_agree NewURLValidator "golang")).
  split; [ split; discriminate | reflexivity ].
Defined.

(** On a source that serves the next [L] draws, the generator returns
    a string of [L] symbols of the alphabet. *)
Lemma GenerateShortCode_healthy (L : Z) (rd : Rand.Reader) :
  0 <= L ->
  Rand.healthy 62 (Z.to_nat L) rd ->
  exists code,
    GenerateShortCode L rd = (Done (Ok code), advance (Z.to_nat L) rd)
    /\ Strings.len code = L
    /\ Forall (fun c => In c alphabet) (list_ascii_of_string code).
Proof.
  intros HL Hrd. unfold GenerateShortCode.
  assert (E : (L <? 0) = false) by (apply Z.ltb_ge; exact HL). rewrite E.
  destruct (@CodeGenerator.GenerateShortCode_loop_fills (Z.to_nat L) 0
              (repeat zero (Z.to_nat L)) rd) as (cs & Hcs & Hall & Hrun).
  { rewrite repeat_length. reflexivity. }
  { exact Hrd. }
  exists (string_of_list_ascii cs). cbn [firstn app] in Hrun.
  split; [exact Hrun | split].
  - unfold Strings.len.
    rewrite CodeGenerator.string_length_of_list, Hcs. lia.
  - rewrite list_ascii_of_string_of_list_ascii. exact Hall.
Qed.

Lemma alphabet_code_shape (v : URLValidator) (code : string) :
  4 <= Strings.len code <= 20 ->
  Forall (fun c => In c alphabet) (list_ascii_of_string code) ->
  ValidateShortCode v code = None.
Proof.
  intros Hlen Hall. apply validators_agree. split; [exact Hlen | ].
  apply CodeGenerator.IsValidShortCode_alphabet; [ | exact Hall].
  intros E. rewrite E in Hlen. cbn in Hlen. lia.
Qed.

(** X3.  What the generator makes, the validator of custom codes
    accepts: for a length from 4 to 20 and a source that serves that
    many draws, [GenerateShortCode] returns a code on which
    [ValidateShortCode] returns nil. *)
Theorem generated_codes_pass_validation
    (v : URLValidator) (L : Z) (rd : Rand.Reader) :
  4 <= L <= 20 ->
  Rand.healthy 62 (Z.to_nat L) rd ->
  exists code,
    fst (GenerateShortCode L rd) = Done (Ok code)
    /\ ValidateShortCode v code = None.
Proof.
  intros HL Hrd.
  destruct (@GenerateShortCode_healthy L rd) as (code & Hrun & Hlen & Hall);
    [lia | exact Hrd | ].
  exists code. rewrite Hrun. split; [reflexivity | ].
  apply alphabet_code_shape; [rewrite Hlen; exact HL | exact Hall].
Qed.

(** The statement at length 6 on the source whose [i]-th draw is
    [i mod 62]. *)
Lemma generated_codes_pass_validation_witness :
  exists code,
    fst (GenerateShortCode 6 InMemory.counting) = Done (Ok code)
    /\ ValidateShortCode NewURLValidator code = None.
Proof.
  apply (@generated_codes_pass_validation NewURLValidator 6 InMemory.counting).
  - split; discriminate.
  - intros i Hi. exists (Z.of_nat i mod 62). split; [reflexivity | ].
    apply Z.mod_pos_bound. reflexivity.
Defined.

(** The loop stops at the first draw that fails. *)
Lemma GenerateShortCode_loop_fails (k : nat) :
  forall (todo i : nat) (result : list ascii) (rd : Rand.Reader) (err : error),
    (k < todo)%nat ->
    Rand.healthy 62 k rd ->
    Rand.draw rd (Rand.pos rd + k) = Err err ->
    GenerateShortCode_loop todo i result rd
    = (Done (Err err), advance (Datatypes.S k) rd).
Proof.
  induction k as [ | k IH]; intros todo i result rd err Hk Hrd Hdraw;
    (destruct todo as [ | todo]; [lia | ]); cbn [GenerateShortCode_loop].
  - unfold bind, Rand.Int, ret, advance. change (_ <=? 0) with false. cbv iota.
    rewrite Nat.add_0_r in Hdraw. rewrite Hdraw, Nat.add_1_r. reflexivity.
  - destruct (CodeGenerator.Int_healthy Hrd) as (n & Hn & Hint & Hrd').
    destruct (CodeGenerator.byteAt_base62 Hn) as (c & Hc & _).
    unfold bind at 1. rewrite Hint, Hc.
    rewrite (IH todo (Datatypes.S i) (setAt i c result) (advance 1 rd) err).
    + unfold advance. cbn [Rand.draw Rand.pos]. rewrite <- Nat.add_assoc.
      reflexivity.
    + lia.
    + exact Hrd'.
    + cbn [advance Rand.draw Rand.pos]. rewrite <- Hdraw. f_equal. lia.
Qed.

(** X4.  When the random source fails at one of the [L] draws, after
    [k] draws that it served, [GenerateShortCode L] returns the error
    of the source as it is, with no string, and stops drawing: it has
    made [k + 1] draws.  With a negative length it panics before any
    draw. *)
Theorem GenerateShortCode_fails_fast
    (L : Z) (rd : Rand.Reader) (k : nat) (err : error) :
  (L < 0 -> exists reason, GenerateShortCode L rd = (Panicked reason, rd))
  /\ ((k < Z.to_nat L)%nat ->
      Rand.healthy 62 k rd ->
      Rand.draw rd (Rand.pos rd + k) = Err err ->
      GenerateShortCode L rd
      = (Done (Err err), advance (Datatypes.S k) rd)).
Proof.
  split.
  - intros HL. unfold GenerateShortCode.
    apply Z.ltb_lt in HL. rewrite HL. eexists. reflexivity.
  - intros Hk Hrd Hdraw. unfold GenerateShortCode.
    assert (E : (L <? 0) = false) by (apply Z.ltb_ge; lia). rewrite E.
    apply GenerateShortCode_loop_fails; assumption.
Qed.

(** The statement at length 6 on that source, and at length -1. *)
Lemma GenerateShortCode_fails_fast_witness :
  GenerateShortCode 6 Canned.failsAtFourth
  = (Done (Err (Foreign "entropy source unavailable" None)),
     advance 4 Canned.failsAtFourth)
  /\ exists reason,
       GenerateShortCode (-1) Canned.failsAtFourth
       = (Panicked reason, Canned.failsAtFourth).
Proof.
  split.
  - refine (proj2 (@GenerateShortCode_fails_fast
                     6 Canned.failsAtFourth 3 _) _ _ _).
    + cbn. lia.
    + intros i Hi. exists 10.
      cbn [Canned.failsAtFourth Rand.draw Rand.pos] in *.
      assert (E : (i <? 3)%nat = true) by (apply Nat.ltb_lt; lia).
      rewrite E. split; [reflexivity | lia].
    + reflexivity.
  - refine (proj1 (@GenerateShortCode_fails_fast
                     (-1) Canned.failsAtFourth 0
                     (Foreign "entropy source unavailable" None)) _).
    reflexivity.
Defined.

End CodeShapes.

(** ** More on URLs: any configuration of the validator *)

Module URLRules.
Import Validator ValidatorFacts Observe.

(** X5.  Whatever the parser, the case mapping and the configuration
    of the validator: [ValidateURL] accepts an input exactly when it is
    not longer than the configured maximum, parses, has the scheme
    "http" or "https", and its lower-cased host is no entry of the
    configured list.  Every refusal is a validation error of
    [validator.ValidateURL] with one of four reasons, and only the
    "invalid URL format" one wraps a cause. *)
Theorem ValidateURL_decides (std : GoStd) (v : URLValidator) (raw : string) :
  (ValidateURL v raw = None
   <-> Strings.len raw <= maxURLLength v
       /\ exists parsed,
            url_Parse raw = Ok parsed
            /\ (NetURL.Scheme parsed = "http"
                \/ NetURL.Scheme parsed = "https")
            /\ ~ In (strings_ToLower (NetURL.Host parsed)) (blockedDomains v))
  /\ (forall err,
         ValidateURL v raw = Some err ->
         code_of err = Some ErrorCodeValidation
         /\ (err = errTooLong
             \/ (exists cause, url_Parse raw = Err cause
                               /\ err = errFormat cause)
             \/ err = errScheme
             \/ err = errBlocked)).
Proof.
  unfold ValidateURL, isDomainBlocked.
  destruct (Z.ltb_spec (maxURLLength v) (Strings.len raw)) as [Hlong | Hfits].
  { split.
    - split; [discriminate | ]. intros (H & _). lia.
    - intros err E. injection E as <-. split; [reflexivity | auto]. }
  destruct (url_Parse raw) as [parsed | cause].
  2:{ split.
      - split; [discriminate | ]. intros (_ & parsed & E & _). discriminate E.
      - intros err E. injection E as <-.
        split; [reflexivity | ]. right. left. exists cause. auto. }
  pose proof (URLShape.scheme_gate (NetURL.Scheme parsed)) as Hgate.
  destruct (negb (NetURL.Scheme parsed =? "http")%string
            && negb (NetURL.Scheme parsed =? "https")%string).
  { split.
    - split; [discriminate | ].
      intros (_ & parsed' & E & Hscheme & _). injection E as <-.
      apply Hgate in Hscheme. discriminate Hscheme.
    - intros err E. injection E as <-. split; [reflexivity | auto]. }
  pose proof (Contains_In (blockedDomains v)
                          (strings_ToLower (NetURL.Host parsed))) as Hin.
  destruct (Strings.Contains (blockedDomains v)
                             (strings_ToLower (NetURL.Host parsed))).
  - split.
    + split; [discriminate | ].
      intros (_ & parsed' & E & _ & Hnot). injection E as <-.
      contradiction Hnot. apply Hin. reflexivity.
    + intros err E. injection E as <-. split; [reflexivity | auto]. 
  - split.
    + split; [ | reflexivity]. intros _. split; [exact Hfits | ].
      exists parsed. split; [reflexivity | split].
      * apply Hgate. reflexivity.
      * intros H. apply Hin in H. discriminate H.
    + intros err E. discriminate E.
Qed.

(** The statement at a validator with its own limit and list, on a URL
    that passes and one that is too long for it. *)
Lemma ValidateURL_decides_witness :
  let v := {| maxURLLength := 30; blockedDomains := [ "example.org" ] |} in
  @ValidateURL go_std v "https://example.com/a" = None
  /\ code_of errTooLong = Some ErrorCodeValidation.
Proof.
  cbn zeta. split.
  - apply (proj1 (ValidateURL_decides go_std _ "https://example.com/a")).
    split; [discriminate | ].
    exists (NetURL.mkURL "https" "" None "example.com" "/a" false false "" "").
    split; [reflexivity | split; [right; reflexivity | ] ].
    cbn. intros [E | []]. discriminate E.
  - apply (proj2 (ValidateURL_decides
                    go_std {| maxURLLength := 30;
                              blockedDomains := [ "example.org" ] |}
                    "https://example.com/a/very/long/path") errTooLong).
    reflexivity.
Defined.

Lemma lowerByte_not_upper (c : ascii) :
  Strings.isUpper (Strings.lowerByte c) = false.
Proof. destruct c as [[] [] [] [] [] [] [] []]; vm_compute; reflexivity. Qed.

Lemma mapBytes_lower_no_upper (s : string) :
  existsb Strings.isUpper (list_ascii_of_string (Strings.mapBytes Strings.lowerByte s))
  = false.
Proof.
  induction s as [ | c t IH]; [reflexivity | ].
  cbn [Strings.mapBytes list_ascii_of_string existsb].
  rewrite lowerByte_not_upper, IH. reflexivity.
Qed.

(** X6.  The host is lower-cased before the comparison, the entries
    of the list are not: whatever the parser and the Unicode tables, an
    entry that blocks a host of ASCII bytes holds no upper-case ASCII
    letter, so an entry spelled with one blocks no such host. *)
Theorem upper_case_entries_block_nothing
    (parse : string -> result NetURL.URL) (unicodeLower : string -> string)
    (v : URLValidator) (host : string) :
  let std := {| url_Parse := parse;
                strings_ToLower := Strings.ToLowerWith unicodeLower |} in
  Strings.isASCII host = true ->
  isDomainBlocked v host = true ->
  exists entry,
    In entry (blockedDomains v)
    /\ entry = Strings.mapBytes Strings.lowerByte host
    /\ existsb Strings.isUpper (list_ascii_of_string entry) = false.
Proof.
  intros std Hascii Hblocked. unfold isDomainBlocked in Hblocked.
  apply Contains_In in Hblocked.
  cbn [std strings_ToLower] in Hblocked. unfold Strings.ToLowerWith in Hblocked.
  rewrite Hascii in Hblocked.
  exists (Strings.mapBytes Strings.lowerByte host).
  split; [exact Hblocked | split; [reflexivity | apply mapBytes_lower_no_upper] ].
Qed.

(** The statement at the host "Malware.COM" against the shipped list. *)
Lemma upper_case_entries_block_nothing_witness :
  exists entry,
    In entry Constants.BlockedDomains
    /\ entry = "malware.com"
    /\ existsb Strings.isUpper (list_ascii_of_string entry) = false.
Proof.
  apply (@upper_case_entries_block_nothing
           NetURL.Parse (Strings.mapBytes Strings.lowerByte)
           NewURLValidator "Malware.COM"); reflexivity.
Defined.

End URLRules.

(** ** More on the service *)

Module ServiceRules.
Import Validator Services Observe ObserveMore Resolver CreateFlow.

Section AnyRepository.
Context {S : Type} {repo : URLRepository S}.

Lemma healthy_split (n m : nat) (rd : Rand.Reader) :
  Rand.healthy 62 (n + m) rd ->
  Rand.healthy 62 n rd /\ Rand.healthy 62 m (advance n rd).
Proof.
  intros H. split; intros i Hi.
  - apply H. lia.
  - cbn [advance Rand.pos Rand.draw] in *. apply H. lia.
Qed.

(** On a source that serves 6 draws for each iteration left, the loop
    never panics and never fails to generate; each code it generates
    passes the validator of custom codes. *)
Lemma loop_healthy (limit : nat) :
  forall w : World S,
    Rand.healthy 62 (6 * limit) (rand w) ->
    let run := generateUniqueShortCode_loop limit w in
    returned (fst run)
    /\ exists new,
         log (snd run) = (log w ++ new)%list
         /\ Forall wellGenerated new
         /\ (forall code, fst run = Done (Ok code) ->
                          ValidateShortCode validator code = None)
         /\ Rand.pos (rand (snd run))
            = (Rand.pos (rand w)
               + 6 * List.length (filter isGeneration new))%nat.
Proof.
  induction limit as [ | limit IH]; intros w Hrd run; unfold run; clear run.
  - cbn. split; [eexists; reflexivity | ].
    exists []. rewrite app_nil_r. cbn.
    repeat split; try constructor; try lia. intros code E. discriminate E.
  - rewrite loop_step.
    replace (6 * Datatypes.S limit)%nat with (6 + 6 * limit)%nat in Hrd by lia.
    apply healthy_split in Hrd. destruct Hrd as (Hnow & Hlater).
    destruct (@CodeShapes.GenerateShortCode_healthy 6 (rand w))
      as (code & Hrun & Hlen & Hall); [lia | exact Hnow | ].
    assert (Hvalid : ValidateShortCode validator code = None).
    { apply CodeShapes.alphabet_code_shape; [rewrite Hlen; lia | exact Hall]. }
    assert (Hgen : wellGenerated (EvGenerate 6 (Ok code))).
    { split; [reflexivity | ]. exists code. split; [reflexivity | exact Hvalid]. }
    rewrite Hrun. cbn zeta.
    destruct (ExistsByShortCode code (store w)) as [[[ | ] | err] s'].
    + match goal with
      | |- context [generateUniqueShortCode_loop limit ?w1] =>
          destruct (IH w1) as (Hret & new & Hlog & Hnew & Hcode & Hpos);
            [exact Hlater | ]
      end.
      split; [exact Hret | ].
      exists (EvGenerate 6 (Ok code) :: EvExistsByShortCode code (Ok true) :: new).
      split; [ | split; [ | split ] ].
      * rewrite Hlog. cbn [log]. rewrite <- !app_assoc. reflexivity.
      * constructor; [exact Hgen | constructor; [exact I | exact Hnew] ].
      * exact Hcode.
      * rewrite Hpos. cbn [rand advance Rand.pos filter isGeneration List.length].
        change (Z.to_nat 6) with 6%nat. lia.
    + cbn [fst snd log rand]. split; [eexists; reflexivity | ].
      exists [EvGenerate 6 (Ok code); EvExistsByShortCode code (Ok false)].
      split; [rewrite <- app_assoc; reflexivity | split; [ | split ] ].
      * constructor; [exact Hgen | constructor; [exact I | constructor] ].
      * intros c E. injection E as <-. exact Hvalid.
      * cbn. change (Pos.to_nat 6) with 6%nat. lia.
    + cbn [fst snd log rand]. split; [eexists; reflexivity | ].
      exists [EvGenerate 6 (Ok code); EvExistsByShortCode code (Err err)].
      split; [rewrite <- app_assoc; reflexivity | split; [ | split ] ].
      * constructor; [exact Hgen | constructor; [exact I | constructor] ].
      * intros c E. discriminate E.
      * cbn. change (Pos.to_nat 6) with 6%nat. lia.
Qed.

End AnyRepository.

(** X7.  On a random source that serves the next 60 draws, whatever
    the repository: [generateUniqueShortCode] does not panic; in what
    it logs every generation has length 6, succeeds, and yields a code
    on which [ValidateShortCode] returns nil, so the code it returns
    has the shape asked of custom codes; and it has made 6 draws for
    each generation. *)
Theorem generateUniqueShortCode_healthy :
  forall (S : Type) (repo : URLRepository S) (w : World S),
    Rand.healthy 62 60 (rand w) ->
    let run := generateUniqueShortCode w in
    returned (fst run)
    /\ exists new,
         log (snd run) = (log w ++ new)%list
         /\ Forall wellGenerated new
         /\ (forall code, fst run = Done (Ok code) ->
                          ValidateShortCode validator code = None)
         /\ Rand.pos (rand (snd run))
            = (Rand.pos (rand w)
               + 6 * List.length (filter isGeneration new))%nat.
Proof.
  intros S repo w Hrd. apply (loop_healthy 10 w). exact Hrd.
Qed.

Lemma counting_healthy (n : nat) : Rand.healthy 62 n InMemory.counting.
Proof.
  intros i Hi. exists (Z.of_nat i mod 62). split; [reflexivity | ].
  apply Z.mod_pos_bound. reflexivity.
Qed.

(** The statement at the in-memory store that holds "012345", on the
    source whose [i]-th draw is [i mod 62]: two generations, twelve
    draws. *)
Lemma generateUniqueShortCode_healthy_witness :
  let w := InMemory.world [ InMemory.record "012345" "https://example.com/a" ]
                          InMemory.counting in
  returned (fst (generateUniqueShortCode (repo := InMemory.memRepo) w))
  /\ Rand.pos (rand (snd (generateUniqueShortCode (repo := InMemory.memRepo) w)))
     = 12%nat.
Proof.
  cbn zeta.
  destruct (@generateUniqueShortCode_healthy
              _ InMemory.memRepo
              (InMemory.world
                 [ InMemory.record "012345" "https://example.com/a" ]
                 InMemory.counting)
              (@counting_healthy 60%nat))
    as (Hret & new & Hlog & _ & _ & Hpos).
  split; [exact Hret | ].
  rewrite Hpos. cbn [InMemory.world log app] in Hlog.
  rewrite <- Hlog. vm_compute. reflexivity.
Defined.

(** X8.  On a random source that serves the next 60 draws, whatever
    the parser and the repository: [CreateShortURL] does not panic, and
    every record it hands to [Create] has a URL on which [ValidateURL]
    returns nil, a code on which [ValidateShortCode] returns nil, be it
    the custom code or a generated one, and access count 0. *)
Theorem created_records_are_well_formed :
  forall (std : GoStd) (S : Type) (repo : URLRepository S)
         (req : Dto.CreateURLRequest) (w : World S),
    Rand.healthy 62 60 (rand w) ->
    let run := CreateShortURL req w in
    returned (fst run)
    /\ exists handed,
         creates (log (snd run)) = (creates (log w) ++ handed)%list
         /\ Forall wellFormed handed.
Proof.
  intros std S repo req w Hrd run. unfold run; clear run.
  destruct (generateUniqueShortCode_healthy repo w Hrd)
    as (Hret & _ & _ & _ & Hcode & _).
  split.
  - destruct (ValidateURL validator (Dto.URL req)) as [err | ] eqn:Hurl.
    { rewrite (CreateShortURL_invalid_url req w Hurl). eexists. reflexivity. }
    destruct (Dto.CustomCode req) as [custom | ] eqn:Hcustom.
    + destruct (ValidateShortCode validator custom) as [err | ] eqn:Hshape.
      { rewrite (CreateShortURL_invalid_code req w Hurl Hcustom Hshape).
        eexists. reflexivity. }
      rewrite (CreateShortURL_custom req w Hurl Hcustom Hshape).
      destruct (ExistsByShortCode custom (store w)) as [[[ | ] | err] s'];
        try (eexists; reflexivity).
      cbn zeta.
      destruct (Create (newShortURL (Dto.URL req) custom) s') as [created s''].
      eexists. reflexivity.
    + rewrite (CreateShortURL_auto req w Hurl Hcustom).
      destruct Hret as (a & Ha).
      destruct (generateUniqueShortCode w) as [r w1]. cbn [fst] in Ha.
      subst r. destruct a as [code | err]; [ | eexists; reflexivity].
      cbn zeta.
      destruct (Create (newShortURL (Dto.URL req) code) (store w1))
        as [created s2].
      eexists. reflexivity.
  - destruct (CreateOrchestration.CreateShortURL_creates req w)
      as [(Hsame & _) | (code & Hurl & Hres & Hone)].
    + exists []. rewrite app_nil_r. split; [exact Hsame | constructor].
    + exists [newShortURL (Dto.URL req) code]. split; [exact Hone | ].
      constructor; [ | constructor].
      split; [exact Hurl | split; [ | reflexivity] ].
      cbn [newShortURL Models.ShortCode]. unfold resolved in Hres.
      destruct (Dto.CustomCode req) as [custom | ].
      * destruct Hres as (_ & Hshape & _). exact Hshape.
      * apply Hcode. exact Hres.
Qed.

(** The statement at a request without custom code on the empty
    in-memory store. *)
Lemma created_records_are_well_formed_witness :
  exists handed,
    creates (log (snd (CreateShortURL
                         (std := go_std) (repo := InMemory.memRepo)
                         (Scenarios.request "https://example.com/a" None)
                         Scenarios.emptyStore)))
    = handed
    /\ Forall (wellFormed (std := go_std)) handed.
Proof.
  destruct (@created_records_are_well_formed
              go_std _ InMemory.memRepo
              (Scenarios.request "https://example.com/a" None)
              Scenarios.emptyStore (@counting_healthy 60%nat))
    as (_ & handed & Hlog & Hall).
  exists handed. split; [exact Hlog | exact Hall].
Defined.

End ServiceRules.

Module ServiceReads.
Import Validator Services Observe ObserveMore Resolver CreateFlow.

(** X9.  Whatever the repository and the world:
    - [GetStatistics] makes one call, the lookup, leaves the store as
      the lookup left it, writes nothing, and answers a record found
      with its access count;
    - [GetOriginalURL] calls [IncrementAccessCount] once, after a
      lookup that succeeded, and not at all after one that failed; when
      the increment fails it returns an InternalError wrapping its
      error although the record was found; when it succeeds it answers
      with the record as the lookup read it, without an access
      count. *)
Theorem reads_and_counts :
  forall (S : Type) (repo : URLRepository S) (shortCode : string) (w : World S),
    let looked := GetByShortCode shortCode (store w) in
    let stats := GetStatistics shortCode w in
    let redirect := GetOriginalURL shortCode w in
    (log (snd stats)
     = (log w ++ [EvGetByShortCode shortCode (fst looked)])%list
     /\ store (snd stats) = snd looked
     /\ (forall found, fst looked = Ok (Some found) ->
                       fst stats = Done (Ok (statsOf found))))
    /\ (forall err, fst looked = Err err ->
                    log (snd redirect)
                    = (log w ++ [EvGetByShortCode shortCode (Err err)])%list
                    /\ store (snd redirect) = snd looked)
    /\ (forall p, fst looked = Ok p ->
          let bumped := IncrementAccessCount shortCode (snd looked) in
          log (snd redirect)
          = (log w ++ [ EvGetByShortCode shortCode (Ok p);
                        EvIncrementAccessCount shortCode (fst bumped) ])%list
          /\ store (snd redirect) = snd bumped
          /\ (forall err, fst bumped = Some err ->
                          fst redirect = Done (Err (errIncrement err))
                          /\ code_of (errIncrement err)
                             = Some ErrorCodeInternal)
          /\ (forall found, p = Some found -> fst bumped = None ->
                            fst redirect = Done (Ok (redirectOf found)))).
Proof.
  intros S repo shortCode w looked stats redirect.
  unfold stats, redirect, looked; clear stats redirect looked.
  unfold GetStatistics, GetOriginalURL, bind, callRepo, ret, deref, panic.
  destruct (GetByShortCode shortCode (store w)) as [[p | err] s1];
    cbn [fst snd store rand log].
  - split; [ | split ].
    + destruct p as [found | ]; cbn [fst snd store log].
      * split; [reflexivity | split; [reflexivity | ] ].
        intros found' E. injection E as <-. reflexivity.
      * split; [reflexivity | split; [reflexivity | ] ].
        intros found' E. discriminate E.
    + intros err E. discriminate E.
    + intros p' E. injection E as <-. cbn zeta.
      destruct (IncrementAccessCount shortCode s1) as [[err | ] s2];
        cbn [fst snd store rand log].
      * split; [rewrite <- app_assoc; reflexivity | ].
        split; [reflexivity | split].
        -- intros err' E. injection E as <-. split; reflexivity.
        -- intros found _ E. discriminate E.
      * destruct p as [found | ]; cbn [fst snd store log].
        -- split; [rewrite <- app_assoc; reflexivity | ].
           split; [reflexivity | split].
           ++ intros err' E. discriminate E.
           ++ intros found' E _. injection E as <-. reflexivity.
        -- split; [rewrite <- app_assoc; reflexivity | ].
           split; [reflexivity | split].
           ++ intros err' E. discriminate E.
           ++ intros found' E. discriminate E.
  - split; [ | split ].
    + split; [reflexivity | split; [reflexivity | ] ].
      intros found E. discriminate E.
    + intros err' E. injection E as <-. split; reflexivity.
    + intros p E. discriminate E.
Qed.

(** The statement at the in-memory store that holds "golang": the
    redirect bumps the count, the statistics that follow show it. *)
Lemma reads_and_counts_witness :
  let w := InMemory.world [ InMemory.record "golang" "https://go.dev/" ]
                          InMemory.counting in
  let after := snd (GetOriginalURL (repo := InMemory.memRepo) "golang" w) in
  fst (GetOriginalURL (repo := InMemory.memRepo) "golang" w)
  = Done (Ok {| Dto.ID := "rec-golang";
                Dto.RespURL := "https://go.dev/";
                Dto.ShortCode := "golang";
                Dto.AccessCount := 0;
                Dto.CreatedAt := 0;
                Dto.UpdatedAt := 0 |})
  /\ fst (GetStatistics (repo := InMemory.memRepo) "golang" after)
     = Done (Ok {| Dto.ID := "rec-golang";
                   Dto.RespURL := "https://go.dev/";
                   Dto.ShortCode := "golang";
                   Dto.AccessCount := 1;
                   Dto.CreatedAt := 0;
                   Dto.UpdatedAt := 0 |}).
Proof.
  cbn zeta. split.
  - destruct (reads_and_counts
                InMemory.memRepo "golang"
                (InMemory.world [ InMemory.record "golang" "https://go.dev/" ]
                                InMemory.counting))
      as (_ & _ & Hfound).
    destruct (Hfound _ eq_refl) as (_ & _ & _ & Hok).
    rewrite (Hok _ eq_refl eq_refl). reflexivity.
  - match goal with
    | |- fst (GetStatistics "golang" ?w1) = _ =>
        destruct (reads_and_counts InMemory.memRepo "golang" w1)
          as ((_ & _ & Hstats) & _)
    end.
    rewrite (Hstats _ eq_refl). reflexivity.
Defined.

Section AnyRepository.
Context {std : GoStd} {S : Type} {repo : URLRepository S}.

Lemma no_new_create (before after : list Event) (pre : list Event)
    (rec : Models.ShortURL) (r : result Models.ShortURL) :
  creates after = creates before ->
  after = (before ++ pre ++ [EvCreate rec r])%list -> False.
Proof.
  intros Hsame E. rewrite E in Hsame. rewrite !creates_app in Hsame.
  apply (f_equal (@List.length _)) in Hsame.
  rewrite !length_app in Hsame. cbn in Hsame. lia.
Qed.

End AnyRepository.

(** When the last thing [CreateShortURL] did is a call of [Create],
    it returns what [Create] returned. *)
Lemma ends_with_Create
    (std : GoStd) (S : Type) (repo : URLRepository S)
    (req : Dto.CreateURLRequest) (w : World S)
    (pre : list Event) (rec : Models.ShortURL) (r : result Models.ShortURL) :
  log (snd (CreateShortURL req w)) = (log w ++ pre ++ [EvCreate rec r])%list ->
  fst (CreateShortURL req w) = Done (respond r).
Proof.
  intros Hlog.
  destruct (ValidateURL validator (Dto.URL req)) as [err | ] eqn:Hurl.
  { rewrite (CreateShortURL_invalid_url req w Hurl) in Hlog.
    exfalso. eapply no_new_create; [ | exact Hlog]. reflexivity. }
  destruct (Dto.CustomCode req) as [custom | ] eqn:Hcustom.
  - destruct (ValidateShortCode validator custom) as [err | ] eqn:Hshape.
    { rewrite (CreateShortURL_invalid_code req w Hurl Hcustom Hshape) in Hlog.
      exfalso. eapply no_new_create; [ | exact Hlog]. reflexivity. }
    rewrite (CreateShortURL_custom req w Hurl Hcustom Hshape) in *.
    destruct (ExistsByShortCode custom (store w)) as [[[ | ] | err] s'].
    + exfalso. eapply no_new_create; [ | exact Hlog].
      cbn [snd log]. rewrite creates_app, app_nil_r. reflexivity.
    + cbn zeta in *.
      destruct (Create (newShortURL (Dto.URL req) custom) s') as [created s''].
      cbn [fst snd log] in *.
      rewrite <- app_assoc, (app_assoc (log w)) in Hlog.
      rewrite (app_assoc (log w) pre) in Hlog.
      apply app_inj_tail in Hlog. destruct Hlog as (_ & E).
      injection E as _ <-. reflexivity.
    + exfalso. eapply no_new_create; [ | exact Hlog].
      cbn [snd log]. rewrite creates_app, app_nil_r. reflexivity.
  - rewrite (CreateShortURL_auto req w Hurl Hcustom) in *.
    pose proof (CreateOrchestration.generateUniqueShortCode_creates w)
      as Hnone.
    destruct (generateUniqueShortCode w) as [[[code | err] | reason] w1];
      cbn [fst snd] in *.
    + cbn zeta in *.
      destruct (Create (newShortURL (Dto.URL req) code) (store w1))
        as [created s2].
      cbn [fst snd log] in *.
      rewrite (app_assoc (log w) pre) in Hlog.
      apply app_inj_tail in Hlog. destruct Hlog as (_ & E).
      injection E as _ <-. reflexivity.
    + exfalso. eapply no_new_create; [exact Hnone | exact Hlog].
    + exfalso. eapply no_new_create; [exact Hnone | exact Hlog].
Qed.

(** X10.  Whatever the parser, the repository and the world: when the
    last thing [CreateShortURL] did is a call of [Create], what it
    returns is what [Create] returned: its error as it is, not wrapped,
    a duplicate reported by the store included; or a response with the
    id and the timestamps of the record [Create] filled in. *)
Theorem create_outcome_is_returned :
  forall (std : GoStd) (S : Type) (repo : URLRepository S)
         (req : Dto.CreateURLRequest) (w : World S)
         (pre : list Event) (rec : Models.ShortURL)
         (r : result Models.ShortURL),
    log (snd (CreateShortURL req w))
    = (log w ++ pre ++ [EvCreate rec r])%list ->
    fst (CreateShortURL req w) = Done (respond r)
    /\ (forall err, r = Err err ->
                    fst (CreateShortURL req w) = Done (Err err))
    /\ (forall stored, r = Ok stored ->
          exists resp,
            fst (CreateShortURL req w) = Done (Ok resp)
            /\ Dto.ID resp = Models.ID stored
            /\ Dto.CreatedAt resp = Models.Created stored
            /\ Dto.UpdatedAt resp = Models.Updated stored).
Proof.
  intros std S repo req w pre rec r Hlog.
  pose proof (@ends_with_Create std S repo req w pre rec r Hlog) as Hmain.
  split; [exact Hmain | split].
  - intros err E. rewrite Hmain, E. reflexivity.
  - intros stored E. rewrite Hmain, E. cbn [respond].
    eexists. split; [reflexivity | split; [ | split ] ]; reflexivity.
Qed.

(** The statement at a store that refuses every POST as a conflict
    although its list is empty: the duplicate comes back as it is. *)
Lemma create_outcome_is_returned_witness :
  fst (CreateShortURL (std := go_std)
         (repo := Canned.repository Canned.conflicting)
         (Scenarios.request "https://example.com/a" (Some "golang"))
         (Canned.world InMemory.counting))
  = Done (Err (NewDuplicateError "repository.Create"
                                 "short code already exists")).
Proof.
  refine (proj1 (proj2 (@create_outcome_is_returned
                          go_std _ (Canned.repository Canned.conflicting)
                          (Scenarios.request "https://example.com/a"
                                             (Some "golang"))
                          (Canned.world InMemory.counting)
                          [EvExistsByShortCode "golang" (Ok false)]
                          (newShortURL "https://example.com/a" "golang")
                          (Err (NewDuplicateError "repository.Create"
                                                  "short code already exists"))
                          _)) _ _); reflexivity.
Defined.

End ServiceReads.

(** ** The PocketBase repository *)

Module PocketBaseRules.
Import Validator Services Observe ObserveMore CreateFlow PocketBase.

(** X11.  The lookup reads every status other than 200 as "not
    found": whatever the store, when the list request is answered with
    another status (a 500 included, whatever the body), then
    [GetByShortCode] fails with the NotFound error,
    [ExistsByShortCode] answers false without error, and
    [CreateShortURL] with that code as a valid custom code goes on to
    call [Create]. *)
Theorem failed_lookups_count_as_absent :
  forall (std : GoStd) (PB : Type)
         (listByShortCode : string -> PB -> Reply * PB)
         (postRecord : pocketBaseCreateRequest -> PB -> Exchange * PB)
         (patchRecord : string -> pocketBaseUpdateRequest -> PB -> Exchange * PB)
         (deleteRecord : string -> PB -> Removal * PB)
         (parsePBTime : string -> Time)
         (code : string) (w : World PB)
         (status : Z) (decoded : result (list pocketBaseRecord)) (pb1 : PB),
    listByShortCode code (store w) = (Response status decoded, pb1) ->
    status <> StatusOK ->
    let impl := urlRepositoryImpl listByShortCode postRecord patchRecord
                                  deleteRecord parsePBTime in
    impl_GetByShortCode listByShortCode parsePBTime code (store w)
    = (Err errLookupNotFound, pb1)
    /\ impl_ExistsByShortCode listByShortCode parsePBTime code (store w)
       = (Ok false, pb1)
    /\ (forall req,
           ValidateURL validator (Dto.URL req) = None ->
           Dto.CustomCode req = Some code ->
           ValidateShortCode validator code = None ->
           let shortURL := newShortURL (Dto.URL req) code in
           log (snd (CreateShortURL (repo := impl) req w))
           = (log w ++ [ EvExistsByShortCode code (Ok false);
                         EvCreate shortURL
                           (fst (impl_Create postRecord parsePBTime
                                             shortURL pb1)) ])%list).
Proof.
  intros std PB listByShortCode postRecord patchRecord deleteRecord
         parsePBTime code w status decoded pb1 Hlist Hstatus impl.
  assert (Hget : impl_GetByShortCode listByShortCode parsePBTime code (store w)
                 = (Err errLookupNotFound, pb1)).
  { unfold impl_GetByShortCode. rewrite Hlist.
    apply Z.eqb_neq in Hstatus. rewrite Hstatus. reflexivity. }
  assert (Hexists : impl_ExistsByShortCode listByShortCode parsePBTime
                                           code (store w)
                    = (Ok false, pb1)).
  { unfold impl_ExistsByShortCode, ExistsByShortCode_via.
    rewrite Hget. reflexivity. }
  split; [exact Hget | split; [exact Hexists | ] ].
  intros req Hurl Hcustom Hshape shortURL.
  rewrite (@CreateFlow.CreateShortURL_custom std PB impl req w code Hurl Hcustom Hshape).
  change (@ExistsByShortCode PB impl code (store w))
    with (impl_ExistsByShortCode listByShortCode parsePBTime code (store w)).
  rewrite Hexists. cbn zeta. fold shortURL.
  change (@Create PB impl shortURL pb1)
    with (impl_Create postRecord parsePBTime shortURL pb1).
  destruct (impl_Create postRecord parsePBTime shortURL pb1) as [created pb2].
  cbn [fst snd log]. rewrite <- app_assoc. reflexivity.
Qed.

(** The statement at the store that answers every request with 500. *)
Lemma failed_lookups_count_as_absent_witness :
  impl_ExistsByShortCode (fun _ n => (Canned.onList Canned.failing, S n))
                         (fun _ => 0) "golang" 0%nat
  = (Ok false, 1%nat).
Proof.
  refine (proj1 (proj2 (@failed_lookups_count_as_absent
                          go_std nat
                          (fun _ n => (Canned.onList Canned.failing, S n))
                          (fun _ n => (Canned.onPost Canned.failing, S n))
                          (fun _ _ n => (Canned.onPatch Canned.failing, S n))
                          (fun _ n => (Canned.onDelete Canned.failing, S n))
                          (fun _ => 0) "golang"
                          (Canned.world InMemory.counting)
                          500 _ 1%nat _ _))).
  - reflexivity.
  - discriminate.
Defined.

Lemma lookup_never_nil (PB : Type)
    (listByShortCode : string -> PB -> Reply * PB)
    (parsePBTime : string -> Time) (code : string) (pb : PB) :
  fst (impl_GetByShortCode listByShortCode parsePBTime code pb) <> Ok None.
Proof.
  unfold impl_GetByShortCode.
  destruct (listByShortCode code pb) as [[err | err | status decoded] pb1];
    try discriminate.
  destruct (negb (status =? StatusOK)); [discriminate | ].
  destruct decoded as [[ | record rest] | err]; discriminate.
Qed.

Lemma Update_never_nil (PB : Type)
    (listByShortCode : string -> PB -> Reply * PB)
    (patchRecord : string -> pocketBaseUpdateRequest -> PB -> Exchange * PB)
    (parsePBTime : string -> Time) (code url : string) (pb : PB) :
  fst (impl_Update listByShortCode patchRecord parsePBTime code url pb)
  <> Ok None.
Proof.
  unfold impl_Update.
  destruct (lookup listByShortCode parsePBTime code pb)
    as [[[shortURL | ] | err] pb1]; try discriminate.
  destruct (patchRecord (Models.ID shortURL) _ pb1)
    as [[err | err | err | status decoded] pb2]; try discriminate.
  destruct (negb (status =? StatusOK)); [discriminate | ].
  destruct decoded as [pbResp | err]; discriminate.
Qed.

(** X12.  The PocketBase repository never returns a nil record with a
    nil error, from [GetByShortCode] or from [Update]; so over it
    [GetOriginalURL], [GetStatistics], [UpdateShortURL] and
    [DeleteShortURL] never dereference nil: whatever the store answers,
    they return and do not panic. *)
Theorem no_nil_record :
  forall (std : GoStd) (PB : Type)
         (listByShortCode : string -> PB -> Reply * PB)
         (postRecord : pocketBaseCreateRequest -> PB -> Exchange * PB)
         (patchRecord : string -> pocketBaseUpdateRequest -> PB -> Exchange * PB)
         (deleteRecord : string -> PB -> Removal * PB)
         (parsePBTime : string -> Time)
         (code : string) (req : Dto.UpdateURLRequest) (w : World PB),
    let impl := urlRepositoryImpl listByShortCode postRecord patchRecord
                                  deleteRecord parsePBTime in
    fst (GetByShortCode (URLRepository := impl) code (store w)) <> Ok None
    /\ fst (Update (URLRepository := impl) code (Dto.NewURL req) (store w))
       <> Ok None
    /\ returned (fst (GetOriginalURL (repo := impl) code w))
    /\ returned (fst (GetStatistics (repo := impl) code w))
    /\ returned (fst (UpdateShortURL (repo := impl) code req w))
    /\ returned (fst (DeleteShortURL (repo := impl) code w)).
Proof.
  intros std PB listByShortCode postRecord patchRecord deleteRecord
         parsePBTime code req w impl.
  pose proof (lookup_never_nil listByShortCode parsePBTime code (store w))
    as Hget.
  pose proof (Update_never_nil listByShortCode patchRecord parsePBTime
                               code (Dto.NewURL req) (store w)) as Hupd.
  split; [exact Hget | split; [exact Hupd | ] ].
  split; [ | split; [ | split ] ].
  - unfold GetOriginalURL, bind, callRepo, ret, deref, panic, returned.
    change (@GetByShortCode PB impl code (store w))
      with (impl_GetByShortCode listByShortCode parsePBTime code (store w)).
    destruct (impl_GetByShortCode listByShortCode parsePBTime code (store w))
      as [[[found | ] | err] pb1]; cbn [fst] in Hget;
      try (contradiction Hget; reflexivity); [ | eexists; reflexivity].
    cbn [store rand log].
    destruct (IncrementAccessCount code pb1) as [[err | ] pb2];
      eexists; reflexivity.
  - unfold GetStatistics, bind, callRepo, ret, deref, panic, returned.
    change (@GetByShortCode PB impl code (store w))
      with (impl_GetByShortCode listByShortCode parsePBTime code (store w)).
    destruct (impl_GetByShortCode listByShortCode parsePBTime code (store w))
      as [[[found | ] | err] pb1]; cbn [fst] in Hget;
      try (contradiction Hget; reflexivity); eexists; reflexivity.
  - unfold UpdateShortURL, returned.
    destruct (ValidateURL validator (Dto.NewURL req));
      [eexists; reflexivity | ].
    unfold bind, callRepo, ret, deref, panic.
    change (@Update PB impl code (Dto.NewURL req) (store w))
      with (impl_Update listByShortCode patchRecord parsePBTime
                        code (Dto.NewURL req) (store w)).
    destruct (impl_Update listByShortCode patchRecord parsePBTime
                          code (Dto.NewURL req) (store w))
      as [[[updated | ] | err] pb1]; cbn [fst] in Hupd;
      try (contradiction Hupd; reflexivity); eexists; reflexivity.
  - unfold DeleteShortURL, callRepo, returned.
    destruct (Delete code (store w)). eexists. reflexivity.
Qed.

(** The statement at the store that holds a record under every code:
    the statistics of "golang" are returned. *)
Lemma no_nil_record_witness :
  returned (fst (GetStatistics (repo := Canned.repository Canned.holding)
                               "golang" (Canned.world InMemory.counting))).
Proof.
  destruct (@no_nil_record
              go_std nat
              (fun _ n => (Canned.onList Canned.holding, S n))
              (fun _ n => (Canned.onPost Canned.holding, S n))
              (fun _ _ n => (Canned.onPatch Canned.holding, S n))
              (fun _ n => (Canned.onDelete Canned.holding, S n))
              (fun _ => 0) "golang"
              {| Dto.NewURL := "https://example.com/b" |}
              (Canned.world InMemory.counting))
    as (_ & _ & _ & H & _).
  exact H.
Defined.

(** X13.  [Create] of the PocketBase repository, whatever the store:
    - the body it posts carries the URL and the code of the record and
      access count 0, whatever count the record has;
    - a response with status 409 is the DuplicateError; with any
      status other than 200, 201 and 409 it is an InternalError whose
      cause names the status;
    - with status 200 or 201 and a body that decodes, the record comes
      back with the id and the timestamps of the response and with its
      own URL, code and count: what the store echoes for these is not
      read; a body that does not decode is an InternalError. *)
Theorem Create_outcomes :
  forall (PB : Type)
         (postRecord : pocketBaseCreateRequest -> PB -> Exchange * PB)
         (parsePBTime : string -> Time)
         (shortURL : Models.ShortURL) (pb : PB),
    snd (impl_Create postRecord parsePBTime shortURL pb)
    = snd (postRecord (bodyOf shortURL) pb)
    /\ forall status decoded pb1,
         postRecord (bodyOf shortURL) pb = (Answered status decoded, pb1) ->
         let created := fst (impl_Create postRecord parsePBTime shortURL pb) in
         (status = StatusConflict ->
          created = Err (NewDuplicateError "repository.Create"
                                           "short code already exists"))
         /\ (status <> StatusOK -> status <> StatusCreated ->
             status <> StatusConflict ->
             created = Err (errStatus "repository.Create" status))
         /\ (status = StatusOK \/ status = StatusCreated ->
             (forall pbResp, decoded = Ok pbResp ->
                created = Ok (filledIn parsePBTime shortURL pbResp))
             /\ (forall err, decoded = Err err ->
                   created = Err (NewInternalError
                                    "repository.Create"
                                    "failed to decode response" (Some err)))).
Proof.
  intros PB postRecord parsePBTime shortURL pb.
  unfold impl_Create. fold (bodyOf shortURL).
  destruct (postRecord (bodyOf shortURL) pb)
    as [[err | err | err | status decoded] pb1] eqn:Hpost.
  1-3: split; [reflexivity | intros status decoded pb1' E; discriminate E].
  split.
  - destruct (negb (status =? StatusOK) && negb (status =? StatusCreated));
      [destruct (status =? StatusConflict) | destruct decoded]; reflexivity.
  - intros status' decoded' pb1' E. injection E as <- <- <-. cbn zeta.
    unfold StatusOK, StatusCreated, StatusConflict.
    split; [ | split ].
    + intros ->. reflexivity.
    + intros H200 H201 H409.
      apply Z.eqb_neq in H200, H201, H409. rewrite H200, H201, H409.
      reflexivity.
    + intros [-> | ->]; cbn [Z.eqb negb andb Pos.eqb]; split;
        intros x ->; reflexivity.
Qed.

(** The statement at the store that accepts every write, for a record
    that claims 41 accesses. *)
Lemma Create_outcomes_witness :
  let shortURL := {| Models.ID := ""; Models.URL := "https://example.com/z";
                     Models.ShortCode := "zzzz"; Models.AccessCount := 41;
                     Models.Created := 0; Models.Updated := 0 |} in
  fst (impl_Create (fun _ n => (Canned.onPost Canned.holding, S n))
                   (fun _ => 0) shortURL 0%nat)
  = Ok {| Models.ID := "r1"; Models.URL := "https://example.com/z";
          Models.ShortCode := "zzzz"; Models.AccessCount := 41;
          Models.Created := 0; Models.Updated := 0 |}.
Proof.
  cbn zeta.
  refine (proj1 (proj2 (proj2 (proj2 (@Create_outcomes
                          nat (fun _ n => (Canned.onPost Canned.holding, S n))
                          (fun _ => 0) _ 0%nat)
                          StatusCreated (Ok Canned.stored) 1%nat _)) _)
                Canned.stored _).
  - reflexivity.
  - right. reflexivity.
  - reflexivity.
Defined.

(** X14.  The writes of the PocketBase repository begin with a
    lookup, and when the lookup fails nothing is written: whatever the
    store and its write endpoints, [Update], [Delete] and
    [IncrementAccessCount] return the error of the lookup as it is and
    leave the store as the lookup left it.  After an empty list that
    error is the NotFound of [GetByShortCode]. *)
Theorem writes_need_a_record :
  forall (PB : Type)
         (listByShortCode : string -> PB -> Reply * PB)
         (patchRecord : string -> pocketBaseUpdateRequest -> PB -> Exchange * PB)
         (deleteRecord : string -> PB -> Removal * PB)
         (parsePBTime : string -> Time)
         (code newURL : string) (pb pb1 : PB),
    (forall err,
        impl_GetByShortCode listByShortCode parsePBTime code pb
        = (Err err, pb1) ->
        impl_Update listByShortCode patchRecord parsePBTime code newURL pb
        = (Err err, pb1)
        /\ impl_Delete listByShortCode deleteRecord parsePBTime code pb
           = (Some err, pb1)
        /\ impl_IncrementAccessCount listByShortCode patchRecord parsePBTime
                                     code pb
           = (Some err, pb1))
    /\ (listByShortCode code pb = (Response StatusOK (Ok []), pb1) ->
        impl_GetByShortCode listByShortCode parsePBTime code pb
        = (Err errLookupNotFound, pb1)).
Proof.
  intros PB listByShortCode patchRecord deleteRecord parsePBTime
         code newURL pb pb1.
  split.
  - intros err Hget.
    unfold impl_Update, impl_Delete, impl_IncrementAccessCount, lookup.
    rewrite Hget. repeat split; reflexivity.
  - intros Hlist. unfold impl_GetByShortCode. rewrite Hlist. reflexivity.
Qed.

(** The statement at the empty store. *)
Lemma writes_need_a_record_witness :
  impl_Delete (fun _ n => (Canned.onList Canned.empty, S n))
              (fun _ n => (Canned.onDelete Canned.empty, S n))
              (fun _ => 0) "golang" 0%nat
  = (Some errLookupNotFound, 1%nat).
Proof.
  destruct (@writes_need_a_record
              nat (fun _ n => (Canned.onList Canned.empty, S n))
              (fun _ _ n => (Canned.onPatch Canned.empty, S n))
              (fun _ n => (Canned.onDelete Canned.empty, S n))
              (fun _ => 0) "golang" "https://example.com/b" 0%nat 1%nat)
    as (Hwrites & Hempty).
  apply (Hwrites errLookupNotFound). apply Hempty. reflexivity.
Defined.

(** X15.  Over the PocketBase repository, whatever the store: for a
    request with a valid URL and a valid custom code that the store
    does not list, answered with status 200 or 201 and a body that
    decodes, [CreateShortURL] returns a response with the id and the
    timestamps of the body, and with the URL of the request and the
    custom code, not what the store echoes for them. *)
Theorem created_response :
  forall (std : GoStd) (PB : Type)
         (listByShortCode : string -> PB -> Reply * PB)
         (postRecord : pocketBaseCreateRequest -> PB -> Exchange * PB)
         (patchRecord : string -> pocketBaseUpdateRequest -> PB -> Exchange * PB)
         (deleteRecord : string -> PB -> Removal * PB)
         (parsePBTime : string -> Time)
         (req : Dto.CreateURLRequest) (code : string) (w : World PB)
         (pb1 pb2 : PB) (status : Z) (pbResp : pocketBaseRecord),
    ValidateURL validator (Dto.URL req) = None ->
    Dto.CustomCode req = Some code ->
    ValidateShortCode validator code = None ->
    listByShortCode code (store w) = (Response StatusOK (Ok []), pb1) ->
    postRecord (bodyOf (newShortURL (Dto.URL req) code)) pb1
    = (Answered status (Ok pbResp), pb2) ->
    status = StatusOK \/ status = StatusCreated ->
    let impl := urlRepositoryImpl listByShortCode postRecord patchRecord
                                  deleteRecord parsePBTime in
    fst (CreateShortURL (repo := impl) req w)
    = Done (Ok {| Dto.ID := pb_ID pbResp;
                  Dto.RespURL := Dto.URL req;
                  Dto.ShortCode := code;
                  Dto.AccessCount := 0;
                  Dto.CreatedAt := parsePBTime (pb_Created pbResp);
                  Dto.UpdatedAt := parsePBTime (pb_Updated pbResp) |})
    /\ store (snd (CreateShortURL (repo := impl) req w)) = pb2.
Proof.
  intros std PB listByShortCode postRecord patchRecord deleteRecord
         parsePBTime req code w pb1 pb2 status pbResp
         Hurl Hcustom Hshape Hlist Hpost Hstatus impl.
  assert (Hexists : impl_ExistsByShortCode listByShortCode parsePBTime
                                           code (store w)
                    = (Ok false, pb1)).
  { unfold impl_ExistsByShortCode, ExistsByShortCode_via, impl_GetByShortCode.
    rewrite Hlist. reflexivity. }
  assert (Hcreate : impl_Create postRecord parsePBTime
                                (newShortURL (Dto.URL req) code) pb1
                    = (Ok (filledIn parsePBTime
                                    (newShortURL (Dto.URL req) code) pbResp),
                       pb2)).
  { unfold impl_Create. fold (bodyOf (newShortURL (Dto.URL req) code)).
    rewrite Hpost. destruct Hstatus as [-> | ->]; reflexivity. }
  rewrite (@CreateFlow.CreateShortURL_custom std PB impl req w code Hurl Hcustom Hshape).
  change (@ExistsByShortCode PB impl code (store w))
    with (impl_ExistsByShortCode listByShortCode parsePBTime code (store w)).
  rewrite Hexists. cbn zeta.
  change (@Create PB impl (newShortURL (Dto.URL req) code) pb1)
    with (impl_Create postRecord parsePBTime
                      (newShortURL (Dto.URL req) code) pb1).
  rewrite Hcreate. split; reflexivity.
Qed.

(** The statement at the empty store that accepts every write. *)
Lemma created_response_witness :
  fst (CreateShortURL (std := go_std)
         (repo := Canned.repository Canned.empty)
         (Scenarios.request "https://example.com/new" (Some "fresh1"))
         (Canned.world InMemory.counting))
  = Done (Ok {| Dto.ID := "r1";
                Dto.RespURL := "https://example.com/new";
                Dto.ShortCode := "fresh1";
                Dto.AccessCount := 0;
                Dto.CreatedAt := 0;
                Dto.UpdatedAt := 0 |}).
Proof.
  refine (proj1 (@created_response
                   go_std nat
                   (fun _ n => (Canned.onList Canned.empty, S n))
                   (fun _ n => (Canned.onPost Canned.empty, S n))
                   (fun _ _ n => (Canned.onPatch Canned.empty, S n))
                   (fun _ n => (Canned.onDelete Canned.empty, S n))
                   (fun _ => 0)
                   (Scenarios.request "https://example.com/new" (Some "fresh1"))
                   "fresh1" (Canned.world InMemory.counting)
                   1%nat 2%nat StatusOK Canned.stored _ _ _ _ _ _));
    try reflexivity.
  left. reflexivity.
Defined.

End PocketBaseRules.

(** ** The handlers *)

Module HandlerRules.
Import Validator Services Observe ObserveMore CreateFlow.

(** [errors.As] stores the service error whose code it reports. *)
Fixpoint As_target_code (e : error) :
  match ErrorsText.As_target e with
  | Some target =>
    exists op code message inner,
      target = ServiceError op code message inner
      /\ As_ServiceError e = Some code
  | None => As_ServiceError e = None
  end.
Proof.
  destruct e as [op code message inner | text [inner | ] ].
  - cbn. exists op, code, message, inner. split; reflexivity.
  - cbn [ErrorsText.As_target As_ServiceError]. apply As_target_code.
  - reflexivity.
Qed.

Lemma handle_status (foreignText : error -> string) (err : error) :
  Handlers.Status (Handlers.handleServiceError foreignText err)
  = statusFor (As_ServiceError err)
  /\ exists e,
       Handlers.Payload (Handlers.handleServiceError foreignText err)
       = Handlers.ErrorBody e
       /\ Handlers.Code e = statusFor (As_ServiceError err).
Proof.
  unfold Handlers.handleServiceError.
  pose proof (As_target_code err) as H.
  destruct (ErrorsText.As_target err) as [target | ].
  - destruct H as (op & code & message & inner & -> & ->).
    destruct code; cbn; split; try reflexivity; eexists; split; reflexivity.
  - rewrite H. cbn. split; [reflexivity | ]. eexists. split; reflexivity.
Qed.

(** X16.  The status of an error answer is decided by the first
    service error of the [Unwrap] chain: 404 exactly for NotFound, 409
    exactly for Duplicate, 400 exactly for Validation and BadRequest,
    500 for Internal and for a chain without service error; the body
    is an error response whose code is that status.  An InternalError
    is answered 500 whatever it wraps, a NotFound included; a foreign
    wrapper changes nothing. *)
Theorem error_status :
  forall (foreignText : error -> string) (err : error),
    let answer := Handlers.handleServiceError foreignText err in
    let code := As_ServiceError err in
    (Handlers.Status answer = 404 <-> code = Some ErrorCodeNotFound)
    /\ (Handlers.Status answer = 409 <-> code = Some ErrorCodeDuplicate)
    /\ (Handlers.Status answer = 400
        <-> code = Some ErrorCodeValidation
            \/ code = Some ErrorCodeBadRequest)
    /\ (Handlers.Status answer = 500
        <-> code = Some ErrorCodeInternal \/ code = None)
    /\ (exists e, Handlers.Payload answer = Handlers.ErrorBody e
                  /\ Handlers.Code e = Handlers.Status answer)
    /\ (forall op message,
           Handlers.Status
             (Handlers.handleServiceError
                foreignText (NewInternalError op message (Some err)))
           = 500)
    /\ (forall text,
           Handlers.Status
             (Handlers.handleServiceError foreignText (Foreign text (Some err)))
           = Handlers.Status answer).
Proof.
  intros foreignText err answer code. unfold answer, code.
  destruct (handle_status foreignText err) as (Hs & e & Hp & Hc).
  rewrite Hs.
  repeat match goal with |- _ /\ _ => split end.
  - destruct (As_ServiceError err) as [[] | ]; cbn; split;
      congruence || discriminate.
  - destruct (As_ServiceError err) as [[] | ]; cbn; split;
      congruence || discriminate.
  - destruct (As_ServiceError err) as [[] | ]; cbn; split;
      try discriminate; auto; intros [H | H]; discriminate H.
  - destruct (As_ServiceError err) as [[] | ]; cbn; split;
      try discriminate; auto; intros [H | H]; discriminate H.
  - exists e. split; [exact Hp | exact Hc].
  - intros op message. reflexivity.
  - intros text.
    rewrite (proj1 (handle_status foreignText (Foreign text (Some err)))).
    reflexivity.
Qed.

(** The statement at the NotFound of a lookup, bare and wrapped. *)
Lemma error_status_witness :
  Handlers.Status (Handlers.handleServiceError (fun _ => "") errLookupNotFound)
  = 404
  /\ Handlers.Status
       (Handlers.handleServiceError
          (fun _ => "") (errIncrement errLookupNotFound))
     = 500.
Proof.
  split.
  - apply (proj1 (error_status (fun _ => "") errLookupNotFound)). reflexivity.
  - destruct (error_status (fun _ => "") errLookupNotFound)
      as (_ & _ & _ & _ & _ & H & _).
    apply H.
Defined.

Lemma ValidateURL_error (std : GoStd) (v : URLValidator) (raw : string)
    (err : error) :
  ValidateURL v raw = Some err -> As_ServiceError err = Some ErrorCodeValidation.
Proof.
  unfold ValidateURL.
  destruct (maxURLLength v <? Strings.len raw);
    [intros E; injection E as <-; reflexivity | ].
  destruct (url_Parse raw) as [parsed | cause];
    [ | intros E; injection E as <-; reflexivity].
  destruct (negb _ && negb _);
    [intros E; injection E as <-; reflexivity | ].
  destruct (isDomainBlocked v _);
    [intros E; injection E as <-; reflexivity | discriminate].
Qed.

Lemma ValidateShortCode_error (v : URLValidator) (code : string) (err : error) :
  ValidateShortCode v code = Some err ->
  As_ServiceError err = Some ErrorCodeValidation.
Proof.
  unfold ValidateShortCode.
  destruct ((Strings.len code <? 4) || (20 <? Strings.len code));
    [intros E; injection E as <-; reflexivity | ].
  generalize (runes code). intros rs. induction rs as [ | r t IH]; cbn.
  - discriminate.
  - destruct (negb (isAlphaNumeric r));
      [intros E; injection E as <-; reflexivity | exact IH].
Qed.

Section AnyRepository.
Context {std : GoStd} {S : Type} {repo : URLRepository S}.
Variable foreignText : error -> string.

(** The create handler on a payload that was bound. *)
Lemma create_handler (req : Dto.CreateURLRequest) (w : World S) :
  Handlers.CreateShortURL foreignText (Ok req) w
  = match Services.CreateShortURL req w with
    | (Done (Err err), w') =>
      (Done (Handlers.handleServiceError foreignText err), w')
    | (Done (Ok resp), w') =>
      (Done {| Handlers.Status := 201;
               Handlers.Payload := Handlers.DataBody resp |}, w')
    | (Panicked reason, w') => (Panicked reason, w')
    end.
Proof.
  unfold Handlers.CreateShortURL, bind, ret.
  destruct (Services.CreateShortURL req w) as [[[resp | err] | reason] w'];
    reflexivity.
Qed.

End AnyRepository.

(** X17.  The create handler, whatever the parser, the repository and
    the world:
    - a payload that could not be bound, a URL that fails validation
      and a custom code of invalid shape are answered 400, and the
      world is untouched: no repository call, no draw;
    - a valid custom code the store reports as existing is answered
      409, a failing existence check 500;
    - when the service ended with a call of [Create], a record returned
      is answered 201, an error with the status of that error, so a
      duplicate reported by the store is answered 409. *)
Theorem create_statuses :
  forall (std : GoStd) (S : Type) (repo : URLRepository S)
         (foreignText : error -> string)
         (req : Dto.CreateURLRequest) (w : World S),
    let handle := Handlers.CreateShortURL foreignText in
    let run := handle (Ok req) w in
    (forall err,
        statusOf (fst (handle (Err err) w)) = Some 400
        /\ snd (handle (Err err) w) = w)
    /\ (forall err,
           ValidateURL validator (Dto.URL req) = Some err ->
           statusOf (fst run) = Some 400 /\ snd run = w)
    /\ (forall code,
           ValidateURL validator (Dto.URL req) = None ->
           Dto.CustomCode req = Some code ->
           (forall err, ValidateShortCode validator code = Some err ->
                        statusOf (fst run) = Some 400 /\ snd run = w)
           /\ (ValidateShortCode validator code = None ->
               fst (ExistsByShortCode code (store w)) = Ok true ->
               statusOf (fst run) = Some 409)
           /\ (forall err, ValidateShortCode validator code = None ->
                           fst (ExistsByShortCode code (store w)) = Err err ->
                           statusOf (fst run) = Some 500))
    /\ (forall pre rec r,
           log (snd run) = (log w ++ pre ++ [EvCreate rec r])%list ->
           (forall stored, r = Ok stored -> statusOf (fst run) = Some 201)
           /\ (forall err, r = Err err ->
                           statusOf (fst run)
                           = Some (statusFor (As_ServiceError err)))).
Proof.
  intros std S repo foreignText req w handle run. unfold run, handle.
  clear run handle.
  split; [ | split; [ | split ] ].
  - intros err. split; reflexivity.
  - intros err Hurl. rewrite create_handler.
    rewrite (CreateShortURL_invalid_url req w Hurl). cbn [fst snd statusOf].
    rewrite (proj1 (handle_status foreignText err)).
    rewrite (@ValidateURL_error std _ _ _ Hurl). split; reflexivity.
  - intros code Hurl Hcustom. split; [ | split ].
    + intros err Hshape. rewrite create_handler.
      rewrite (CreateShortURL_invalid_code req w Hurl Hcustom Hshape).
      cbn [fst snd statusOf].
      rewrite (proj1 (handle_status foreignText err)).
      rewrite (@ValidateShortCode_error _ _ _ Hshape). split; reflexivity.
    + intros Hshape Hexists. rewrite create_handler.
      rewrite (CreateShortURL_custom req w Hurl Hcustom Hshape).
      destruct (ExistsByShortCode code (store w)) as [found s'].
      cbn [fst] in Hexists. subst found. reflexivity.
    + intros err Hshape Hexists. rewrite create_handler.
      rewrite (CreateShortURL_custom req w Hurl Hcustom Hshape).
      destruct (ExistsByShortCode code (store w)) as [found s'].
      cbn [fst] in Hexists. subst found. reflexivity.
  - intros pre rec r Hlog. rewrite create_handler in *.
    assert (Hlog' : log (snd (Services.CreateShortURL req w))
                    = (log w ++ pre ++ [EvCreate rec r])%list).
    { destruct (Services.CreateShortURL req w) as [[[resp | err] | reason] w'];
        exact Hlog. }
    pose proof (@ServiceReads.ends_with_Create std S repo req w pre rec r Hlog')
      as Hr.
    destruct (Services.CreateShortURL req w) as [out w'].
    cbn [fst] in Hr. subst out. split.
    + intros stored ->. reflexivity.
    + intros err ->. cbn [respond fst statusOf].
      rewrite (proj1 (handle_status foreignText err)). reflexivity.
Qed.

(** The statement at a request without scheme on the empty in-memory
    store, and at a store that refuses the POST as a conflict. *)
Lemma create_statuses_witness :
  statusOf (fst (Handlers.CreateShortURL
                   (std := go_std) (repo := InMemory.memRepo) (fun _ => "")
                   (Ok (Scenarios.request "not-a-url" None))
                   Scenarios.emptyStore))
  = Some 400
  /\ statusOf (fst (Handlers.CreateShortURL
                      (std := go_std)
                      (repo := Canned.repository Canned.conflicting)
                      (fun _ => "")
                      (Ok (Scenarios.request "https://example.com/a"
                                             (Some "golang")))
                      (Canned.world InMemory.counting)))
     = Some 409.
Proof.
  split.
  - destruct (@create_statuses go_std _ InMemory.memRepo (fun _ => "")
                (Scenarios.request "not-a-url" None) Scenarios.emptyStore)
      as (_ & H & _).
    apply (H errScheme). reflexivity.
  - destruct (@create_statuses
                go_std _ (Canned.repository Canned.conflicting) (fun _ => "")
                (Scenarios.request "https://example.com/a" (Some "golang"))
                (Canned.world InMemory.counting))
      as (_ & _ & _ & H).
    destruct (H [EvExistsByShortCode "golang" (Ok false)]
                (newShortURL "https://example.com/a" "golang")
                (Err (NewDuplicateError "repository.Create"
                                        "short code already exists"))
                eq_refl) as (_ & Herr).
    rewrite (Herr _ eq_refl). reflexivity.
Defined.

(** X18.  The handlers that take a short code, whatever the
    repository and the world:
    - with an empty code all four answer 400 "Missing short code" and
      the world is untouched, the update handler before it looks at
      the payload;
    - otherwise a lookup that fails is answered with the status of its
      error, 404 for a NotFound, by the redirect and by the
      statistics;
    - a record found whose increment fails is answered 500, whatever
      the error of the increment;
    - a record found is answered 200, by the redirect (when the
      increment succeeds) without access count, by the statistics with
      it; a delete that succeeds is answered 200 with a message. *)
Theorem code_statuses :
  forall (std : GoStd) (S : Type) (repo : URLRepository S)
         (foreignText : error -> string) (shortCode : string) (w : World S),
    let looked := GetByShortCode shortCode (store w) in
    let redirect := Handlers.GetOriginalURL foreignText shortCode w in
    let stats := Handlers.GetStatistics foreignText shortCode w in
    let delete := Handlers.DeleteShortURL foreignText shortCode w in
    (shortCode = EmptyString ->
     redirect = (Done Handlers.missingShortCode, w)
     /\ stats = (Done Handlers.missingShortCode, w)
     /\ delete = (Done Handlers.missingShortCode, w)
     /\ forall bound,
          Handlers.UpdateShortURL foreignText shortCode bound w
          = (Done Handlers.missingShortCode, w))
    /\ (shortCode <> EmptyString ->
        (forall err, fst looked = Err err ->
                     statusOf (fst redirect)
                     = Some (statusFor (As_ServiceError err))
                     /\ statusOf (fst stats)
                        = Some (statusFor (As_ServiceError err)))
        /\ (forall p err,
               fst looked = Ok p ->
               fst (IncrementAccessCount shortCode (snd looked)) = Some err ->
               statusOf (fst redirect) = Some 500)
        /\ (forall found,
               fst looked = Ok (Some found) ->
               (fst (IncrementAccessCount shortCode (snd looked)) = None ->
                fst redirect
                = Done {| Handlers.Status := 200;
                          Handlers.Payload :=
                            Handlers.DataBody (redirectOf found) |})
               /\ fst stats
                  = Done {| Handlers.Status := 200;
                            Handlers.Payload :=
                              Handlers.DataBody (statsOf found) |})
        /\ (fst (Delete shortCode (store w)) = None ->
            fst delete
            = Done {| Handlers.Status := 200;
                      Handlers.Payload :=
                        Handlers.MessageBody
                          "Short URL deleted successfully" |})
        /\ (forall err,
               fst (Delete shortCode (store w)) = Some err ->
               statusOf (fst delete)
               = Some (statusFor (As_ServiceError err)))).
Proof.
  intros std S repo foreignText shortCode w looked redirect stats delete.
  unfold redirect, stats, delete, looked; clear redirect stats delete looked.
  unfold Handlers.GetOriginalURL, Handlers.GetStatistics,
         Handlers.DeleteShortURL, Handlers.UpdateShortURL.
  split.
  - intros ->. cbn [String.eqb]. repeat split; reflexivity.
  - intros Hne. apply String.eqb_neq in Hne. rewrite Hne.
    unfold Services.GetOriginalURL, Services.GetStatistics,
           Services.DeleteShortURL, bind, callRepo, ret, deref, panic.
    destruct (GetByShortCode shortCode (store w)) as [[p | err] s1];
      cbn [fst snd store rand log].
    + split; [intros err E; discriminate E | ].
      split; [ | split ].
      * intros p' err E Hinc. injection E as <-.
        destruct (IncrementAccessCount shortCode s1) as [bumped s2].
        cbn [fst] in Hinc. subst bumped. reflexivity.
      * intros found E. injection E as ->. split; [ | reflexivity].
        intros Hinc.
        destruct (IncrementAccessCount shortCode s1) as [bumped s2].
        cbn [fst] in Hinc. subst bumped. reflexivity.
      * destruct (Delete shortCode (store w)) as [[err | ] s2];
          cbn [fst statusOf]; split; try discriminate; try reflexivity.
        intros err' E. injection E as <-.
        rewrite (proj1 (handle_status foreignText err)). reflexivity.
    + split.
      * intros err' E. injection E as <-. cbn [fst statusOf].
        rewrite (proj1 (handle_status foreignText err)). split; reflexivity.
      * split; [intros p err' E; discriminate E | ].
        split; [intros found E; discriminate E | ].
        destruct (Delete shortCode (store w)) as [[err' | ] s2];
          cbn [fst statusOf]; split; try discriminate; try reflexivity.
        intros err'' E. injection E as <-.
        rewrite (proj1 (handle_status foreignText err')). reflexivity.
Qed.

(** The statement at the empty code, and at a code the empty in-memory
    store does not hold. *)
Lemma code_statuses_witness :
  Handlers.GetOriginalURL (repo := InMemory.memRepo) (fun _ => "") ""
                          Scenarios.emptyStore
  = (Done Handlers.missingShortCode, Scenarios.emptyStore)
  /\ statusOf (fst (Handlers.GetStatistics
                      (repo := InMemory.memRepo) (fun _ => "") "nobody"
                      Scenarios.emptyStore))
     = Some 404.
Proof.
  split.
  - destruct (@code_statuses go_std _ InMemory.memRepo (fun _ => "") ""
                             Scenarios.emptyStore) as (H & _).
    apply H. reflexivity.
  - destruct (@code_statuses go_std _ InMemory.memRepo (fun _ => "") "nobody"
                             Scenarios.emptyStore) as (_ & H).
    destruct H as (H & _); [discriminate | ].
    destruct (H errLookupNotFound eq_refl) as (_ & Hstats).
    rewrite Hstats. reflexivity.
Defined.

Lemma statusFor_few (code : option ErrorCode) : In (statusFor code) statuses.
Proof. destruct code as [[] | ]; cbn; auto 10. Qed.

Lemma handle_few (foreignText : error -> string) (err : error) :
  In (Handlers.Status (Handlers.handleServiceError foreignText err)) statuses.
Proof.
  rewrite (proj1 (handle_status foreignText err)). apply statusFor_few.
Qed.

(** X19.  Whatever the parser, the repository, the world and the
    request, a handler that returns answers with one of six statuses:
    200, 201, 400, 404, 409 or 500. *)
Theorem statuses_are_few :
  forall (std : GoStd) (S : Type) (repo : URLRepository S)
         (foreignText : error -> string)
         (created : result Dto.CreateURLRequest)
         (updated : result Dto.UpdateURLRequest)
         (shortCode : string) (w : World S) (answer : Handlers.Answer),
    fst (Handlers.CreateShortURL foreignText created w) = Done answer
    \/ fst (Handlers.GetOriginalURL foreignText shortCode w) = Done answer
    \/ fst (Handlers.UpdateShortURL foreignText shortCode updated w)
       = Done answer
    \/ fst (Handlers.DeleteShortURL foreignText shortCode w) = Done answer
    \/ fst (Handlers.GetStatistics foreignText shortCode w) = Done answer ->
    In (Handlers.Status answer) statuses.
Proof.
  intros std S repo foreignText created updated shortCode w answer H.
  assert (Hmissing : In (Handlers.Status Handlers.missingShortCode) statuses)
    by (cbn; auto 10).
  destruct H as [H | [H | [H | [H | H] ] ] ].
  - destruct created as [req | err].
    + rewrite create_handler in H.
      destruct (Services.CreateShortURL req w) as [[[resp | err] | reason] w'];
        cbn [fst] in H; try discriminate H; injection H as <-.
      * cbn. auto 10.
      * apply handle_few.
    + injection H as <-. cbn. auto 10.
  - unfold Handlers.GetOriginalURL, bind, ret in H.
    destruct (shortCode =? "")%string;
      [injection H as <-; exact Hmissing | ].
    destruct (Services.GetOriginalURL shortCode w)
      as [[[resp | err] | reason] w'];
      cbn [fst] in H; try discriminate H; injection H as <-.
    + cbn. auto 10.
    + apply handle_few.
  - unfold Handlers.UpdateShortURL, bind, ret in H.
    destruct (shortCode =? "")%string;
      [injection H as <-; exact Hmissing | ].
    destruct updated as [req | err]; [ | injection H as <-; cbn; auto 10].
    destruct (Services.UpdateShortURL shortCode req w)
      as [[[resp | err] | reason] w'];
      cbn [fst] in H; try discriminate H; injection H as <-.
    + cbn. auto 10.
    + apply handle_few.
  - unfold Handlers.DeleteShortURL, bind, ret in H.
    destruct (shortCode =? "")%string;
      [injection H as <-; exact Hmissing | ].
    destruct (Services.DeleteShortURL shortCode w)
      as [[[err | ] | reason] w'];
      cbn [fst] in H; try discriminate H; injection H as <-.
    + apply handle_few.
    + cbn. auto 10.
  - unfold Handlers.GetStatistics, bind, ret in H.
    destruct (shortCode =? "")%string;
      [injection H as <-; exact Hmissing | ].
    destruct (Services.GetStatistics shortCode w)
      as [[[resp | err] | reason] w'];
      cbn [fst] in H; try discriminate H; injection H as <-.
    + cbn. auto 10.
    + apply handle_few.
Qed.

(** The statement at the delete of a code the empty in-memory store
    does not hold. *)
Lemma statuses_are_few_witness :
  In (Handlers.Status
        {| Handlers.Status := 404;
           Handlers.Payload :=
             Handlers.ErrorBody
               {| Handlers.Error := "short URL not found";
                  Handlers.Message :=
                    "repository.GetByShortCode: short URL not found";
                  Handlers.Code := 404 |} |})
     statuses.
Proof.
  apply (@statuses_are_few go_std _ InMemory.memRepo (fun _ => "")
           (Err (Foreign "EOF" None)) (Err (Foreign "EOF" None))
           "nobody" Scenarios.emptyStore).
  right. right. right. left. reflexivity.
Defined.

(** X20.  The text of the cause reaches the client.  Over the
    PocketBase repository, for a request with a valid URL and a valid
    custom code, when the list request fails in transport with [err]:
    the create handler answers 500, [Create] is not called, and the
    message of the body is the whole chain of the error, ending with
    the text of [err]. *)
Theorem cause_is_sent :
  forall (std : GoStd) (PB : Type)
         (listByShortCode : string -> PB -> Reply * PB)
         (postRecord : PocketBase.pocketBaseCreateRequest -> PB
                       -> PocketBase.Exchange * PB)
         (patchRecord : string -> PocketBase.pocketBaseUpdateRequest -> PB
                        -> PocketBase.Exchange * PB)
         (deleteRecord : string -> PB -> PocketBase.Removal * PB)
         (parsePBTime : string -> Time)
         (foreignText : error -> string)
         (req : Dto.CreateURLRequest) (code : string) (w : World PB)
         (err : error) (pb1 : PB),
    ValidateURL validator (Dto.URL req) = None ->
    Dto.CustomCode req = Some code ->
    ValidateShortCode validator code = None ->
    listByShortCode code (store w) = (NoResponse err, pb1) ->
    let impl := PocketBase.urlRepositoryImpl
                  listByShortCode postRecord patchRecord deleteRecord
                  parsePBTime in
    let run := Handlers.CreateShortURL (repo := impl) foreignText (Ok req) w in
    fst run
    = Done {| Handlers.Status := 500;
              Handlers.Payload :=
                Handlers.ErrorBody
                  {| Handlers.Error := "failed to check code existence";
                     Handlers.Message :=
                       "service.CreateShortURL: failed to check code existence: "
                       ++ "repository.GetByShortCode: failed to lookup record: "
                       ++ ErrorsText.ErrorString foreignText err;
                     Handlers.Code := 500 |} |}
    /\ creates (log (snd run)) = creates (log w)
    /\ store (snd run) = pb1.
Proof.
  intros std PB listByShortCode postRecord patchRecord deleteRecord
         parsePBTime foreignText req code w err pb1
         Hurl Hcustom Hshape Hlist impl run.
  unfold run; clear run. rewrite create_handler.
  rewrite (@CreateFlow.CreateShortURL_custom std PB impl req w code Hurl Hcustom Hshape).
  change (@ExistsByShortCode PB impl code (store w))
    with (impl_ExistsByShortCode listByShortCode parsePBTime code (store w)).
  unfold impl_ExistsByShortCode, ExistsByShortCode_via, impl_GetByShortCode.
  rewrite Hlist. cbn [As_ServiceError NewInternalError fst snd log store].
  rewrite Resolver.creates_app, app_nil_r.
  split; [ | split; reflexivity ].
  cbn. reflexivity.
Qed.

(** The statement at a store that cannot be reached, with the text of
    a foreign error read off the error itself. *)
Lemma cause_is_sent_witness :
  fst (Handlers.CreateShortURL
         (std := go_std) (repo := Canned.repository Canned.unreachable)
         (fun e => match e with Foreign text _ => text | _ => EmptyString end)
         (Ok (Scenarios.request "https://example.com/a" (Some "golang")))
         (Canned.world InMemory.counting))
  = Done {| Handlers.Status := 500;
            Handlers.Payload :=
              Handlers.ErrorBody
                {| Handlers.Error := "failed to check code existence";
                   Handlers.Message :=
                     "service.CreateShortURL: failed to check code existence: repository.GetByShortCode: failed to lookup record: dial tcp 127.0.0.1:8090: connect: connection refused";
                   Handlers.Code := 500 |} |}.
Proof.
  refine (proj1 (@cause_is_sent
                   go_std nat
                   (fun _ n => (Canned.onList Canned.unreachable, S n))
                   (fun _ n => (Canned.onPost Canned.unreachable, S n))
                   (fun _ _ n => (Canned.onPatch Canned.unreachable, S n))
                   (fun _ n => (Canned.onDelete Canned.unreachable, S n))
                   (fun _ => 0)
                   (fun e => match e with
                             | Foreign text _ => text
                             | _ => EmptyString
                             end)
                   (Scenarios.request "https://example.com/a" (Some "golang"))
                   "golang" (Canned.world InMemory.counting)
                   Canned.refused 1%nat _ _ _ _));
    reflexivity.
Defined.

End HandlerRules.
